(** * Mint Analytics front end: paging, filtering and export

    A shallow embedding of the React/TypeScript client of the repository
    (services/api.ts, SlicerPanel.tsx, ColumnSlicer.tsx, ExportButton.tsx,
    DataTable.tsx, FileUpload.tsx and App.tsx) together with the properties
    of its view state machine, its filter structure and its export dialog.

    Conventions of the embedding:
    - a JavaScript number that the code only uses as an integer is a [Z];
    - an [async] function is split where it awaits the network: what runs
      before the [await] is a function on the state that also yields the
      request, what runs after it is a function of the reply;
    - an exception is an explicit [Throw] completion, [try]/[catch] is
      [try_catch];
    - a React component is its tuple of [useState] cells; mounting creates
      the cells from the initial values, unmounting drops them. *)

From stdpp Require Import gmap strings list fin_maps pretty.
From Stdlib Require Import ZArith Lia Ascii String.

Open Scope string_scope.
Open Scope Z_scope.

(** ** JavaScript values and control flow *)

Module JS.

(** What a [throw] statement or a rejected promise carries: an [Error]
    object with its message, or any other value. *)
Inductive Thrown : Type :=
| ErrorObj (message : string)
| NonError.

(** The completion of a computation that may throw. *)
Inductive Completion (A : Type) : Type :=
| Normal (a : A)
| Throw (e : Thrown).
Arguments Normal {A} a.
Arguments Throw {A} e.

Definition bind {A B} (c : Completion A) (k : A → Completion B) : Completion B :=
  match c with
  | Normal a => k a
  | Throw e => Throw e
  end.

(** [try { body } catch (error) { handler }] *)
Definition try_catch {A} (body : Completion A) (handler : Thrown → Completion A)
  : Completion A :=
  match body with
  | Normal a => Normal a
  | Throw e => handler e
  end.

(** [error instanceof Error ? error.message : fallback] *)
Definition message_or (fallback : string) (error : Thrown) : string :=
  match error with
  | ErrorObj m => m
  | NonError => fallback
  end.

(** Truthiness of a string: every string but the empty one. *)
Definition truthy_string (s : string) : bool :=
  match s with
  | EmptyString => false
  | String _ _ => true
  end.

(** Parsed JSON; the numbers that matter here are integers. *)
#[local] Unset Elimination Schemes.
Inductive Json : Type :=
| JNull
| JBool (b : bool)
| JNum (n : Z)
| JStr (s : string)
| JArr (items : list Json)
| JObj (fields : list (string * Json)).
#[local] Set Elimination Schemes.

Definition truthy (j : Json) : bool :=
  match j with
  | JNull => false
  | JBool b => b
  | JNum n => negb (n =? 0)%Z
  | JStr s => truthy_string s
  | JArr _ | JObj _ => true
  end.

Fixpoint join (sep : string) (l : list string) : string :=
  match l with
  | [] => ""
  | [s] => s
  | s :: rest => s +:+ sep +:+ join sep rest
  end.

(** [String(j)]: an array joins its items with commas (a [null] item
    renders as nothing), a plain object renders as [[object Object]]. *)
Fixpoint to_String (j : Json) : string :=
  match j with
  | JNull => "null"
  | JBool true => "true"
  | JBool false => "false"
  | JNum n => pretty n
  | JStr s => s
  | JArr items =>
      join "," (List.map (fun i => match i with JNull => "" | _ => to_String i end) items)
  | JObj _ => "[object Object]"
  end.

Fixpoint assoc (k : string) (fields : list (string * Json)) : option Json :=
  match fields with
  | [] => None
  | (k', v) :: rest => if String.eqb k k' then Some v else assoc k rest
  end.

(** [j.name]: reading a property of [null] throws a [TypeError]; a
    primitive or an array has no such property. *)
Definition get_property (j : Json) (name : string) : Completion (option Json) :=
  match j with
  | JNull => Throw (ErrorObj "Cannot read properties of null")
  | JObj fields => Normal (assoc name fields)
  | _ => Normal None
  end.

(** [Number.MAX_SAFE_INTEGER]: up to it, in absolute value, an integer is
    a number of JavaScript and [String] writes out all its digits. *)
Definition MAX_SAFE_INTEGER : Z := 2 ^ 53 - 1.

(** The names every plain object inherits from [Object.prototype].
    Reading one of them on an object that has no key of that name yields
    the inherited member instead of [undefined], and an assignment to
    [__proto__] sets the prototype instead of a key. *)
Definition Object_prototype : list string :=
  ["constructor"; "__defineGetter__"; "__defineSetter__"; "hasOwnProperty";
   "__lookupGetter__"; "__lookupSetter__"; "isPrototypeOf";
   "propertyIsEnumerable"; "toString"; "valueOf"; "__proto__"; "toLocaleString"].

(** A number as the export dialog handles it: [NaN] or an integer. *)
Inductive Num : Type :=
| NaN
| Int (z : Z).

(** [a > b], false when [a] is [NaN]. *)
Definition gt (a : Num) (b : Z) : bool :=
  match a with
  | NaN => false
  | Int z => b <? z
  end.

(** [Math.min(a, b)] *)
Definition Math_min (a : Num) (b : Z) : Num :=
  match a with
  | NaN => NaN
  | Int z => Int (Z.min z b)
  end.

(** *** [parseInt] with no radix argument *)

Definition is_white_space (a : ascii) : bool :=
  let n := nat_of_ascii a in
  ((n =? 32) || (n =? 9) || (n =? 10) || (n =? 11) || (n =? 12) || (n =? 13))%nat.

Fixpoint skip_white_space (s : string) : string :=
  match s with
  | String a rest => if is_white_space a then skip_white_space rest else s
  | EmptyString => s
  end.

Definition digit_value (a : ascii) : option Z :=
  let n := Z.of_nat (nat_of_ascii a) in
  if (48 <=? n) && (n <=? 57) then Some (n - 48)
  else if (97 <=? n) && (n <=? 122) then Some (n - 87)
  else if (65 <=? n) && (n <=? 90) then Some (n - 55)
  else None.

(** The value of the longest prefix of [s] made of digits of [radix];
    [acc] is [None] until a first digit has been read. *)
Fixpoint parse_digits (radix : Z) (s : string) (acc : option Z) : option Z :=
  match s with
  | EmptyString => acc
  | String a rest =>
      match digit_value a with
      | Some d =>
          if d <? radix
          then parse_digits radix rest (Some (radix * default 0 acc + d))
          else acc
      | None => acc
      end
  end.

Definition strip_sign (s : string) : bool * string :=
  match s with
  | String "-" rest => (true, rest)
  | String "+" rest => (false, rest)
  | _ => (false, s)
  end.

Definition strip_hex_prefix (s : string) : Z * string :=
  match s with
  | String "0" (String "x" rest) => (16, rest)
  | String "0" (String "X" rest) => (16, rest)
  | _ => (10, s)
  end.

(** [parseInt(s)].  The result is exact, which is what JavaScript computes
    up to 2^53; above, the rounding of a double keeps the sign, the
    comparison with a smaller integer and the truthiness, which is all
    that the callers look at. *)
Definition parseInt (s : string) : Num :=
  let (negative, s1) := strip_sign (skip_white_space s) in
  let (radix, s2) := strip_hex_prefix s1 in
  match parse_digits radix s2 None with
  | None => NaN
  | Some n => Int (if negative then - n else n)
  end.

(** Truthiness of a number: [NaN] and zero are falsy. *)
Definition truthy_num (n : Num) : bool :=
  match n with
  | NaN => false
  | Int z => negb (z =? 0)
  end.

End JS.

#[export] Instance completion_ret : MRet JS.Completion := @JS.Normal.
#[export] Instance completion_bind : MBind JS.Completion :=
  fun A B k c => JS.bind c k.

(** ** services/api.ts *)

Module Api.
Import JS.

(** A row of the table: column name and cell value, in the order of the
    reply. *)
Definition Row : Type := list (string * Json).

(** [ColumnFilters]: for each constrained column the values allowed. *)
Abbreviation ColumnFilters := (gmap string (list string)).

Record HealthResponse := { status : string }.

Record DataResponse := {
  dr_data : list Row;
  dr_columns : list string;
  dr_total_rows : Z
}.

Record LoadParquetResponse := { lp_message : string; lp_rows : Z }.

Record ParquetFile := {
  pf_name : string;
  pf_path : string;
  pf_relative_path : string;
  pf_size : Z;
  pf_modified : Z
}.

Record ParquetFilesResponse := { files : list ParquetFile }.

Record ColumnValuesResponse := {
  cv_column : string;
  cv_values : list string;
  cv_count : Z
}.

Record FilteredDataResponse := {
  fd_data : list Row;
  fd_columns : list string;
  fd_total_rows : Z;
  fd_filtered_rows : Z;
  fd_filters_applied : bool
}.

(** [ApiResponse<T>]: both fields are optional. *)
Record ApiResponse (T : Type) := { data : option T; error : option string }.
Arguments data {T} _.
Arguments error {T} _.

(** The result of the two export methods. *)
Record ExportResult := { success : bool; export_error : option string }.

(** *** Requests *)

Inductive Endpoint : Type :=
| Health
| LoadParquet
| Data
| FilesParquet
| ExportCsv
| ExportExcel
| ColumnValues (columnName : string)
| DataFiltered.

(** A query parameter stands for the text the code appends: a number for
    its [toString()], a filter object for its [JSON.stringify]. *)
Inductive ParamValue : Type :=
| PNumber (n : Num)
| PText (s : string)
| PFilters (filters : ColumnFilters).

Definition URLSearchParams : Type := list (string * ParamValue).

Definition append (name : string) (value : ParamValue) (params : URLSearchParams)
  : URLSearchParams :=
  (params ++ [(name, value)])%list.

Definition get (name : string) (params : URLSearchParams) : option ParamValue :=
  snd <$> List.find (fun p => String.eqb (fst p) name) params.

Record Request := { endpoint : Endpoint; query : URLSearchParams }.

(** [Object.keys(filters)] *)
Definition Object_keys (filters : ColumnFilters) : list string :=
  (map_to_list filters).*1.

(** *** Replies *)

(** What [fetch] resolves to.  [response.ok] selects how the body is read:
    as [errorData] when it is false, as the payload when it is true; in
    both cases [response.json()] may reject (a malformed body).  A payload
    of [None] is a body that parses to a falsy value. *)
Inductive Reply (T : Type) : Type :=
| NotOk (status_code : Z) (statusText : string) (json : Completion Json)
| Ok (json : Completion (option T)).
Arguments NotOk {T} _ _ _.
Arguments Ok {T} _.

(** The reply with status OK whose body parses to [payload]. *)
Definition ok_with {T} (payload : T) : Completion (Reply T) :=
  Normal (Ok (Normal (Some payload))).

Record Blob := { blob_size : Z; blob_type : string }.

Inductive ExportReply : Type :=
| ExportNotOk (status_code : Z) (statusText : string) (json : Completion Json)
| ExportOk (blob : Completion Blob) (contentDisposition : option string).

(** The parts of the browser the export methods drive: the regular
    expression that reads the file name out of [Content-Disposition]
    (with the quotes removed), and the anchor-and-click sequence that
    hands the blob to the user. *)
Record Browser := {
  match_filename : string → option string;
  trigger_download : string → Blob → Completion unit
}.

Definition http_error (status_code : Z) (statusText : string) : string :=
  "HTTP " +:+ pretty status_code +:+ ": " +:+ statusText.

(** [errorData.detail || `HTTP ${response.status}: ${response.statusText}`] *)
Definition detail_or_http_error (errorData : Json) (status_code : Z) (statusText : string)
  : Completion string :=
  detail ← get_property errorData "detail";
  mret (match detail with
        | Some d => if truthy d then to_String d else http_error status_code statusText
        | None => http_error status_code statusText
        end).

(** [return { error: error instanceof Error ? error.message : 'Unknown error' }] *)
Definition return_error {T} (e : Thrown) : Completion (ApiResponse T) :=
  mret {| data := None; error := Some (message_or "Unknown error" e) |}.

Definition checkHealth (fetch : Request → Completion (Reply HealthResponse))
  : Completion (ApiResponse HealthResponse) :=
  try_catch
    (response ← fetch {| endpoint := Health; query := [] |};
     match response with
     | NotOk status_code statusText _ =>
         Throw (ErrorObj (http_error status_code statusText))
     | Ok json =>
         data ← json;
         mret {| data := data; error := None |}
     end)
    return_error.

Definition load_request (filePath : string) : Request :=
  {| endpoint := LoadParquet; query := [("file_path", PText filePath)] |}.

Definition loadParquet (fetch : Request → Completion (Reply LoadParquetResponse))
  (filePath : string) : Completion (ApiResponse LoadParquetResponse) :=
  try_catch
    (response ← fetch (load_request filePath);
     match response with
     | NotOk status_code statusText json =>
         errorData ← json;
         msg ← detail_or_http_error errorData status_code statusText;
         Throw (ErrorObj msg)
     | Ok json =>
         data ← json;
         mret {| data := data; error := None |}
     end)
    return_error.

Definition data_request (limit offset : Z) : Request :=
  {| endpoint := Data;
     query := [("limit", PNumber (Int limit)); ("offset", PNumber (Int offset))] |}.

Definition getData (fetch : Request → Completion (Reply DataResponse))
  (limit offset : Z) : Completion (ApiResponse DataResponse) :=
  try_catch
    (response ← fetch (data_request limit offset);
     match response with
     | NotOk status_code statusText json =>
         errorData ← json;
         msg ← detail_or_http_error errorData status_code statusText;
         Throw (ErrorObj msg)
     | Ok json =>
         data ← json;
         mret {| data := data; error := None |}
     end)
    return_error.

Definition getParquetFiles (fetch : Request → Completion (Reply ParquetFilesResponse))
  : Completion (ApiResponse ParquetFilesResponse) :=
  try_catch
    (response ← fetch {| endpoint := FilesParquet; query := [] |};
     match response with
     | NotOk status_code statusText json =>
         errorData ← json;
         msg ← detail_or_http_error errorData status_code statusText;
         Throw (ErrorObj msg)
     | Ok json =>
         data ← json;
         mret {| data := data; error := None |}
     end)
    return_error.

(** The query string both export methods build. *)
Definition export_params (limit offset : option Num) (filters : option ColumnFilters)
  : URLSearchParams :=
  let params : URLSearchParams := [] in
  let params := match limit with
                | Some l => append "limit" (PNumber l) params
                | None => params
                end in
  let params := match offset with
                | Some o => append "offset" (PNumber o) params
                | None => params
                end in
  match filters with
  | Some f =>
      if (0 <? List.length (Object_keys f))%nat
      then append "filters" (PFilters f) params
      else params
  | None => params
  end.

Definition export_request (target : Endpoint)
  (limit offset : option Num) (filters : option ColumnFilters) : Request :=
  {| endpoint := target; query := export_params limit offset filters |}.

(** [contentDisposition?.match(...)?.[1]?.replace(...) || default_name] *)
Definition export_filename (browser : Browser) (default_name : string)
  (contentDisposition : option string) : string :=
  match contentDisposition ≫= match_filename browser with
  | Some name => if truthy_string name then name else default_name
  | None => default_name
  end.

Definition export_with (target : Endpoint) (default_name : string)
  (browser : Browser) (fetch : Request → Completion ExportReply)
  (limit offset : option Num) (filters : option ColumnFilters)
  : Completion ExportResult :=
  try_catch
    (response ← fetch (export_request target limit offset filters);
     match response with
     | ExportNotOk status_code statusText json =>
         errorData ← json;
         msg ← detail_or_http_error errorData status_code statusText;
         Throw (ErrorObj msg)
     | ExportOk blob contentDisposition =>
         blob ← blob;
         let filename := export_filename browser default_name contentDisposition in
         _ ← trigger_download browser filename blob;
         mret {| success := true; export_error := None |}
     end)
    (fun e => mret {| success := false;
                      export_error := Some (message_or "Unknown error" e) |}).

Definition exportCSV := export_with ExportCsv "data_export.csv".

Definition exportExcel := export_with ExportExcel "data_export.xlsx".

Definition getColumnValues (fetch : Request → Completion (Reply ColumnValuesResponse))
  (columnName : string) : Completion (ApiResponse ColumnValuesResponse) :=
  try_catch
    (response ← fetch {| endpoint := ColumnValues columnName; query := [] |};
     match response with
     | NotOk status_code statusText json =>
         errorData ← json;
         msg ← detail_or_http_error errorData status_code statusText;
         Throw (ErrorObj msg)
     | Ok json =>
         data ← json;
         mret {| data := data; error := None |}
     end)
    return_error.

(** The query string of [getFilteredData]: [filters] is appended only
    when the filter object has a key. *)
Definition filtered_params (limit offset : Z) (filters : ColumnFilters)
  : URLSearchParams :=
  let params : URLSearchParams := [] in
  let params := append "limit" (PNumber (Int limit)) params in
  let params := append "offset" (PNumber (Int offset)) params in
  if (0 <? List.length (Object_keys filters))%nat
  then append "filters" (PFilters filters) params
  else params.

Definition filtered_request (limit offset : Z) (filters : ColumnFilters) : Request :=
  {| endpoint := DataFiltered; query := filtered_params limit offset filters |}.

Definition getFilteredData (fetch : Request → Completion (Reply FilteredDataResponse))
  (limit offset : Z) (filters : ColumnFilters)
  : Completion (ApiResponse FilteredDataResponse) :=
  try_catch
    (response ← fetch (filtered_request limit offset filters);
     match response with
     | NotOk status_code statusText json =>
         errorData ← json;
         msg ← detail_or_http_error errorData status_code statusText;
         Throw (ErrorObj msg)
     | Ok json =>
         data ← json;
         mret {| data := data; error := None |}
     end)
    return_error.

End Api.

(** ** components/ColumnSlicer.tsx and components/SlicerPanel.tsx *)

Module ColumnSlicer.

(** [selectedValues.includes(value)] *)
Definition includes (values : list string) (value : string) : bool :=
  existsb (String.eqb value) values.

(** [Array.from(new Set(values))]: the first occurrence of each value, in
    order. *)
Fixpoint unique (seen values : list string) : list string :=
  match values with
  | [] => []
  | v :: rest =>
      if includes seen v then unique seen rest else v :: unique (v :: seen) rest
  end.

(** Each handler computes the new selection that it passes, with the
    column name, to [onSelectionChange].  [filteredValues] is the list of
    values the drop-down shows under the current search term. *)
Definition handleValueToggle (selectedValues : list string) (value : string)
  : list string :=
  if includes selectedValues value
  then List.filter (fun v => negb (String.eqb v value)) selectedValues
  else (selectedValues ++ [value])%list.

Definition handleSelectAll (selectedValues filteredValues : list string) : list string :=
  unique [] (selectedValues ++ filteredValues)%list.

Definition handleDeselectAll (selectedValues filteredValues : list string) : list string :=
  List.filter (fun v => negb (includes filteredValues v)) selectedValues.

Definition handleClearAll : list string := [].

(** The [disabled] attribute of the three buttons of the drop-down. *)
Definition selectAll_disabled (selectedValues filteredValues : list string) : bool :=
  forallb (includes selectedValues) filteredValues.

Definition deselectAll_disabled (selectedValues filteredValues : list string) : bool :=
  negb (existsb (includes selectedValues) filteredValues).

Definition clear_disabled (selectedValues : list string) : bool :=
  (List.length selectedValues =? 0)%nat.

(** The text of the drop-down button and whether the filter indicator is
    shown. *)
Definition getDisplayText (selectedValues availableValues : list string) : string :=
  let totalSelected := List.length selectedValues in
  let totalAvailable := List.length availableValues in
  if (totalSelected =? 0)%nat then "All"
  else if (totalSelected =? totalAvailable)%nat then "All"
  else if (totalSelected =? 1)%nat then default "" (head selectedValues)
  else pretty totalSelected +:+ " selected".

Definition hasActiveFilter (selectedValues availableValues : list string) : bool :=
  (0 <? List.length selectedValues)%nat
  && (List.length selectedValues <? List.length availableValues)%nat.

(** The cells of a slicer that [loadColumnValues] writes. *)
Record Values := {
  availableValues : list string;
  loading : bool
}.

(** [loadColumnValues] from its [await] on, given what [getColumnValues]
    resolved to: the updates of the cells and the message passed to
    [onError], if any. *)
Definition loadColumnValues_resume (columnName : string)
  (result : JS.Completion (Api.ApiResponse Api.ColumnValuesResponse))
  : (Values → Values) * option string :=
  let attempt : JS.Completion (Values → Values) :=
    response ← result;
    if JS.truthy_string (default "" (Api.error response))
    then JS.Throw (JS.ErrorObj (default "" (Api.error response)))
    else
      match Api.data response with
      | Some d =>
          mret (fun st => {| availableValues := Api.cv_values d; loading := loading st |})
      | None => mret (fun st => st)
      end in
  match attempt with
  | JS.Normal update =>
      (fun st => {| availableValues := availableValues (update st); loading := false |},
       None)
  | JS.Throw e =>
      (fun st => {| availableValues := availableValues st; loading := false |},
       Some ("Failed to load values for " +:+ columnName +:+ ": "
             +:+ JS.message_or "Unknown error" e))
  end.

End ColumnSlicer.

Module SlicerPanel.
Import Api.

(** The copy [{ ...filters }] with the column deleted or set; the result
    is passed to [onFiltersChange]. *)
Definition handleColumnFilterChange (filters : ColumnFilters)
  (columnName : string) (selectedValues : list string) : ColumnFilters :=
  if (List.length selectedValues =? 0)%nat
  then delete columnName filters
  else <[columnName := selectedValues]> filters.

Definition handleClearAllFilters : ColumnFilters := ∅.

(** [filters[columnName] || []], the selection handed to a column's slicer. *)
Definition selectedValues (filters : ColumnFilters) (columnName : string) : list string :=
  default [] (filters !! columnName).

(** What the user can do in the panel.  The first four are the controls
    of the slicer of one column; [RemoveTag] is the cross on an active
    filter tag. *)
Inductive Action : Type :=
| ValueToggle (columnName value : string)
| SelectAll (columnName : string) (filteredValues : list string)
| DeselectAll (columnName : string) (filteredValues : list string)
| ClearAll (columnName : string)
| RemoveTag (columnName : string)
| ClearAllFilters.

(** The panel renders one slicer per entry of [columns] and one tag per
    key of [filters]: a control that is not rendered cannot be used. *)
Definition rendered (columns : list string) (filters : ColumnFilters) (a : Action) : bool :=
  match a with
  | ValueToggle c _ | SelectAll c _ | DeselectAll c _ | ClearAll c =>
      bool_decide (c ∈ columns)
  | RemoveTag c => bool_decide (c ∈ Object_keys filters)
  | ClearAllFilters => true
  end.

(** The filter object an action passes to [onFiltersChange]. *)
Definition dispatch (filters : ColumnFilters) (a : Action) : ColumnFilters :=
  match a with
  | ValueToggle c value =>
      handleColumnFilterChange filters c
        (ColumnSlicer.handleValueToggle (selectedValues filters c) value)
  | SelectAll c filteredValues =>
      handleColumnFilterChange filters c
        (ColumnSlicer.handleSelectAll (selectedValues filters c) filteredValues)
  | DeselectAll c filteredValues =>
      handleColumnFilterChange filters c
        (ColumnSlicer.handleDeselectAll (selectedValues filters c) filteredValues)
  | ClearAll c => handleColumnFilterChange filters c ColumnSlicer.handleClearAll
  | RemoveTag c => handleColumnFilterChange filters c []
  | ClearAllFilters => handleClearAllFilters
  end.

(** [Object.keys(filters).length], shown in the badge, and whether it is
    positive, which enables the clear-all button. *)
Definition activeFilterCount (filters : ColumnFilters) : nat :=
  List.length (Object_keys filters).

Definition hasActiveFilters (filters : ColumnFilters) : bool :=
  (0 <? List.length (Object_keys filters))%nat.

End SlicerPanel.

(** ** components/ExportButton.tsx *)

Module ExportButton.
Import JS.

Inductive Format : Type := csv | excel.

Record State := {
  showOptions : bool;
  exportLimit : string;
  customLimit : string;
  showWarning : bool
}.

Definition initial : State :=
  {| showOptions := false; exportLimit := "all"; customLimit := ""; showWarning := false |}.

Definition setShowOptions (v : bool) (st : State) : State :=
  {| showOptions := v; exportLimit := exportLimit st;
     customLimit := customLimit st; showWarning := showWarning st |}.

Definition setShowWarning (v : bool) (st : State) : State :=
  {| showOptions := showOptions st; exportLimit := exportLimit st;
     customLimit := customLimit st; showWarning := v |}.

Definition EXCEL_MAX_ROWS : Z := 1048575.

(** The row limit [handleExport] computes from the radio group; [None]
    is [undefined]. *)
Definition chosen_limit (st : State) : option Num :=
  if String.eqb (exportLimit st) "all" then None
  else if String.eqb (exportLimit st) "custom" then
    (if truthy_num (parseInt (customLimit st)) then Some (parseInt (customLimit st)) else None)
  else Some (parseInt (exportLimit st)).

Definition is_excel (format : Format) : bool :=
  match format with excel => true | csv => false end.

(** [format === 'excel' && totalRows > EXCEL_MAX_ROWS &&
     (limit === undefined || limit > EXCEL_MAX_ROWS)] *)
Definition exceeds_excel (format : Format) (totalRows : Z) (limit : option Num) : bool :=
  is_excel format && (EXCEL_MAX_ROWS <? totalRows)
  && match limit with
     | None => true
     | Some l => gt l EXCEL_MAX_ROWS
     end.

(** [handleExport(format)]: the new state and the call of [onExport] it
    makes, if any.  [onExport] tells whether the property was provided. *)
Definition handleExport (totalRows : Z) (onExport : bool) (st : State) (format : Format)
  : State * option (Format * option Num) :=
  let limit := chosen_limit st in
  if exceeds_excel format totalRows limit then (setShowWarning true st, None)
  else if negb onExport then (st, None)
  else (setShowWarning false (setShowOptions false st), Some (format, limit)).

Definition getEffectiveRows (totalRows : Z) (st : State) : Num :=
  if String.eqb (exportLimit st) "all" then Int totalRows
  else if String.eqb (exportLimit st) "custom" then
    Math_min (if truthy_num (parseInt (customLimit st))
              then parseInt (customLimit st) else Int totalRows) totalRows
  else Math_min (parseInt (exportLimit st)) totalRows.

Definition willExceedExcelLimit (totalRows : Z) (st : State) : bool :=
  gt (getEffectiveRows totalRows st) EXCEL_MAX_ROWS.

(** The three buttons of the warning dialog, shown while [showWarning]. *)
Definition warning_csv (totalRows : Z) (onExport : bool) (st : State)
  : State * option (Format * option Num) :=
  handleExport totalRows onExport st csv.

Definition warning_excel (onExport : bool) (st : State)
  : State * option (Format * option Num) :=
  (setShowOptions false (setShowWarning false st),
   if onExport then Some (excel, Some (Int EXCEL_MAX_ROWS)) else None).

Definition warning_cancel (st : State) : State := setShowWarning false st.

End ExportButton.

(** ** components/DataTable.tsx *)

Module DataTable.
Import JS Api.

Record Props := {
  initialData : list Row;
  columns : list string;
  totalRows : Z
}.

(** The six [useState] cells of the component. *)
Record State := {
  data : list Row;
  currentPage : Z;
  pageSize : Z;
  loading : bool;
  filters : ColumnFilters;
  filteredRows : Z
}.

Definition setData (v : list Row) (st : State) : State :=
  {| data := v; currentPage := currentPage st; pageSize := pageSize st;
     loading := loading st; filters := filters st; filteredRows := filteredRows st |}.

Definition setCurrentPage (v : Z) (st : State) : State :=
  {| data := data st; currentPage := v; pageSize := pageSize st;
     loading := loading st; filters := filters st; filteredRows := filteredRows st |}.

Definition setPageSize (v : Z) (st : State) : State :=
  {| data := data st; currentPage := currentPage st; pageSize := v;
     loading := loading st; filters := filters st; filteredRows := filteredRows st |}.

Definition setLoading (v : bool) (st : State) : State :=
  {| data := data st; currentPage := currentPage st; pageSize := pageSize st;
     loading := v; filters := filters st; filteredRows := filteredRows st |}.

Definition setFilters (v : ColumnFilters) (st : State) : State :=
  {| data := data st; currentPage := currentPage st; pageSize := pageSize st;
     loading := loading st; filters := v; filteredRows := filteredRows st |}.

Definition setFilteredRows (v : Z) (st : State) : State :=
  {| data := data st; currentPage := currentPage st; pageSize := pageSize st;
     loading := loading st; filters := filters st; filteredRows := v |}.

(** The initial values of the cells. *)
Definition initial (props : Props) : State :=
  {| data := initialData props; currentPage := 1; pageSize := 100;
     loading := false; filters := ∅; filteredRows := totalRows props |}.

(** [Math.ceil(filteredRows / pageSize)].  With floor division,
    [- ((- a) / b)] is the ceiling of the quotient for every non-zero
    [b]; the page size is never zero (it comes from the selector). *)
Definition totalPages (st : State) : Z :=
  - ((- filteredRows st) / pageSize st).

(** The arguments a call of [loadPage] keeps while it awaits the reply. *)
Record Call := {
  page : Z;
  size : Z;
  currentFilters : ColumnFilters
}.

(** The offset [loadPage] computes and the request it sends. *)
Definition offset_of (c : Call) : Z := (page c - 1) * size c.

Definition request_of (c : Call) : Request :=
  filtered_request (size c) (offset_of c) (currentFilters c).

(** [loadPage] up to its [await]: the loading flag is raised and the
    request goes out. *)
Definition loadPage (st : State) (page size : Z) (currentFilters : ColumnFilters)
  : State * option Call :=
  (setLoading true st,
   Some {| page := page; size := size; currentFilters := currentFilters |}).

(** [loadPage] from its [await] on, given what [getFilteredData] resolved
    to: the updates of the cells it asks for and the message passed to
    [onError], if any.  The [finally] clause lowers the loading flag on
    both paths.  (React applies the updates when the instance is still
    mounted and drops them otherwise.) *)
Definition loadPage_resume (c : Call)
  (result : Completion (ApiResponse FilteredDataResponse))
  : (State → State) * option string :=
  let attempt : Completion (State → State) :=
    response ← result;
    if truthy_string (default "" (error response))
    then Throw (ErrorObj (default "" (error response)))
    else
      match Api.data response with
      | Some d =>
          mret (fun st => setFilteredRows (fd_filtered_rows d)
                            (setCurrentPage (page c) (setData (fd_data d) st)))
      | None => mret (fun st => st)
      end in
  match attempt with
  | Normal update => (fun st => setLoading false (update st), None)
  | Throw e => (setLoading false, Some (message_or "Failed to load data" e))
  end.

Definition handlePageChange (st : State) (page : Z) : State * option Call :=
  if (1 <=? page) && (page <=? totalPages st) && negb (page =? currentPage st)
  then loadPage st page (pageSize st) (filters st)
  else (st, None).

Definition handlePageSizeChange (st : State) (size : Z) : State * option Call :=
  loadPage (setPageSize size st) 1 size (filters st).

Definition handleFiltersChange (st : State) (newFilters : ColumnFilters)
  : State * option Call :=
  loadPage (setCurrentPage 1 (setFilters newFilters st)) 1 (pageSize st) newFilters.

(** The effect that depends on [initialData], [totalRows] and [filters]:
    it runs after the first render and after every render in which one
    of the three is a new value. *)
Definition useEffect (props : Props) (st : State) : State :=
  if (List.length (Object_keys (filters st)) =? 0)%nat
  then setFilteredRows (totalRows props) (setData (initialData props) st)
  else st.

Definition mount (props : Props) : State := useEffect props (initial props).

Definition export_endpoint (format : ExportButton.Format) : Endpoint :=
  match format with
  | ExportButton.csv => ExportCsv
  | ExportButton.excel => ExportExcel
  end.

(** [handleExport] up to its [await]: the request [exportCSV] or
    [exportExcel] sends for [(limit, 0, filters)]. *)
Definition handleExport (st : State) (format : ExportButton.Format) (limit : option Num)
  : Request :=
  export_request (export_endpoint format) limit (Some (Int 0)) (Some (filters st)).

(** [handleExport] from its [await] on: the message passed to [onError],
    if any. *)
Definition handleExport_resume (result : Completion ExportResult) : option string :=
  match result with
  | Normal r =>
      if negb (success r) && truthy_string (default "" (export_error r))
      then Some ("Export failed: " +:+ default "" (export_error r))
      else None
  | Throw e => Some ("Export failed: " +:+ message_or "Unknown error" e)
  end.

(** The loop [for (let i = start; i <= end; i++) pages.push(i)]; [n]
    bounds the number of iterations. *)
Fixpoint push_pages (n : nat) (i last : Z) : list Z :=
  match n with
  | O => []
  | S n' => if i <=? last then i :: push_pages n' (i + 1) last else []
  end.

Definition getPageNumbers (st : State) : list Z :=
  let start := Z.max 1 (currentPage st - 2) in
  let last := Z.min (totalPages st) (currentPage st + 2) in
  push_pages (Z.to_nat (last - start + 1)) start last.

(** The two numbers of the [Showing: a - b] summary. *)
Definition showing (st : State) : Z * Z :=
  ((currentPage st - 1) * pageSize st + 1,
   Z.min (currentPage st * pageSize st) (filteredRows st)).

(** The [disabled] attribute of the First and Previous buttons, and of
    the Next and Last buttons. *)
Definition previous_disabled (st : State) : bool := currentPage st =? 1.

Definition next_disabled (st : State) : bool := currentPage st =? totalPages st.

End DataTable.

(** ** App.tsx *)

Module App.
Import Api.

Record State := {
  data : option DataResponse;
  loading : bool;
  error : option string
}.

Definition initial : State := {| data := None; loading := false; error := None |}.

Definition handleDataLoaded (response : DataResponse) (st : State) : State :=
  {| data := Some response; loading := loading st; error := None |}.

Definition handleError (errorMessage : string) (st : State) : State :=
  {| data := None; loading := loading st; error := Some errorMessage |}.

Definition clearData (st : State) : State :=
  {| data := None; loading := loading st; error := None |}.

Definition setLoading (v : bool) (st : State) : State :=
  {| data := data st; loading := v; error := error st |}.

(** [data && !loading]: whether the render contains the [DataTable]. *)
Definition shows_table (st : State) : bool :=
  match data st with
  | Some _ => negb (loading st)
  | None => false
  end.

(** [error && ...]: whether the render contains the error box. *)
Definition shows_error (st : State) : bool :=
  JS.truthy_string (default "" (error st)).

(** The properties [App] passes to [DataTable]. *)
Definition table_props (d : DataResponse) : DataTable.Props :=
  {| DataTable.initialData := dr_data d;
     DataTable.columns := dr_columns d;
     DataTable.totalRows := dr_total_rows d |}.

End App.

(** ** components/ApiStatus.tsx *)

Module ApiStatus.
Import JS Api.

Inductive Status : Type := checking | online | offline.

(** [checkStatus]: the status it sets once [checkHealth] has resolved. *)
Definition checkStatus (fetch : Request → Completion (Reply HealthResponse))
  : Completion Status :=
  response ← checkHealth fetch;
  mret (if truthy_string (default "" (error response)) then offline else online).

End ApiStatus.

(** ** components/FileUpload.tsx *)

Module FileUpload.
Import JS Api.

(** The calls [handleLoadFile] makes on the properties [App] gave it. *)
Inductive Callback : Type :=
| onDataLoaded (d : DataResponse)
| onError (message : string)
| onLoadingChange (v : bool).

Fixpoint reverse (s acc : string) : string :=
  match s with
  | EmptyString => acc
  | String a rest => reverse rest (String a acc)
  end.

(** [filePath.trim()] *)
Definition trim (s : string) : string :=
  reverse (skip_white_space (reverse (skip_white_space s) "")) "".

(** [handleLoadFile(path)] up to its first [await]: the callbacks made
    and the path sent to [loadParquet], if any. *)
Definition handleLoadFile (filePath : string) (path : option string)
  : list Callback * option string :=
  let targetPath :=
    if truthy_string (default "" path) then default "" path else trim filePath in
  if negb (truthy_string targetPath)
  then ([onError "Please select or enter a file path"], None)
  else ([onLoadingChange true], Some targetPath).

(** From the reply of [loadParquet] to the second [await]: either the
    error path through [catch] and [finally], or the call of
    [getData(1000, 0)] ([true]). *)
Definition after_loadParquet (loadResponse : Completion (ApiResponse LoadParquetResponse))
  : list Callback * bool :=
  let attempt : Completion unit :=
    response ← loadResponse;
    if truthy_string (default "" (error response))
    then Throw (ErrorObj (default "" (error response)))
    else mret () in
  match attempt with
  | Normal _ => ([], true)
  | Throw e => ([onError (message_or "Unknown error occurred" e); onLoadingChange false], false)
  end.

(** From the reply of [getData] to the end. *)
Definition after_getData (dataResponse : Completion (ApiResponse DataResponse))
  : list Callback :=
  let attempt : Completion (list Callback) :=
    response ← dataResponse;
    if truthy_string (default "" (error response))
    then Throw (ErrorObj (default "" (error response)))
    else
      match Api.data response with
      | Some d => mret [onDataLoaded d]
      | None => mret []
      end in
  match attempt with
  | Normal calls => (calls ++ [onLoadingChange false])%list
  | Throw e => [onError (message_or "Unknown error occurred" e); onLoadingChange false]
  end.

End FileUpload.

(** ** The running application

    [App] with its [FileUpload] and, while [data && !loading], its
    [DataTable]; the calls that await a reply; the requests sent so far.
    One event is one user action or one reply.  Replies may come in any
    order: the event names the awaiting call it completes. *)

Module System.
Import JS Api.

(** A call suspended at an [await].  A [loadPage] call belongs to the
    table instance that made it, identified by its mount number. *)
Inductive Pending : Type :=
| PendingPage (instance : nat) (call : DataTable.Call)
| PendingExport (format : ExportButton.Format) (limit : option Num)
    (filters : ColumnFilters)
| PendingLoadParquet (targetPath : string)
| PendingGetData.

Record State := {
  app : App.State;
  filePath : string;
  table : option DataTable.State;
  mounts : nat;
  pending : list Pending;
  network : list Request
}.

Definition initial : State :=
  {| app := App.initial; filePath := ""; table := None; mounts := 0;
     pending := []; network := [] |}.

Definition set_app (v : App.State) (s : State) : State :=
  {| app := v; filePath := filePath s; table := table s; mounts := mounts s;
     pending := pending s; network := network s |}.

Definition set_filePath (v : string) (s : State) : State :=
  {| app := app s; filePath := v; table := table s; mounts := mounts s;
     pending := pending s; network := network s |}.

Definition set_table (v : option DataTable.State) (s : State) : State :=
  {| app := app s; filePath := filePath s; table := v; mounts := mounts s;
     pending := pending s; network := network s |}.

Definition set_pending (v : list Pending) (s : State) : State :=
  {| app := app s; filePath := filePath s; table := table s; mounts := mounts s;
     pending := v; network := network s |}.

(** A call goes out: it is recorded as awaiting and its request is sent. *)
Definition send (p : Pending) (r : Request) (s : State) : State :=
  {| app := app s; filePath := filePath s; table := table s; mounts := mounts s;
     pending := (pending s ++ [p])%list; network := (network s ++ [r])%list |}.

(** Rendering [App]: the table is mounted, kept or unmounted according to
    [data && !loading].  A mounted table keeps its cells; a table that is
    mounted anew starts from the initial cells. *)
Definition render (s : State) : State :=
  if App.shows_table (app s) then
    match table s, App.data (app s) with
    | None, Some d =>
        {| app := app s; filePath := filePath s;
           table := Some (DataTable.mount (App.table_props d));
           mounts := S (mounts s);
           pending := pending s; network := network s |}
    | _, _ => s
    end
  else set_table None s.

(** [App.handleError], which is both [FileUpload]'s and [DataTable]'s
    [onError]. *)
Definition handleError (message : string) (s : State) : State :=
  render (set_app (App.handleError message (app s)) s).

Definition callback (s : State) (c : FileUpload.Callback) : State :=
  match c with
  | FileUpload.onDataLoaded d =>
      let s' := render (set_app (App.handleDataLoaded d (app s)) s) in
      match table s, table s' with
      | Some _, Some t =>
          (* the table stays mounted and receives new properties *)
          set_table (Some (DataTable.useEffect (App.table_props d) t)) s'
      | _, _ => s'
      end
  | FileUpload.onError message => handleError message s
  | FileUpload.onLoadingChange v => render (set_app (App.setLoading v (app s)) s)
  end.

Definition callbacks (s : State) (cs : list FileUpload.Callback) : State :=
  foldl callback s cs.

Inductive Event : Type :=
| PageChange (page : Z)
| PageSizeChange (size : Z)
| Slice (a : SlicerPanel.Action)
| ExportClick (format : ExportButton.Format) (limit : option Num)
| TypePath (path : string)
| FileSelect (path : string)
| LoadClick
| ClearClick
| FetchDone (k : nat) (reply : Completion (Reply FilteredDataResponse))
| ExportDone (k : nat) (reply : Completion ExportReply) (browser : Browser)
| LoadParquetDone (k : nat) (reply : Completion (Reply LoadParquetResponse))
| GetDataDone (k : nat) (reply : Completion (Reply DataResponse)).

(** A handler of the mounted table runs; the call it makes, if any, goes
    out. *)
Definition table_handler (s : State)
  (h : DataTable.State → DataTable.State * option DataTable.Call) : State :=
  match table s with
  | Some t =>
      let (t', call) := h t in
      match call with
      | Some c =>
          send (PendingPage (mounts s) c) (DataTable.request_of c) (set_table (Some t') s)
      | None => set_table (Some t') s
      end
  | None => s
  end.

Definition load (s : State) (path : option string) : State :=
  let (cs, target) := FileUpload.handleLoadFile (filePath s) path in
  let s' := callbacks s cs in
  match target with
  | Some targetPath => send (PendingLoadParquet targetPath) (load_request targetPath) s'
  | None => s'
  end.

Definition step (s : State) (e : Event) : State :=
  match e with
  | PageChange page =>
      table_handler s (fun t => DataTable.handlePageChange t page)
  | PageSizeChange size =>
      table_handler s (fun t => DataTable.handlePageSizeChange t size)
  | Slice a =>
      match table s, App.data (app s) with
      | Some t, Some d =>
          if SlicerPanel.rendered (dr_columns d) (DataTable.filters t) a then
            table_handler s (fun t =>
              let (t', call) :=
                DataTable.handleFiltersChange t (SlicerPanel.dispatch (DataTable.filters t) a) in
              (DataTable.useEffect (App.table_props d) t', call))
          else s
      | _, _ => s
      end
  | ExportClick format limit =>
      match table s with
      | Some t =>
          send (PendingExport format limit (DataTable.filters t))
               (DataTable.handleExport t format limit) s
      | None => s
      end
  | TypePath path => set_filePath path s
  | FileSelect path => load (set_filePath path s) (Some path)
  | LoadClick => load s None
  | ClearClick =>
      if App.shows_error (app s)
      then render (set_app (App.clearData (app s)) s)
      else s
  | FetchDone k reply =>
      match pending s !! k with
      | Some (PendingPage instance c) =>
          let result :=
            getFilteredData (fun _ => reply)
              (DataTable.size c) (DataTable.offset_of c) (DataTable.currentFilters c) in
          let (update, failure) := DataTable.loadPage_resume c result in
          let s1 := set_pending (delete k (pending s)) s in
          let s2 :=
            match table s1 with
            | Some t =>
                if (instance =? mounts s1)%nat
                then set_table (Some (update t)) s1
                else s1
            | None => s1
            end in
          match failure with
          | Some message => handleError message s2
          | None => s2
          end
      | _ => s
      end
  | ExportDone k reply browser =>
      match pending s !! k with
      | Some (PendingExport format limit filters) =>
          let result :=
            match format with
            | ExportButton.csv =>
                exportCSV browser (fun _ => reply) limit (Some (Int 0)) (Some filters)
            | ExportButton.excel =>
                exportExcel browser (fun _ => reply) limit (Some (Int 0)) (Some filters)
            end in
          let s1 := set_pending (delete k (pending s)) s in
          match DataTable.handleExport_resume result with
          | Some message => handleError message s1
          | None => s1
          end
      | _ => s
      end
  | LoadParquetDone k reply =>
      match pending s !! k with
      | Some (PendingLoadParquet targetPath) =>
          let (cs, continue) :=
            FileUpload.after_loadParquet (loadParquet (fun _ => reply) targetPath) in
          let s1 := callbacks (set_pending (delete k (pending s)) s) cs in
          if continue then send PendingGetData (data_request 1000 0) s1 else s1
      | _ => s
      end
  | GetDataDone k reply =>
      match pending s !! k with
      | Some PendingGetData =>
          callbacks (set_pending (delete k (pending s)) s)
            (FileUpload.after_getData (getData (fun _ => reply) 1000 0))
      | _ => s
      end
  end.

Definition run (s : State) (events : list Event) : State := foldl step s events.

End System.

(** ** Statements

    The predicates the theorems below are stated with. *)

Module Spec.
Import JS Api.

(** A method of [apiService] reports the outcome of its request as a
    value: the payload when the reply is OK and its body parses, and
    otherwise an [error] string, whatever went wrong (the request itself,
    the HTTP status, the body). *)
Definition failure_as_value {T} (reply : Completion (Reply T))
  (result : Completion (ApiResponse T)) : Prop :=
  match reply with
  | Normal (Ok (Normal payload)) => result = Normal {| data := payload; error := None |}
  | _ => ∃ message, result = Normal {| data := None; error := Some message |}
  end.

(** The same for an export method, whose success also takes the blob and
    the download. *)
Definition export_failure_as_value (browser : Browser) (default_name : string)
  (reply : Completion ExportReply) (result : Completion ExportResult) : Prop :=
  match reply with
  | Normal (ExportOk (Normal blob) contentDisposition) =>
      match trigger_download browser
              (export_filename browser default_name contentDisposition) blob with
      | Normal _ => result = Normal {| success := true; export_error := None |}
      | Throw _ =>
          ∃ message, result = Normal {| success := false; export_error := Some message |}
      end
  | _ => ∃ message, result = Normal {| success := false; export_error := Some message |}
  end.

(** A filter object is well formed for a column list when each of its
    keys is one of the columns and holds at least one value. *)
Definition well_formed (columns : list string) (filters : ColumnFilters) : Prop :=
  ∀ column values,
    filters !! column = Some values → column ∈ columns ∧ values ≠ [].

(** The filter object after a sequence of actions in the slicer panel; an
    action on a control that is not rendered does nothing. *)
Definition act (columns : list string) (filters : ColumnFilters)
  (a : SlicerPanel.Action) : ColumnFilters :=
  if SlicerPanel.rendered columns filters a then SlicerPanel.dispatch filters a else filters.

Definition play (columns : list string) (actions : list SlicerPanel.Action)
  : ColumnFilters :=
  foldl (act columns) ∅ actions.

(** Follows the specification: the effective row limit of an export job
    is the least of the requested limit, or the filtered row count when
    none is requested, and the maximum of the format; the job is
    truncated when that is less than what was requested. *)
Definition spec_effective_row_limit (row_limit : option Z) (filtered_rows cap : Z) : Z :=
  Z.min (default filtered_rows row_limit) cap.

Definition spec_truncated (row_limit : option Z) (filtered_rows cap : Z) : bool :=
  spec_effective_row_limit row_limit filtered_rows cap <? default filtered_rows row_limit.

(** What the table shows of a page: its rows, the page number and the
    filtered row count; nothing when no table is mounted. *)
Definition shown (s : System.State) : option (list Row * Z * Z) :=
  (fun t => (DataTable.data t, DataTable.currentPage t, DataTable.filteredRows t))
    <$> System.table s.

(** An event other than the reply of [getData] to a load. *)
Definition no_data_reply (e : System.Event) : bool :=
  match e with
  | System.GetDataDone _ _ => false
  | _ => true
  end.

(** The user starts a load of [targetPath]: a file is picked in the
    browser, or the typed path is submitted. *)
Definition starts_load (s : System.State) (e : System.Event) (targetPath : string)
  : Prop :=
  e = System.FileSelect targetPath
  ∨ (e = System.LoadClick ∧ FileUpload.trim (System.filePath s) = targetPath).

(** No table is mounted and [App] gives it no reason to be. *)
Definition unmounted (s : System.State) : Prop :=
  System.table s = None
  ∧ (App.loading (System.app s) = true ∨ App.data (System.app s) = None).

(** A string of white space only. *)
Fixpoint all_white_space (s : string) : bool :=
  match s with
  | EmptyString => true
  | String a rest => JS.is_white_space a && all_white_space rest
  end.

(** A decimal digit, and a string of decimal digits. *)
Definition is_decimal (a : ascii) : bool :=
  let n := nat_of_ascii a in ((48 <=? n) && (n <=? 57))%nat.

Fixpoint all_decimal (s : string) : bool :=
  match s with
  | EmptyString => true
  | String a rest => is_decimal a && all_decimal rest
  end.

(** Each array of a filter object holds a value once at most. *)
Definition duplicate_free (filters : ColumnFilters) : Prop :=
  ∀ column values, filters !! column = Some values → NoDup values.

(** Each array of a filter object holds at least one value and no value
    twice. *)
Definition tidy (filters : ColumnFilters) : Prop :=
  ∀ column values, filters !! column = Some values → values ≠ [] ∧ NoDup values.

(** The filter object of the mounted table is tidy; every [filters]
    parameter sent so far is a tidy filter object with a key. *)
Definition tidy_table (s : System.State) : Prop :=
  ∀ t, System.table s = Some t → tidy (DataTable.filters t).

Definition tidy_requests (s : System.State) : Prop :=
  ∀ r filters,
    r ∈ System.network s →
    get "filters" (query r) = Some (PFilters filters) →
    filters ≠ ∅ ∧ tidy filters.

Definition tidy_state (s : System.State) : Prop := tidy_table s ∧ tidy_requests s.

(** The filter object of the table of [s'] is the one the table of [s]
    had, or the empty one. *)
Definition filters_kept (s s' : System.State) : Prop :=
  ∀ t', System.table s' = Some t' →
    DataTable.filters t' = ∅
    ∨ ∃ t, System.table s = Some t ∧ DataTable.filters t' = DataTable.filters t.

(** The column list [App] passes down, if it holds a dataset, and the
    column lists it has passed down in the course of a run that starts in
    [s], oldest first. *)
Definition current_columns (s : System.State) : list (list string) :=
  match App.data (System.app s) with
  | Some d => [dr_columns d]
  | None => []
  end.

Fixpoint column_lists (s : System.State) (events : list System.Event)
  : list (list string) :=
  match events with
  | [] => current_columns s
  | e :: rest => (current_columns s ++ column_lists (System.step s e) rest)%list
  end.

(** Each key of a filter object is a column of one of the lists and holds
    at least one value. *)
Definition keys_among (lists : list (list string)) (filters : ColumnFilters) : Prop :=
  ∀ column values,
    filters !! column = Some values →
    values ≠ [] ∧ ∃ columns, columns ∈ lists ∧ column ∈ columns.

(** A name that a plain object does not inherit: on it, [filters[name]]
    reads the key of the object or [undefined], and an assignment makes a
    key. *)
Definition own_name (name : string) : Prop := name ∉ Object_prototype.

(** A value on which [String(...)] is what [to_String] computes: its
    numbers are safe integers, and no object that the conversion reaches,
    the value itself or an item of an array, has a key [toString] of its
    own (the value of such a key is parsed JSON, hence not callable, and
    the conversion would throw a [TypeError]). *)
Fixpoint printable (j : Json) : bool :=
  match j with
  | JNull | JBool _ | JStr _ => true
  | JNum n => Z.abs n <=? MAX_SAFE_INTEGER
  | JArr items => forallb printable items
  | JObj fields => negb (existsb (fun field => String.eqb (fst field) "toString") fields)
  end.

(** What the table presents: its filter object, whether its rows are
    rendered (the loading flag is down), and the rows, the page number
    and the filtered row count it holds. *)
Definition view (s : System.State) : option (ColumnFilters * bool * (list Row * Z * Z)) :=
  (fun t => (DataTable.filters t, negb (DataTable.loading t),
             (DataTable.data t, DataTable.currentPage t, DataTable.filteredRows t)))
    <$> System.table s.

(** Follows the specification: a row satisfies a filter object when, for
    each constrained column, the value of the row is one of the allowed
    values. *)
Definition spec_satisfies (filters : ColumnFilters) (r : Row) : bool :=
  forallb (fun constraint : string * list string =>
             match assoc (fst constraint) r with
             | Some v => bool_decide (to_String v ∈ snd constraint)
             | None => false
             end)
          (map_to_list filters).

(** The data and an error are not both present in [App]. *)
Definition exclusive (s : System.State) : Prop :=
  App.data (System.app s) = None ∨ App.error (System.app s) = None.

(** What an export method resolves to, by format. *)
Definition export_result (format : ExportButton.Format) (browser : Browser)
  (reply : Completion ExportReply) (limit : option JS.Num) (filters : ColumnFilters)
  : Completion ExportResult :=
  match format with
  | ExportButton.csv =>
      exportCSV browser (fun _ => reply) limit (Some (JS.Int 0)) (Some filters)
  | ExportButton.excel =>
      exportExcel browser (fun _ => reply) limit (Some (JS.Int 0)) (Some filters)
  end.

End Spec.

(** ** Sample data

    The five rows of the worked scenario of the specification and the
    replies of a server that holds them. *)

Module Sample.
Import JS Api.

Definition row (region : string) (amount : Z) : Row :=
  [("region", JStr region); ("amount", JNum amount)].

Definition rows : list Row :=
  [row "east" 10; row "east" 20; row "west" 5; row "west" 7; row "north" 1].

Definition dataset : DataResponse :=
  {| dr_data := rows; dr_columns := ["region"; "amount"]; dr_total_rows := 5 |}.

(** Another file, with other columns. *)
Definition other : DataResponse :=
  {| dr_data := [[("city", JStr "Oslo"); ("sales", JNum 3)]];
     dr_columns := ["city"; "sales"]; dr_total_rows := 1 |}.

(** The application once the file is loaded. *)
Definition loaded : System.State :=
  System.run System.initial
    [System.FileSelect "data/sales.parquet";
     System.LoadParquetDone 0 (ok_with {| lp_message := "loaded"; lp_rows := 5 |});
     System.GetDataDone 0 (ok_with dataset)].

Definition page_of (found : list Row) : FilteredDataResponse :=
  {| fd_data := found; fd_columns := ["region"; "amount"]; fd_total_rows := 5;
     fd_filtered_rows := Z.of_nat (List.length found); fd_filters_applied := true |}.

(** A larger file of 250 rows, 120 of region east and then 130 of region
    north, and the application once it is loaded. *)
Definition many_rows : list Row :=
  (fun i => row (if i <? 120 then "east" else "north") i) <$> seqZ 0 250.

Definition many : DataResponse :=
  {| dr_data := many_rows; dr_columns := ["region"; "amount"]; dr_total_rows := 250 |}.

Definition many_loaded : System.State :=
  System.run System.initial
    [System.FileSelect "data/many.parquet";
     System.LoadParquetDone 0 (ok_with {| lp_message := "loaded"; lp_rows := 250 |});
     System.GetDataDone 0 (ok_with many)].

(** Its third page of a hundred rows, and its first page under the
    filter east. *)
Definition third_page : FilteredDataResponse :=
  {| fd_data := drop 200 many_rows; fd_columns := ["region"; "amount"];
     fd_total_rows := 250; fd_filtered_rows := 250; fd_filters_applied := false |}.

Definition east_page : FilteredDataResponse :=
  {| fd_data := take 100 many_rows; fd_columns := ["region"; "amount"];
     fd_total_rows := 250; fd_filtered_rows := 120; fd_filters_applied := true |}.

Definition east : FilteredDataResponse := page_of [row "east" 10; row "east" 20].

Definition east_west : FilteredDataResponse :=
  page_of [row "east" 10; row "east" 20; row "west" 5; row "west" 7].

End Sample.

(** ** [apiService] never throws *)

Section ApiTotality.
Import JS Api.

(** The message built from an error body is a value or an exception,
    and in both cases the enclosing [catch] turns the [throw] that
    follows into a returned error. *)
Lemma rejected_reply_caught {T} (errorData : Json) (status_code : Z) (statusText : string) :
  ∃ message,
    try_catch
      (msg ← detail_or_http_error errorData status_code statusText;
       Throw (ErrorObj msg))
      (@return_error T)
    = Normal {| data := None; error := Some message |}.
Proof.
  destruct errorData; cbn; eauto.
Qed.

Lemma export_rejected_reply_caught (errorData : Json) (status_code : Z)
  (statusText : string) :
  ∃ message,
    try_catch
      (msg ← detail_or_http_error errorData status_code statusText;
       Throw (ErrorObj msg))
      (fun e => mret {| success := false;
                        export_error := Some (message_or "Unknown error" e) |})
    = Normal {| success := false; export_error := Some message |}.
Proof.
  destruct errorData; cbn; eauto.
Qed.

(** Splits a reply into its cases: the request failed, the status is not
    OK (with a body that parses or not), the status is OK (likewise). *)
#[local] Ltac reply_cases reply :=
  destruct reply as [[status_code statusText [errorData | thrown]
                     | [payload | thrown]] | thrown];
  cbn; eauto using rejected_reply_caught.

Lemma checkHealth_total fetch :
  Spec.failure_as_value (fetch {| endpoint := Health; query := [] |}) (checkHealth fetch).
Proof.
  unfold Spec.failure_as_value, checkHealth.
  reply_cases (fetch {| endpoint := Health; query := [] |}).
Qed.

Lemma loadParquet_total fetch filePath :
  Spec.failure_as_value (fetch (load_request filePath)) (loadParquet fetch filePath).
Proof.
  unfold Spec.failure_as_value, loadParquet.
  reply_cases (fetch (load_request filePath)).
Qed.

Lemma getData_total fetch limit offset :
  Spec.failure_as_value (fetch (data_request limit offset)) (getData fetch limit offset).
Proof.
  unfold Spec.failure_as_value, getData.
  reply_cases (fetch (data_request limit offset)).
Qed.

Lemma getParquetFiles_total fetch :
  Spec.failure_as_value (fetch {| endpoint := FilesParquet; query := [] |})
    (getParquetFiles fetch).
Proof.
  unfold Spec.failure_as_value, getParquetFiles.
  reply_cases (fetch {| endpoint := FilesParquet; query := [] |}).
Qed.

Lemma getColumnValues_total fetch columnName :
  Spec.failure_as_value (fetch {| endpoint := ColumnValues columnName; query := [] |})
    (getColumnValues fetch columnName).
Proof.
  unfold Spec.failure_as_value, getColumnValues.
  reply_cases (fetch {| endpoint := ColumnValues columnName; query := [] |}).
Qed.

Lemma getFilteredData_total fetch limit offset filters :
  Spec.failure_as_value (fetch (filtered_request limit offset filters))
    (getFilteredData fetch limit offset filters).
Proof.
  unfold Spec.failure_as_value, getFilteredData.
  reply_cases (fetch (filtered_request limit offset filters)).
Qed.

Lemma export_with_total target default_name browser fetch limit offset filters :
  Spec.export_failure_as_value browser default_name
    (fetch (export_request target limit offset filters))
    (export_with target default_name browser fetch limit offset filters).
Proof.
  unfold Spec.export_failure_as_value, export_with.
  destruct (fetch (export_request target limit offset filters))
    as [[status_code statusText [errorData | thrown]
        | [blob | thrown] contentDisposition] | thrown];
    cbn; eauto using export_rejected_reply_caught.
  destruct (trigger_download browser _ blob); cbn; eauto.
Qed.

(** C9. Every method of [apiService] is total with respect to failures:
    for every input and every outcome of its request (the request fails,
    the status is not OK, the body is malformed, and for an export also a
    failing blob or download) the method completes normally, and what it
    returns is the payload on success and otherwise the failure as a
    value, [{error}] or [{success: false, error}]; it never throws. *)
Theorem apiService_never_throws :
  (∀ fetch, Spec.failure_as_value (fetch {| endpoint := Health; query := [] |})
              (checkHealth fetch))
  ∧ (∀ fetch filePath,
       Spec.failure_as_value (fetch (load_request filePath)) (loadParquet fetch filePath))
  ∧ (∀ fetch limit offset,
       Spec.failure_as_value (fetch (data_request limit offset))
         (getData fetch limit offset))
  ∧ (∀ fetch, Spec.failure_as_value (fetch {| endpoint := FilesParquet; query := [] |})
                (getParquetFiles fetch))
  ∧ (∀ browser fetch limit offset filters,
       Spec.export_failure_as_value browser "data_export.csv"
         (fetch (export_request ExportCsv limit offset filters))
         (exportCSV browser fetch limit offset filters))
  ∧ (∀ browser fetch limit offset filters,
       Spec.export_failure_as_value browser "data_export.xlsx"
         (fetch (export_request ExportExcel limit offset filters))
         (exportExcel browser fetch limit offset filters))
  ∧ (∀ fetch columnName,
       Spec.failure_as_value (fetch {| endpoint := ColumnValues columnName; query := [] |})
         (getColumnValues fetch columnName))
  ∧ (∀ fetch limit offset filters,
       Spec.failure_as_value (fetch (filtered_request limit offset filters))
         (getFilteredData fetch limit offset filters)).
Proof.
  repeat split; intros;
    auto using checkHealth_total, loadParquet_total, getData_total,
      getParquetFiles_total, getColumnValues_total, getFilteredData_total;
    apply export_with_total.
Qed.

End ApiTotality.

(** ** The filter object built by the slicer panel *)

Section SlicerFilters.
Import JS Api.

Lemma well_formed_empty columns : Spec.well_formed columns ∅.
Proof. intros column values H. by rewrite lookup_empty in H. Qed.

Lemma well_formed_delete columns (filters : ColumnFilters) column :
  Spec.well_formed columns filters → Spec.well_formed columns (delete column filters).
Proof.
  intros Hwf c values H.
  apply lookup_delete_Some in H as [_ H]. by apply Hwf.
Qed.

Lemma well_formed_change columns (filters : ColumnFilters) column selected :
  column ∈ columns →
  Spec.well_formed columns filters →
  Spec.well_formed columns (SlicerPanel.handleColumnFilterChange filters column selected).
Proof.
  intros Hin Hwf. unfold SlicerPanel.handleColumnFilterChange.
  destruct selected as [|v rest]; cbn.
  - by apply well_formed_delete.
  - intros c values H. apply lookup_insert_Some in H as [[<- <-] | [_ H]].
    + done.
    + by apply Hwf.
Qed.

Lemma well_formed_act columns filters a :
  Spec.well_formed columns filters → Spec.well_formed columns (Spec.act columns filters a).
Proof.
  intros Hwf. unfold Spec.act.
  destruct (SlicerPanel.rendered columns filters a) eqn:Hr; [|done].
  destruct a; cbn in Hr; cbn [SlicerPanel.dispatch];
    try (apply well_formed_change; [by apply bool_decide_eq_true in Hr | done]).
  - by apply well_formed_delete.
  - apply well_formed_empty.
Qed.

Lemma well_formed_foldl columns actions filters :
  Spec.well_formed columns filters →
  Spec.well_formed columns (foldl (Spec.act columns) filters actions).
Proof.
  revert filters. induction actions as [|a actions IH]; intros filters Hwf; cbn.
  - done.
  - apply IH. by apply well_formed_act.
Qed.

(** [Object.keys(filters).length > 0] tells whether the object is empty. *)
Lemma has_keys (filters : ColumnFilters) :
  (0 <? List.length (Object_keys filters))%nat = negb (bool_decide (filters = ∅)).
Proof.
  unfold Object_keys. rewrite length_fmap.
  destruct (map_to_list filters) as [|kv rest] eqn:Hl.
  - apply map_to_list_empty_iff in Hl. by rewrite bool_decide_eq_true_2.
  - rewrite bool_decide_eq_false_2; [done|].
    intros ->. by rewrite map_to_list_empty in Hl.
Qed.

Lemma filtered_params_filters limit offset (filters : ColumnFilters) :
  get "filters" (filtered_params limit offset filters)
  = if bool_decide (filters = ∅) then None else Some (PFilters filters).
Proof.
  unfold filtered_params. rewrite has_keys.
  by destruct (bool_decide (filters = ∅)).
Qed.

Lemma export_params_filters limit offset (filters : ColumnFilters) :
  get "filters" (export_params limit offset (Some filters))
  = if bool_decide (filters = ∅) then None else Some (PFilters filters).
Proof.
  unfold export_params. rewrite has_keys.
  by destruct (bool_decide (filters = ∅)), limit, offset.
Qed.

End SlicerFilters.

(** ** The export dialog *)

Section ExportDialog.
Import JS ExportButton.

(** The number of rows the dialog announces is the chosen limit, or the
    filtered row count when there is none, bounded by the filtered row
    count. *)
Lemma getEffectiveRows_chosen totalRows st :
  getEffectiveRows totalRows st
  = Math_min (default (Int totalRows) (chosen_limit st)) totalRows.
Proof.
  unfold getEffectiveRows, chosen_limit.
  destruct (String.eqb (exportLimit st) "all").
  - cbn. f_equal. lia.
  - destruct (String.eqb (exportLimit st) "custom"); [|done].
    by destruct (truthy_num (parseInt (customLimit st))).
Qed.

(** The inline warning and the test in [handleExport] agree. *)
Lemma exceeds_excel_announced totalRows st :
  exceeds_excel excel totalRows (chosen_limit st) = willExceedExcelLimit totalRows st.
Proof.
  unfold willExceedExcelLimit. rewrite getEffectiveRows_chosen.
  unfold exceeds_excel, gt, Math_min, EXCEL_MAX_ROWS.
  destruct (chosen_limit st) as [[|z]|]; cbn.
  - by rewrite andb_false_r.
  - destruct (Z.ltb_spec 1048575 totalRows), (Z.ltb_spec 1048575 z),
      (Z.ltb_spec 1048575 (Z.min z totalRows)); cbn; try done; lia.
  - rewrite andb_true_r, Z.min_id. done.
Qed.

(** C2, as the code has it. The spreadsheet maximum is 1,048,575 rows.
    The rows an export selects are the chosen limit (the filtered row
    count when there is none) bounded by the filtered row count.  When
    they exceed the maximum, [handleExport('excel')] sends nothing and
    raises the warning; the spreadsheet button of the warning then
    exports with the limit 1,048,575, which is the least of what was
    requested and the maximum.  When they do not, the export goes out at
    once with the chosen limit as it is, and no warning. *)
Theorem excel_export_row_cap (totalRows : Z) (st : State) :
  EXCEL_MAX_ROWS = 1048575
  ∧ getEffectiveRows totalRows st
    = Math_min (default (Int totalRows) (chosen_limit st)) totalRows
  ∧ if gt (getEffectiveRows totalRows st) EXCEL_MAX_ROWS then
      handleExport totalRows true st excel = (setShowWarning true st, None)
      ∧ showWarning (setShowWarning true st) = true
      ∧ (warning_excel true (setShowWarning true st)).2
        = Some (excel, Some (Int EXCEL_MAX_ROWS))
      ∧ Math_min (default (Int totalRows) (chosen_limit st)) EXCEL_MAX_ROWS
        = Int EXCEL_MAX_ROWS
    else
      handleExport totalRows true st excel
      = (setShowWarning false (setShowOptions false st), Some (excel, chosen_limit st)).
Proof.
  split; [done|]. split; [apply getEffectiveRows_chosen|].
  pose proof (exceeds_excel_announced totalRows st) as Hagree.
  unfold willExceedExcelLimit in Hagree. unfold handleExport.
  destruct (gt (getEffectiveRows totalRows st) EXCEL_MAX_ROWS) eqn:Hgt;
    rewrite Hagree; cbn; [|done].
  split; [done|]. split; [done|]. split; [done|].
  rewrite getEffectiveRows_chosen in Hgt.
  destruct (chosen_limit st) as [[|z]|]; cbn in *; try done.
  - apply Z.ltb_lt in Hgt. f_equal. unfold EXCEL_MAX_ROWS in *. lia.
  - apply Z.ltb_lt in Hgt. f_equal. unfold EXCEL_MAX_ROWS in *. lia.
Qed.

(** The fixture of the specification: 2,000,000 filtered rows and a limit
    of 2,000,000 give the warning and then an export of 1,048,575 rows. *)
Example excel_two_million :
  let st := {| showOptions := true; exportLimit := "custom";
               customLimit := "2000000"; showWarning := false |} in
  handleExport 2000000 true st excel = (setShowWarning true st, None)
  ∧ (warning_excel true (setShowWarning true st)).2 = Some (excel, Some (Int 1048575))
  ∧ Spec.spec_effective_row_limit (Some 2000000) 2000000 EXCEL_MAX_ROWS = 1048575
  ∧ Spec.spec_truncated (Some 2000000) 2000000 EXCEL_MAX_ROWS = true.
Proof. by vm_compute. Qed.

(** C2, as the specification states it, fails where the limit typed exceeds the
    maximum and the filtered rows do not: with 500 filtered rows and a
    custom limit of 2,000,000 the formula gives an effective limit of
    1,048,575 and a truncation, whereas the export goes out with the
    limit 2,000,000 and neither the warning nor the inline notice. *)
Lemma excel_limit_above_cap_sent_unchanged :
  let st := {| showOptions := true; exportLimit := "custom";
               customLimit := "2000000"; showWarning := false |} in
  handleExport 500 true st excel
  = (setShowWarning false (setShowOptions false st), Some (excel, Some (Int 2000000)))
  ∧ showWarning (handleExport 500 true st excel).1 = false
  ∧ willExceedExcelLimit 500 st = false
  ∧ Spec.spec_effective_row_limit (Some 2000000) 500 EXCEL_MAX_ROWS = 1048575
  ∧ Spec.spec_truncated (Some 2000000) 500 EXCEL_MAX_ROWS = true.
Proof. by vm_compute. Qed.

(** C10. When the custom option is selected and the text typed parses to
    zero or to no number, the limit [handleExport] computes is
    [undefined]: the dialog announces every filtered row, and the export
    it makes is made with no limit, never with a limit of 0.  (Nothing is
    exported by this click when the spreadsheet warning is raised
    instead, or when no [onExport] was given.) *)
Theorem custom_zero_or_nan_exports_all (totalRows : Z) (onExport : bool)
  (st : State) (format : Format) :
  exportLimit st = "custom" →
  parseInt (customLimit st) = NaN ∨ parseInt (customLimit st) = Int 0 →
  chosen_limit st = None
  ∧ getEffectiveRows totalRows st = Int totalRows
  ∧ (handleExport totalRows onExport st format).2
    = if is_excel format && (EXCEL_MAX_ROWS <? totalRows) then None
      else if onExport then Some (format, None)
      else None.
Proof.
  intros Hcustom Hparse.
  assert (chosen_limit st = None) as Hlimit.
  { unfold chosen_limit. rewrite Hcustom. cbn.
    by destruct Hparse as [-> | ->]. }
  split; [done|]. split.
  - rewrite getEffectiveRows_chosen, Hlimit. cbn. f_equal. lia.
  - unfold handleExport, exceeds_excel. rewrite Hlimit, andb_true_r.
    destruct (is_excel format && (EXCEL_MAX_ROWS <? totalRows)); [done|].
    by destruct onExport.
Qed.

Lemma custom_zero_or_nan_exports_all_witness :
  let st := {| showOptions := true; exportLimit := "custom";
               customLimit := "0"; showWarning := false |} in
  exportLimit st = "custom"
  ∧ (parseInt (customLimit st) = NaN ∨ parseInt (customLimit st) = Int 0)
  ∧ chosen_limit st = None
  ∧ getEffectiveRows 500 st = Int 500
  ∧ (handleExport 500 true st csv).2 = Some (csv, None).
Proof.
  split; [reflexivity|]. split; [right; reflexivity|].
  apply (custom_zero_or_nan_exports_all 500 true
           {| showOptions := true; exportLimit := "custom";
              customLimit := "0"; showWarning := false |} csv).
  - reflexivity.
  - right. reflexivity.
Defined.

End ExportDialog.

(** ** Paging and filtering in the table *)

Section TablePaging.
Import JS Api DataTable.

(** [totalPages] is the ceiling of [filteredRows / pageSize]. *)
Lemma totalPages_ceiling (st : State) :
  0 < pageSize st →
  (totalPages st - 1) * pageSize st < filteredRows st ≤ totalPages st * pageSize st.
Proof.
  intros Hsize. unfold totalPages.
  pose proof (Z.div_mod (- filteredRows st) (pageSize st)) as Hdiv.
  pose proof (Z.mod_pos_bound (- filteredRows st) (pageSize st) Hsize) as Hmod.
  nia.
Qed.

Lemma filtered_request_window limit offset (filters : ColumnFilters) :
  get "limit" (query (filtered_request limit offset filters)) = Some (PNumber (Int limit))
  ∧ get "offset" (query (filtered_request limit offset filters))
    = Some (PNumber (Int offset)).
Proof.
  unfold filtered_request, filtered_params; cbn [query].
  by destruct (0 <? List.length (Object_keys filters))%nat.
Qed.

(** C7. For a page size [s > 0], [totalPages] is the ceiling of
    [filteredRows / s]; [handlePageChange(p)] makes a call exactly when
    [1 ≤ p ≤ totalPages] and [p] is not the current page, and the request
    of that call has [limit = s] and [offset = (p − 1) × s], both
    non-negative, with the filters of the state; otherwise it makes no
    call and leaves the state as it is. *)
Theorem page_navigation (st : State) (p : Z) :
  0 < pageSize st →
  ((totalPages st - 1) * pageSize st < filteredRows st ≤ totalPages st * pageSize st)
  ∧ match handlePageChange st p with
    | (st', Some c) =>
        (1 ≤ p ≤ totalPages st ∧ p ≠ currentPage st)
        ∧ st' = setLoading true st
        ∧ request_of c
          = filtered_request (pageSize st) ((p - 1) * pageSize st) (filters st)
        ∧ get "limit" (query (request_of c)) = Some (PNumber (Int (pageSize st)))
        ∧ get "offset" (query (request_of c))
          = Some (PNumber (Int ((p - 1) * pageSize st)))
        ∧ 0 ≤ pageSize st ∧ 0 ≤ (p - 1) * pageSize st
    | (st', None) =>
        st' = st ∧ (p < 1 ∨ totalPages st < p ∨ p = currentPage st)
    end.
Proof.
  intros Hsize. split; [by apply totalPages_ceiling|].
  unfold handlePageChange.
  destruct (Z.leb_spec 1 p), (Z.leb_spec p (totalPages st)),
    (Z.eqb_spec p (currentPage st)); cbn; try (split; [done|lia]).
  split; [lia|]. split; [done|]. split; [done|].
  unfold request_of, offset_of; cbn [page size currentFilters].
  destruct (filtered_request_window (pageSize st) ((p - 1) * pageSize st) (filters st))
    as [Hlimit Hoffset].
  repeat split; [done | done | lia | nia].
Qed.

Lemma page_navigation_witness :
  let st := {| data := Sample.rows; currentPage := 1; pageSize := 100;
               loading := false; filters := ∅; filteredRows := 250 |} in
  0 < pageSize st
  ∧ totalPages st = 3
  ∧ handlePageChange st 3
    = (setLoading true st,
       Some {| page := 3; size := 100; currentFilters := ∅ |})
  ∧ handlePageChange st 4 = (st, None)
  ∧ ((totalPages st - 1) * pageSize st < filteredRows st ≤ totalPages st * pageSize st).
Proof.
  split; [reflexivity|]. split; [reflexivity|].
  split; [reflexivity|]. split; [reflexivity|].
  apply (page_navigation
           {| data := Sample.rows; currentPage := 1; pageSize := 100;
              loading := false; filters := ∅; filteredRows := 250 |} 3).
  reflexivity.
Defined.

(** [handleFiltersChange] stores the new filters, sets the current page
    to 1 and calls [loadPage(1, pageSize, newFilters)]: the request has
    the new filters and [offset = 0].  The loading flag is raised, so
    that the rows of the previous filter are not rendered meanwhile; the
    effect that follows the render keeps page and filters; and when the
    reply of this call is applied the page shown is page 1. *)
Lemma handleFiltersChange_call (props : Props) (st : State)
  (newFilters : ColumnFilters) (payload : FilteredDataResponse) :
  let st' := (handleFiltersChange st newFilters).1 in
  let st'' := useEffect props st' in
  let c := {| page := 1; size := pageSize st; currentFilters := newFilters |} in
  (handleFiltersChange st newFilters).2 = Some c
  ∧ offset_of c = 0
  ∧ request_of c = filtered_request (pageSize st) 0 newFilters
  ∧ get "offset" (query (request_of c)) = Some (PNumber (Int 0))
  ∧ get "filters" (query (request_of c))
    = (if bool_decide (newFilters = ∅) then None else Some (PFilters newFilters))
  ∧ (currentPage st' = 1 ∧ filters st' = newFilters ∧ loading st' = true)
  ∧ (currentPage st'' = 1 ∧ filters st'' = newFilters ∧ loading st'' = true)
  ∧ (let shown :=
       (loadPage_resume c (Normal {| Api.data := Some payload; error := None |})).1 st'' in
     currentPage shown = 1 ∧ filters shown = newFilters
     ∧ data shown = fd_data payload ∧ filteredRows shown = fd_filtered_rows payload).
Proof.
  cbn zeta. unfold handleFiltersChange, loadPage; cbn [fst snd].
  split; [done|]. split; [done|]. split; [done|].
  split; [apply filtered_request_window|].
  split; [apply filtered_params_filters|].
  split; [done|].
  unfold useEffect.
  by destruct (List.length (Object_keys _) =? 0)%nat.
Qed.

End TablePaging.

(** ** The view under replies *)

Section ViewState.
Import JS Api System.

Lemma truthy_string_nonempty (s : string) : s ≠ "" → truthy_string s = true.
Proof. by destruct s. Qed.

(** A reply with a payload [getFilteredData] hands over as [data]. *)
Lemma getFilteredData_ok limit offset (filters : ColumnFilters) payload :
  getFilteredData (fun _ => ok_with payload) limit offset filters
  = Normal {| data := Some payload; error := None |}.
Proof. reflexivity. Qed.

(** The reply of a call of the mounted table, with a payload, is applied
    as it comes: rows, page number and filtered row count are those of
    this call, whatever other calls are awaiting. *)
Lemma fetch_done_applied (s : State) (k : nat) (t : DataTable.State)
  (c : DataTable.Call) (payload : FilteredDataResponse) :
  table s = Some t →
  pending s !! k = Some (PendingPage (mounts s) c) →
  step s (FetchDone k (ok_with payload))
  = set_table
      (Some (DataTable.setLoading false
               (DataTable.setFilteredRows (fd_filtered_rows payload)
                  (DataTable.setCurrentPage (DataTable.page c)
                     (DataTable.setData (fd_data payload) t)))))
      (set_pending (delete k (pending s)) s).
Proof.
  intros Ht Hk. cbn [step]. rewrite Hk, getFilteredData_ok.
  cbn. rewrite Ht, Nat.eqb_refl. done.
Qed.

(** [loadPage] takes its error path exactly when [getFilteredData]
    reports an error whose message is not the empty string, and passes
    that message on. *)
Lemma loadPage_error_path (c : DataTable.Call)
  (reply : Completion (Reply FilteredDataResponse)) (message : string) :
  (DataTable.loadPage_resume c
     (getFilteredData (fun _ => reply)
        (DataTable.size c) (DataTable.offset_of c) (DataTable.currentFilters c))).2
  = Some message
  ↔ (∃ payload, getFilteredData (fun _ => reply)
                  (DataTable.size c) (DataTable.offset_of c) (DataTable.currentFilters c)
                = Normal {| data := payload; error := Some message |})
    ∧ message ≠ "".
Proof.
  pose proof (getFilteredData_total (fun _ => reply)
                (DataTable.size c) (DataTable.offset_of c) (DataTable.currentFilters c))
    as Htotal.
  unfold Spec.failure_as_value in Htotal.
  assert (∃ response,
            getFilteredData (fun _ => reply)
              (DataTable.size c) (DataTable.offset_of c) (DataTable.currentFilters c)
            = Normal response) as [response Hresponse].
  { destruct reply as [[? ? ?|[?|?]]|?]; try destruct Htotal; eauto. }
  rewrite Hresponse. unfold DataTable.loadPage_resume. cbn.
  destruct response as [payload [reported|]]; cbn.
  - destruct reported as [|a rest]; cbn.
    + destruct payload; cbn; (split; [done|]); intros [[? ?] ?]; by simplify_eq.
    + split.
      * intros [= <-]. split; [eexists; reflexivity | discriminate].
      * intros [[? ?] _]. by simplify_eq.
  - destruct payload; cbn; (split; [done|]); intros [[? ?] _]; by simplify_eq.
Qed.

(** The error path of a page call.  When [loadPage] takes its error path
    (the request failed, the status was not OK or the body was malformed,
    and [getFilteredData] reported it with a message that is not empty),
    the message goes to [onError], and [App.handleError] drops the data:
    the table is unmounted, so that nothing of the rows shown before
    remains, and the error box is what is rendered. *)
Lemma failed_fetch_clears_view (s : State) (k instance : nat)
  (c : DataTable.Call) (reply : Completion (Reply FilteredDataResponse))
  (message : string) :
  pending s !! k = Some (PendingPage instance c) →
  (DataTable.loadPage_resume c
     (getFilteredData (fun _ => reply)
        (DataTable.size c) (DataTable.offset_of c) (DataTable.currentFilters c))).2
  = Some message →
  let s' := step s (FetchDone k reply) in
  table s' = None
  ∧ App.data (app s') = None
  ∧ App.error (app s') = Some message
  ∧ App.shows_table (app s') = false
  ∧ App.shows_error (app s') = true.
Proof.
  intros Hk Hfailed. cbn zeta. cbn [step]. rewrite Hk.
  pose proof Hfailed as [_ Hmessage]%loadPage_error_path.
  destruct (DataTable.loadPage_resume _ _) as [update failure].
  cbn in Hfailed. subst failure.
  unfold handleError, render, App.shows_error. cbn.
  by rewrite (truthy_string_nonempty _ Hmessage).
Qed.

Lemma failed_fetch_clears_view_witness :
  let s := step Sample.loaded (PageSizeChange 50) in
  let c := {| DataTable.page := 1; DataTable.size := 50;
              DataTable.currentFilters := ∅ |} in
  let reply : Completion (Reply FilteredDataResponse) :=
    Normal (NotOk 500 "Internal Server Error"
              (Normal (JObj [("detail", JStr "Query failed")]))) in
  (DataTable.data <$> table s) = Some Sample.rows
  ∧ pending s !! 0%nat = Some (PendingPage 1 c)
  ∧ (DataTable.loadPage_resume c
       (getFilteredData (fun _ => reply)
          (DataTable.size c) (DataTable.offset_of c) (DataTable.currentFilters c))).2
    = Some "Query failed"
  ∧ table (step s (FetchDone 0 reply)) = None
  ∧ App.data (app (step s (FetchDone 0 reply))) = None
  ∧ App.error (app (step s (FetchDone 0 reply))) = Some "Query failed"
  ∧ App.shows_table (app (step s (FetchDone 0 reply))) = false
  ∧ App.shows_error (app (step s (FetchDone 0 reply))) = true.
Proof.
  split; [reflexivity|]. split; [reflexivity|]. split; [reflexivity|].
  apply (failed_fetch_clears_view (step Sample.loaded (PageSizeChange 50)) 0 1
           {| DataTable.page := 1; DataTable.size := 50;
              DataTable.currentFilters := ∅ |}
           (Normal (NotOk 500 "Internal Server Error"
                      (Normal (JObj [("detail", JStr "Query failed")]))))
           "Query failed").
  - reflexivity.
  - reflexivity.
Defined.

(** C5 fails for a failure that is reported with the empty message.  The
    table shows the five rows of the sample and the call of a page-size
    change awaits its reply.  The reply has status 500 and the body
    [{"detail": []}]: [getFilteredData] reports the error [String([])],
    the empty string, which [if (response.error)] takes for no error.
    [onError] is not called: [App] keeps its data and shows no error,
    and the table, its loading flag lowered, shows the rows it had. *)
Theorem failed_fetch_keeps_rows :
  let s := step Sample.loaded (PageSizeChange 50) in
  let c := {| DataTable.page := 1; DataTable.size := 50;
              DataTable.currentFilters := ∅ |} in
  let reply : Completion (Reply FilteredDataResponse) :=
    Normal (NotOk 500 "Internal Server Error" (Normal (JObj [("detail", JArr [])]))) in
  let s' := step s (FetchDone 0 reply) in
  (DataTable.data <$> table s) = Some Sample.rows
  ∧ pending s = [PendingPage 1 c]
  ∧ getFilteredData (fun _ => reply) 50 0 ∅ = Normal {| data := None; error := Some "" |}
  ∧ (DataTable.loadPage_resume c (getFilteredData (fun _ => reply) 50 0 ∅)).2 = None
  ∧ App.data (app s') = Some Sample.dataset
  ∧ App.error (app s') = None
  ∧ App.shows_error (app s') = false
  ∧ App.shows_table (app s') = true
  ∧ table s'
    = Some {| DataTable.data := Sample.rows; DataTable.currentPage := 1;
              DataTable.pageSize := 50; DataTable.loading := false;
              DataTable.filters := ∅; DataTable.filteredRows := 5 |}.
Proof.
  cbn zeta. repeat split; by vm_compute.
Qed.

(** C1, as the code has it. Of two calls of the mounted table that are
    both awaiting, the one whose reply comes last determines the rows,
    the page number and the filtered row count, in either order of
    issue: no reply is discarded, and a reply to the call issued first
    that comes after the reply to the call issued later replaces it. *)
Theorem last_completed_wins (s : State) (t : DataTable.State) (i j : nat)
  (first later : DataTable.Call) (slow fast : FilteredDataResponse) :
  table s = Some t →
  (i < j)%nat →
  pending s !! i = Some (PendingPage (mounts s) first) →
  pending s !! j = Some (PendingPage (mounts s) later) →
  Spec.shown (run s [FetchDone j (ok_with fast); FetchDone i (ok_with slow)])
  = Some (fd_data slow, DataTable.page first, fd_filtered_rows slow)
  ∧ Spec.shown (run s [FetchDone i (ok_with slow); FetchDone (j - 1) (ok_with fast)])
    = Some (fd_data fast, DataTable.page later, fd_filtered_rows fast).
Proof.
  intros Ht Hij Hi Hj. unfold Spec.shown, run. cbn [foldl]. split.
  - rewrite (fetch_done_applied s j t later fast Ht Hj).
    erewrite fetch_done_applied; [done | done |].
    cbn. by rewrite list_lookup_delete_lt.
  - rewrite (fetch_done_applied s i t first slow Ht Hi).
    erewrite fetch_done_applied; [done | done |].
    cbn. rewrite list_lookup_delete_ge by lia.
    by replace (S (j - 1)) with j by lia.
Qed.

(** Two filter changes in a row on the loaded sample. *)
Lemma last_completed_wins_witness :
  let s := run Sample.loaded
             [Slice (SlicerPanel.ValueToggle "region" "east");
              Slice (SlicerPanel.ValueToggle "region" "west")] in
  let first := {| DataTable.page := 1; DataTable.size := 100;
                  DataTable.currentFilters := {[ "region" := ["east"] ]} |} in
  let later := {| DataTable.page := 1; DataTable.size := 100;
                  DataTable.currentFilters := {[ "region" := ["east"; "west"] ]} |} in
  is_Some (table s)
  ∧ (0 < 1)%nat
  ∧ pending s !! 0%nat = Some (PendingPage (mounts s) first)
  ∧ pending s !! 1%nat = Some (PendingPage (mounts s) later)
  ∧ Spec.shown (run s [FetchDone 1 (ok_with Sample.east_west);
                       FetchDone 0 (ok_with Sample.east)])
    = Some (fd_data Sample.east, 1, 2)
  ∧ Spec.shown (run s [FetchDone 0 (ok_with Sample.east);
                       FetchDone (1 - 1) (ok_with Sample.east_west)])
    = Some (fd_data Sample.east_west, 1, 4).
Proof.
  split; [by eexists|]. split; [lia|].
  split; [reflexivity|]. split; [reflexivity|].
  eapply (last_completed_wins
            (run Sample.loaded
               [Slice (SlicerPanel.ValueToggle "region" "east");
                Slice (SlicerPanel.ValueToggle "region" "west")])
            _ 0 1
            {| DataTable.page := 1; DataTable.size := 100;
               DataTable.currentFilters := {[ "region" := ["east"] ]} |}
            {| DataTable.page := 1; DataTable.size := 100;
               DataTable.currentFilters := {[ "region" := ["east"; "west"] ]} |}
            Sample.east Sample.east_west).
  - reflexivity.
  - lia.
  - reflexivity.
  - reflexivity.
Defined.

(** C1, as the specification states it, fails. On the loaded sample the filter is
    set to east and then to east and west.  The reply to the second
    request comes first and its four rows are shown; the reply to the
    first request comes afterwards and is not discarded: the table then
    shows the two rows of the first request, with a filtered row count of
    2, under the filter of the second. *)
Lemma stale_reply_overwrites :
  let issued := run Sample.loaded
                  [Slice (SlicerPanel.ValueToggle "region" "east");
                   Slice (SlicerPanel.ValueToggle "region" "west")] in
  let fresh := step issued (FetchDone 1 (ok_with Sample.east_west)) in
  let stale := step fresh (FetchDone 0 (ok_with Sample.east)) in
  (DataTable.request_of <$> [ {| DataTable.page := 1; DataTable.size := 100;
                                 DataTable.currentFilters := {[ "region" := ["east"] ]} |};
                              {| DataTable.page := 1; DataTable.size := 100;
                                 DataTable.currentFilters :=
                                   {[ "region" := ["east"; "west"] ]} |} ])
  = drop 2 (network issued)
  ∧ (DataTable.filters <$> table fresh) = Some {[ "region" := ["east"; "west"] ]}
  ∧ (DataTable.data <$> table fresh) = Some (fd_data Sample.east_west)
  ∧ (DataTable.filteredRows <$> table fresh) = Some 4
  ∧ (DataTable.filters <$> table stale) = Some {[ "region" := ["east"; "west"] ]}
  ∧ (DataTable.data <$> table stale) = Some (fd_data Sample.east)
  ∧ (DataTable.filteredRows <$> table stale) = Some 2
  ∧ (DataTable.data <$> table stale) ≠ (DataTable.data <$> table fresh).
Proof.
  cbn zeta. repeat split; try by vm_compute.
Qed.

(** *** Requests are sent once and for all *)

Lemma network_render (s : State) : network (render s) = network s.
Proof.
  unfold render.
  by destruct (App.shows_table (app s)), (table s), (App.data (app s)).
Qed.

Lemma pending_render (s : State) : pending (render s) = pending s.
Proof.
  unfold render.
  by destruct (App.shows_table (app s)), (table s), (App.data (app s)).
Qed.

Lemma network_handleError message (s : State) :
  network (handleError message s) = network s.
Proof. unfold handleError. by rewrite network_render. Qed.

Lemma network_callback (s : State) c : network (callback s c) = network s.
Proof.
  destruct c as [d | message | v]; cbn [callback].
  - destruct (table s),
      (table (render (set_app (App.handleDataLoaded d (app s)) s))) eqn:Ht;
      cbn; by rewrite network_render.
  - apply network_handleError.
  - by rewrite network_render.
Qed.

Lemma network_callbacks cs (s : State) : network (callbacks s cs) = network s.
Proof.
  unfold callbacks. revert s.
  induction cs as [|c cs IH]; intros s; cbn; [done|].
  by rewrite IH, network_callback.
Qed.

Lemma network_table_handler (s : State) h :
  network s `prefix_of` network (table_handler s h).
Proof.
  unfold table_handler. destruct (table s) as [t|]; [|done].
  destruct (h t) as [t' [c|]]; cbn; [by apply prefix_app_r | done].
Qed.

Lemma network_load (s : State) path : network s `prefix_of` network (load s path).
Proof.
  unfold load. destruct (FileUpload.handleLoadFile _ _) as [cs [target|]]; cbn.
  - rewrite network_callbacks. by apply prefix_app_r.
  - by rewrite network_callbacks.
Qed.

(** No event changes or removes a request that has been sent. *)
Lemma network_step (s : State) (e : Event) : network s `prefix_of` network (step s e).
Proof.
  destruct e; cbn [step].
  - apply network_table_handler.
  - apply network_table_handler.
  - destruct (table s), (App.data (app s)); try done.
    destruct (SlicerPanel.rendered _ _ _); [apply network_table_handler | done].
  - destruct (table s); cbn; [by apply prefix_app_r | done].
  - done.
  - apply (network_load (set_filePath path s)).
  - apply network_load.
  - destruct (App.shows_error _); [by rewrite network_render | done].
  - destruct (pending s !! k) as [[inst c| | |]|]; try done.
    destruct (DataTable.loadPage_resume _ _) as [update [message|]]; cbn;
      destruct (table s); cbn; try destruct (_ =? _)%nat; cbn;
      by rewrite ?network_handleError.
  - destruct (pending s !! k) as [[|format limit filters| |]|]; try done.
    destruct (DataTable.handleExport_resume _); cbn;
      by rewrite ?network_handleError.
  - destruct (pending s !! k) as [[| |target|]|]; try done.
    destruct (FileUpload.after_loadParquet _) as [cs []]; cbn;
      rewrite network_callbacks; cbn; [by apply prefix_app_r | done].
  - destruct (pending s !! k) as [[| | |]|]; try done.
    by rewrite network_callbacks.
Qed.

Lemma network_run (events : list Event) (s : State) :
  network s `prefix_of` network (run s events).
Proof.
  unfold run. revert s.
  induction events as [|e events IH]; intros s; cbn; [done|].
  etrans; [apply network_step | apply IH].
Qed.

(** C6. The request of an export is built when the export is started,
    from the filter object the table holds at that moment: it carries
    that object, serialised, as its [filters] parameter (no parameter
    when the object is empty).  Whatever happens afterwards, filter
    changes included, the request sent remains what it was. *)
Theorem export_request_snapshot (s : State) (t : DataTable.State)
  (format : ExportButton.Format) (limit : option Num) (events : list Event) :
  table s = Some t →
  let r := export_request (DataTable.export_endpoint format) limit (Some (Int 0))
             (Some (DataTable.filters t)) in
  network (step s (ExportClick format limit)) = (network s ++ [r])%list
  ∧ get "filters" (query r)
    = (if bool_decide (DataTable.filters t = ∅) then None
       else Some (PFilters (DataTable.filters t)))
  ∧ network (run (step s (ExportClick format limit)) events) !! List.length (network s)
    = Some r.
Proof.
  intros Ht. cbn zeta.
  assert (network (step s (ExportClick format limit))
          = (network s
             ++ [export_request (DataTable.export_endpoint format) limit (Some (Int 0))
                   (Some (DataTable.filters t))])%list) as Hsent.
  { cbn [step]. by rewrite Ht. }
  split; [done|]. split; [apply export_params_filters|].
  eapply prefix_lookup_Some; [|apply network_run].
  rewrite Hsent. by apply list_lookup_middle.
Qed.

Lemma export_request_snapshot_witness :
  let s := run Sample.loaded
             [Slice (SlicerPanel.ValueToggle "region" "east");
              FetchDone 0 (ok_with Sample.east)] in
  let t := {| DataTable.data := fd_data Sample.east; DataTable.currentPage := 1;
              DataTable.pageSize := 100; DataTable.loading := false;
              DataTable.filters := {[ "region" := ["east"] ]};
              DataTable.filteredRows := 2 |} in
  let later := [Slice (SlicerPanel.ValueToggle "region" "west");
                Slice SlicerPanel.ClearAllFilters;
                ExportDone 0 (Normal (ExportOk (Normal {| blob_size := 64;
                                                          blob_type := "text/csv" |})
                                        None))
                  {| match_filename := fun _ => None;
                     trigger_download := fun _ _ => Normal () |}] in
  let r := export_request (DataTable.export_endpoint ExportButton.csv) None
             (Some (Int 0)) (Some (DataTable.filters t)) in
  table s = Some t
  ∧ (DataTable.filters <$> table (run (step s (ExportClick ExportButton.csv None)) later))
    = Some ∅
  ∧ network (step s (ExportClick ExportButton.csv None)) = (network s ++ [r])%list
  ∧ get "filters" (query r)
    = (if bool_decide (DataTable.filters t = ∅) then None
       else Some (PFilters (DataTable.filters t)))
  ∧ network (run (step s (ExportClick ExportButton.csv None)) later)
      !! List.length (network s)
    = Some r.
Proof.
  intros s t later r.
  split; [by vm_compute|]. split; [by vm_compute|].
  apply (export_request_snapshot s t ExportButton.csv None later).
  by vm_compute.
Defined.

(** *** Loading a file *)

Lemma render_unmounted (s : State) :
  App.loading (app s) = true ∨ App.data (app s) = None →
  render s = set_table None s.
Proof.
  intros H. unfold render, App.shows_table.
  destruct H as [-> | ->]; [by destruct (App.data (app s)) | done].
Qed.

Lemma unmounted_handleError message (s : State) :
  Spec.unmounted (handleError message s).
Proof. unfold handleError. rewrite render_unmounted; [split|]; cbn; auto. Qed.

Lemma unmounted_send p r (s : State) : Spec.unmounted s → Spec.unmounted (send p r s).
Proof. by intros [? ?]. Qed.

Lemma unmounted_set_pending l (s : State) :
  Spec.unmounted s → Spec.unmounted (set_pending l s).
Proof. by intros [? ?]. Qed.

Lemma unmounted_table_handler (s : State) h :
  Spec.unmounted s → table_handler s h = s.
Proof. intros [Ht _]. unfold table_handler. by rewrite Ht. Qed.

Lemma unmounted_load (s : State) path : Spec.unmounted (load s path).
Proof.
  unfold load, FileUpload.handleLoadFile.
  destruct (negb _); cbn [callbacks foldl callback].
  - apply unmounted_handleError.
  - apply unmounted_send. rewrite render_unmounted; [split|]; cbn; auto.
Qed.

(** Until the [getData] reply of a load arrives, nothing mounts a table. *)
Lemma unmounted_step (s : State) (e : Event) :
  Spec.no_data_reply e = true → Spec.unmounted s → Spec.unmounted (step s e).
Proof.
  intros He Hs. destruct e; cbn [step]; try done.
  - by rewrite unmounted_table_handler.
  - by rewrite unmounted_table_handler.
  - destruct Hs as [Ht ?]. by rewrite Ht.
  - destruct Hs as [Ht ?]. by rewrite Ht.
  - apply unmounted_load.
  - apply unmounted_load.
  - destruct (App.shows_error _); [|done].
    rewrite render_unmounted; [split|]; cbn; auto.
  - destruct (pending s !! k) as [[inst c| | |]|]; try done.
    destruct (DataTable.loadPage_resume _ _) as [update [message|]];
      destruct Hs as [Ht ?]; cbn; rewrite Ht;
      [apply unmounted_handleError | done].
  - destruct (pending s !! k) as [[|format limit filters| |]|]; try done.
    destruct (DataTable.handleExport_resume _);
      [apply unmounted_handleError | by apply unmounted_set_pending].
  - destruct (pending s !! k) as [[| |target|]|]; try done.
    unfold FileUpload.after_loadParquet.
    destruct (_ ≫= _) as [[]|thrown]; cbn [callbacks foldl callback].
    + by apply unmounted_send, unmounted_set_pending.
    + rewrite render_unmounted; [split|]; cbn; auto.
Qed.

Lemma unmounted_run (events : list Event) (s : State) :
  forallb Spec.no_data_reply events = true →
  Spec.unmounted s → Spec.unmounted (run s events).
Proof.
  unfold run. revert s.
  induction events as [|e events IH]; intros s Hevents Hs; [done|].
  cbn in Hevents. apply andb_true_iff in Hevents as [He Hevents].
  cbn. by apply IH, unmounted_step.
Qed.

(** The [getData] reply of a load that finds no table mounts one, with
    the initial cells. *)
Lemma data_reply_mounts (s : State) (k : nat) (d : DataResponse) :
  Spec.unmounted s →
  pending s !! k = Some PendingGetData →
  let s' := step s (GetDataDone k (ok_with d)) in
  table s' = Some (DataTable.initial (App.table_props d))
  ∧ App.data (app s') = Some d
  ∧ App.loading (app s') = false
  ∧ pending s' = delete k (pending s)
  ∧ network s' = network s.
Proof.
  intros [Ht Happ] Hk. cbn zeta. cbn [step]. rewrite Hk.
  destruct s as [[loaded_data flag shown_error] ? ? ? ? ?]; cbn in Ht, Happ.
  subst. by destruct Happ as [-> | ->]; [|destruct flag].
Qed.

Lemma load_starts (s : State) (e : Event) (targetPath : string) :
  targetPath ≠ "" →
  Spec.starts_load s e targetPath →
  Spec.unmounted (step s e)
  ∧ pending (step s e) = (pending s ++ [PendingLoadParquet targetPath])%list
  ∧ network (step s e) = (network s ++ [load_request targetPath])%list.
Proof.
  intros Hpath He.
  assert (∃ s0 path,
            step s e = load s0 path
            ∧ FileUpload.handleLoadFile (filePath s0) path
              = ([FileUpload.onLoadingChange true], Some targetPath)
            ∧ pending s0 = pending s ∧ network s0 = network s)
    as (s0 & path & -> & Hbegin & <- & <-).
  { destruct He as [-> | [-> Htrim]].
    - exists (set_filePath targetPath s), (Some targetPath).
      unfold FileUpload.handleLoadFile.
      by destruct targetPath.
    - exists s, None.
      unfold FileUpload.handleLoadFile. cbn [default truthy_string].
      rewrite Htrim. by destruct targetPath. }
  split; [apply unmounted_load|].
  unfold load. rewrite Hbegin. cbn.
  by rewrite pending_render, network_render.
Qed.

(** C4, as the code has it. A load raises the loading flag of [App],
    which unmounts the table; when the [getData] reply of the load
    arrives, and no [getData] reply of another load has arrived since
    the load was started, a table is mounted anew: it is on page 1
    (offset 0), its filter object is empty, its page size is the default
    and its rows are the first batch of the new file, whatever page and
    filters the table shown before had and whatever other events came in
    between. *)
Theorem load_resets_view (s : State) (e : Event) (targetPath : string)
  (between : list Event) (k : nat) (d : DataResponse) :
  targetPath ≠ "" →
  Spec.starts_load s e targetPath →
  forallb Spec.no_data_reply between = true →
  pending (run (step s e) between) !! k = Some PendingGetData →
  let s' := step (run (step s e) between) (GetDataDone k (ok_with d)) in
  table s' = Some (DataTable.initial (App.table_props d))
  ∧ App.data (app s') = Some d
  ∧ ∃ t, table s' = Some t
         ∧ DataTable.currentPage t = 1
         ∧ (DataTable.currentPage t - 1) * DataTable.pageSize t = 0
         ∧ DataTable.filters t = ∅
         ∧ DataTable.data t = dr_data d
         ∧ DataTable.filteredRows t = dr_total_rows d.
Proof.
  intros Hpath He Hbetween Hk.
  destruct (load_starts s e targetPath Hpath He) as (Hstart & _ & _).
  destruct (data_reply_mounts (run (step s e) between) k d)
    as (Htable & Hdata & _); [by apply unmounted_run | done |].
  cbn zeta. split; [done|]. split; [done|].
  eexists. by split.
Qed.

Lemma load_resets_view_witness :
  let s := run Sample.loaded
             [Slice (SlicerPanel.ValueToggle "region" "east");
              FetchDone 0 (ok_with Sample.east);
              PageSizeChange 50] in
  let e := FileSelect "data/other.parquet" in
  let between := [FetchDone 0 (ok_with Sample.east);
                  LoadParquetDone 0 (Normal (Ok (Normal None)))] in
  let s' := step (run (step s e) between) (GetDataDone 0 (ok_with Sample.other)) in
  (DataTable.filters <$> table s) = Some {[ "region" := ["east"] ]}
  ∧ (DataTable.pageSize <$> table s) = Some 50
  ∧ "data/other.parquet" ≠ ""
  ∧ Spec.starts_load s e "data/other.parquet"
  ∧ forallb Spec.no_data_reply between = true
  ∧ pending (run (step s e) between) !! 0%nat = Some PendingGetData
  ∧ table s' = Some (DataTable.initial (App.table_props Sample.other))
  ∧ App.data (app s') = Some Sample.other
  ∧ ∃ t, table s' = Some t
         ∧ DataTable.currentPage t = 1
         ∧ (DataTable.currentPage t - 1) * DataTable.pageSize t = 0
         ∧ DataTable.filters t = ∅
         ∧ DataTable.data t = dr_data Sample.other
         ∧ DataTable.filteredRows t = dr_total_rows Sample.other.
Proof.
  intros s e between s'.
  split; [by vm_compute|]. split; [by vm_compute|]. split; [discriminate|].
  split; [by left|]. split; [reflexivity|]. split; [by vm_compute|].
  apply (load_resets_view s e "data/other.parquet" between 0 Sample.other).
  - discriminate.
  - by left.
  - reflexivity.
  - by vm_compute.
Defined.

(** C4, as the specification states it, fails when two loads overlap. Two files are
    picked one after the other.  The first load completes: it lowers the
    loading flag although the second load is still under way, and the
    table is mounted; the user sets a filter.  The [getData] reply of
    the second load then replaces [App]'s data under the mounted table,
    which keeps its filter and its rows. *)
Lemma overlapping_load_keeps_view :
  let info := ok_with {| lp_message := "loaded"; lp_rows := 5 |} in
  let s := run System.initial
             [FileSelect "data/sales.parquet";
              FileSelect "data/other.parquet";
              LoadParquetDone 0 info;
              GetDataDone 1 (ok_with Sample.dataset);
              Slice (SlicerPanel.ValueToggle "region" "east");
              FetchDone 1 (ok_with Sample.east);
              LoadParquetDone 0 info] in
  let s' := step s (GetDataDone 0 (ok_with Sample.other)) in
  pending s = [PendingGetData]
  ∧ App.data (app s') = Some Sample.other
  ∧ pending s' = []
  ∧ (DataTable.filters <$> table s') = Some {[ "region" := ["east"] ]}
  ∧ (DataTable.data <$> table s') = Some (fd_data Sample.east)
  ∧ table s' ≠ Some (DataTable.initial (App.table_props Sample.other)).
Proof.
  cbn zeta. repeat split; try by vm_compute.
Qed.

End ViewState.

(** ** The selection of a column slicer *)

Section SlicerSelection.
Import Api ColumnSlicer.

Lemma includes_elem (values : list string) (v : string) :
  includes values v = true ↔ v ∈ values.
Proof.
  unfold includes. rewrite existsb_exists, list_elem_of_In. split.
  - intros (w & Hin & Heq). apply String.eqb_eq in Heq. by subst.
  - intros Hin. exists v. by rewrite String.eqb_refl.
Qed.

Lemma includes_not_elem (values : list string) (v : string) :
  includes values v = false ↔ v ∉ values.
Proof. rewrite <- includes_elem. by destruct (includes values v). Qed.

Lemma elem_of_keep (f : string → bool) (values : list string) (w : string) :
  w ∈ List.filter f values ↔ w ∈ values ∧ f w = true.
Proof. by rewrite !list_elem_of_In, filter_In. Qed.

(** X1. Ticking or unticking a value flips whether that value is
    selected and leaves every other value as it was. *)
Theorem toggle_flips_one (selectedValues : list string) (value w : string) :
  includes (handleValueToggle selectedValues value) w
  = if String.eqb w value then negb (includes selectedValues value)
    else includes selectedValues w.
Proof.
  unfold handleValueToggle.
  destruct (String.eqb_spec w value) as [->|Hne];
    destruct (includes selectedValues value) eqn:Hsel; cbn.
  - apply includes_not_elem. rewrite elem_of_keep, String.eqb_refl. by intros [_ ?].
  - apply includes_elem, elem_of_app. right. by apply list_elem_of_singleton.
  - destruct (includes selectedValues w) eqn:Hw.
    + apply includes_elem, elem_of_keep. split; [by apply includes_elem|].
      by apply negb_true_iff, String.eqb_neq.
    + apply includes_not_elem. rewrite elem_of_keep.
      intros [Hin _]. by apply includes_not_elem in Hw.
  - destruct (includes selectedValues w) eqn:Hw.
    + apply includes_elem, elem_of_app. left. by apply includes_elem.
    + apply includes_not_elem. rewrite elem_of_app, list_elem_of_singleton.
      intros [Hin | ?]; [by apply includes_not_elem in Hw | done].
Qed.

Lemma unique_spec (values seen : list string) :
  NoDup (unique seen values)
  ∧ ∀ w, w ∈ unique seen values ↔ w ∈ values ∧ w ∉ seen.
Proof.
  revert seen. induction values as [|v values IH]; intros seen; cbn.
  - split; [constructor|]. intros w. rewrite elem_of_nil. tauto.
  - destruct (includes seen v) eqn:Hv.
    + destruct (IH seen) as [Hnd Hin]. split; [done|].
      intros w. rewrite Hin, elem_of_cons. apply includes_elem in Hv.
      split; [tauto|]. intros [[-> | ?] ?]; tauto.
    + destruct (IH (v :: seen)) as [Hnd Hin]. apply includes_not_elem in Hv. split.
      * constructor; [|done]. rewrite Hin, elem_of_cons. tauto.
      * intros w. rewrite !elem_of_cons, Hin, elem_of_cons.
        destruct (decide (w = v)) as [-> | ?]; tauto.
Qed.

(** X2. [Select All] yields a selection without repetition that holds
    exactly the values selected before and the values shown; after it
    the [Select All] button is disabled. *)
Theorem select_all_selects_shown (selectedValues filteredValues : list string) :
  NoDup (handleSelectAll selectedValues filteredValues)
  ∧ (∀ w, w ∈ handleSelectAll selectedValues filteredValues
          ↔ w ∈ selectedValues ∨ w ∈ filteredValues)
  ∧ selectAll_disabled (handleSelectAll selectedValues filteredValues) filteredValues
    = true.
Proof.
  unfold handleSelectAll.
  destruct (unique_spec (selectedValues ++ filteredValues) []) as [Hnd Hin].
  assert (∀ w, w ∈ unique [] (selectedValues ++ filteredValues)
               ↔ w ∈ selectedValues ∨ w ∈ filteredValues) as Hmem.
  { intros w. rewrite Hin, elem_of_app, elem_of_nil. tauto. }
  split; [done|]. split; [done|].
  unfold selectAll_disabled. apply forallb_forall. intros w Hw.
  apply includes_elem, Hmem. right. by apply list_elem_of_In.
Qed.

(** X3. [Deselect All] keeps, in their order, exactly the selected
    values that are not shown; after it the [Deselect All] button is
    disabled. *)
Theorem deselect_all_keeps_hidden (selectedValues filteredValues : list string) :
  handleDeselectAll selectedValues filteredValues `sublist_of` selectedValues
  ∧ (∀ w, w ∈ handleDeselectAll selectedValues filteredValues
          ↔ w ∈ selectedValues ∧ w ∉ filteredValues)
  ∧ deselectAll_disabled (handleDeselectAll selectedValues filteredValues)
      filteredValues = true.
Proof.
  unfold handleDeselectAll.
  assert (∀ w, w ∈ List.filter (fun v => negb (includes filteredValues v)) selectedValues
               ↔ w ∈ selectedValues ∧ w ∉ filteredValues) as Hmem.
  { intros w. rewrite elem_of_keep, negb_true_iff, includes_not_elem. done. }
  split; [|split; [done|]].
  - clear Hmem. induction selectedValues as [|v rest IH]; cbn; [done|].
    destruct (negb _); [by apply sublist_skip | by apply sublist_cons].
  - unfold deselectAll_disabled. apply negb_true_iff, not_true_iff_false.
    rewrite existsb_exists. intros (w & Hw & Hsel).
    apply includes_elem, Hmem in Hsel as [_ Hout].
    by apply Hout, list_elem_of_In.
Qed.

End SlicerSelection.

(** ** The filter object of the panel, further *)

Section PanelFilters.
Import Api ColumnSlicer SlicerPanel.

Lemma keep_NoDup (f : string → bool) (values : list string) :
  NoDup values → NoDup (List.filter f values).
Proof.
  induction 1 as [|v values Hv Hnd IH]; cbn; [constructor|].
  destruct (f v); [|done].
  constructor; [|done]. rewrite elem_of_keep. tauto.
Qed.

Lemma toggle_NoDup (selected : list string) (value : string) :
  NoDup selected → NoDup (handleValueToggle selected value).
Proof.
  intros Hnd. unfold handleValueToggle.
  destruct (includes selected value) eqn:Hsel; [by apply keep_NoDup|].
  apply NoDup_app. split; [done|]. split; [|apply NoDup_singleton].
  intros w Hw ->%list_elem_of_singleton. by apply includes_not_elem in Hsel.
Qed.

Lemma selectedValues_NoDup (filters : ColumnFilters) (column : string) :
  Spec.duplicate_free filters → NoDup (selectedValues filters column).
Proof.
  intros Hdf. unfold selectedValues.
  destruct (filters !! column) as [values|] eqn:Hc; cbn; [by eapply Hdf | constructor].
Qed.

Lemma duplicate_free_change (filters : ColumnFilters) column selected :
  NoDup selected →
  Spec.duplicate_free filters →
  Spec.duplicate_free (handleColumnFilterChange filters column selected).
Proof.
  intros Hnd Hdf. unfold handleColumnFilterChange.
  destruct (List.length selected =? 0)%nat; intros c values H.
  - apply lookup_delete_Some in H as [_ H]. by eapply Hdf.
  - apply lookup_insert_Some in H as [[_ <-] | [_ H]]; [done | by eapply Hdf].
Qed.

Lemma duplicate_free_act columns (filters : ColumnFilters) a :
  Spec.duplicate_free filters → Spec.duplicate_free (Spec.act columns filters a).
Proof.
  intros Hdf. unfold Spec.act.
  destruct (rendered columns filters a); [|done].
  destruct a; cbn [dispatch]; try apply duplicate_free_change; try done.
  - by apply toggle_NoDup, selectedValues_NoDup.
  - apply unique_spec.
  - by apply keep_NoDup, selectedValues_NoDup.
  - constructor.
  - constructor.
Qed.

(** X4. No array of a filter object reachable through the panel holds a
    value twice, whatever the lists of values the drop-downs show. *)
Theorem slicer_filters_duplicate_free (columns : list string)
  (actions : list Action) :
  Spec.duplicate_free (Spec.play columns actions).
Proof.
  unfold Spec.play.
  assert (Spec.duplicate_free (∅ : ColumnFilters)) as Hempty.
  { intros c values H. by rewrite lookup_empty in H. }
  revert Hempty. generalize (∅ : ColumnFilters).
  induction actions as [|a actions IH]; intros filters Hdf; cbn; [done|].
  by apply IH, duplicate_free_act.
Qed.

(** X5. For columns whose names are not names of [Object.prototype]:
    the selection a slicer passes up is the selection it is handed back
    on the next render, the empty selection included, and the selections
    of the other columns are not touched. *)
Theorem selection_round_trip (filters : ColumnFilters) (column other : string)
  (selected : list string) :
  Spec.own_name column →
  Spec.own_name other →
  other ≠ column →
  selectedValues (handleColumnFilterChange filters column selected) column = selected
  ∧ selectedValues (handleColumnFilterChange filters column selected) other
    = selectedValues filters other.
Proof.
  intros _ _ Hne. unfold selectedValues, handleColumnFilterChange.
  destruct selected as [|v rest]; cbn.
  - by rewrite lookup_delete_eq, lookup_delete_ne.
  - by rewrite lookup_insert_eq, lookup_insert_ne.
Qed.

Lemma selection_round_trip_witness :
  let filters : ColumnFilters := {[ "region" := ["east"] ]} in
  Spec.own_name "amount"
  ∧ Spec.own_name "region"
  ∧ "region" ≠ "amount"
  ∧ selectedValues (handleColumnFilterChange filters "region" []) "region" = []
  ∧ selectedValues (handleColumnFilterChange filters "amount" ["10"; "20"]) "amount"
    = ["10"; "20"]
  ∧ selectedValues (handleColumnFilterChange filters "amount" ["10"; "20"]) "region"
    = selectedValues filters "region".
Proof.
  assert (Spec.own_name "amount") as Hamount.
  { apply (bool_decide_unpack _). reflexivity. }
  assert (Spec.own_name "region") as Hregion.
  { apply (bool_decide_unpack _). reflexivity. }
  split; [exact Hamount|]. split; [exact Hregion|].
  split; [discriminate|]. split; [reflexivity|].
  apply (selection_round_trip {[ "region" := ["east"] ]} "amount" "region" ["10"; "20"]
           Hamount Hregion).
  discriminate.
Defined.

Lemma activeFilterCount_size (filters : ColumnFilters) :
  activeFilterCount filters = size filters.
Proof.
  unfold activeFilterCount, Object_keys.
  by rewrite length_fmap, length_map_to_list.
Qed.

(** X6. The badge counts the constrained columns: a change of the
    selection of a column, other than one named [__proto__], moves the
    count by one when the column becomes constrained or ceases to be, and
    not otherwise; the clear-all button is enabled exactly when the
    filter object is not empty, and brings the count to zero. *)
Theorem active_filter_count (filters : ColumnFilters) (column : string)
  (selected : list string) :
  column ≠ "__proto__" →
  activeFilterCount (handleColumnFilterChange filters column selected)
  = match selected, filters !! column with
    | [], Some _ => Nat.pred (activeFilterCount filters)
    | _ :: _, None => S (activeFilterCount filters)
    | _, _ => activeFilterCount filters
    end
  ∧ hasActiveFilters filters = negb (bool_decide (filters = ∅))
  ∧ activeFilterCount handleClearAllFilters = 0%nat.
Proof.
  intros _. split; [|split; [apply has_keys | done]].
  rewrite !activeFilterCount_size. unfold handleColumnFilterChange.
  destruct selected as [|v rest], (filters !! column) as [old|] eqn:Hc; cbn.
  - by erewrite map_size_delete_Some.
  - by rewrite map_size_delete_None.
  - by erewrite map_size_insert_Some.
  - by rewrite map_size_insert_None.
Qed.

Lemma active_filter_count_witness :
  let filters : ColumnFilters := {[ "region" := ["east"] ]} in
  "amount" ≠ "__proto__"
  ∧ activeFilterCount filters = 1%nat
  ∧ activeFilterCount (handleColumnFilterChange filters "amount" ["10"]) = 2%nat
  ∧ hasActiveFilters filters = true
  ∧ activeFilterCount handleClearAllFilters = 0%nat.
Proof.
  assert ("amount" ≠ "__proto__") as Hname by discriminate.
  destruct (active_filter_count {[ "region" := ["east"] ]} "amount" ["10"] Hname)
    as (Hcount & Hactive & Hclear).
  split; [exact Hname|]. split; [reflexivity|].
  split; [rewrite Hcount; reflexivity|].
  split; [rewrite Hactive; reflexivity | exact Hclear].
Defined.

End PanelFilters.

(** ** The pagination bar *)

Section PaginationBar.
Import Api DataTable.

(** With enough iterations allowed, the loop lists the integers from [i]
    to [last]; it stops by its own test. *)
Lemma push_pages_seqZ (n : nat) (i last : Z) :
  last - i + 1 ≤ Z.of_nat n → push_pages n i last = seqZ i (last - i + 1).
Proof.
  revert i. induction n as [|n IH]; intros i Hn; cbn [push_pages].
  - by rewrite seqZ_nil by lia.
  - destruct (Z.leb_spec i last).
    + rewrite seqZ_cons by lia. f_equal.
      rewrite IH by lia. f_equal; lia.
    + by rewrite seqZ_nil by lia.
Qed.

(** X7. The page buttons are the consecutive page numbers from
    [max(1, currentPage − 2)] to [min(totalPages, currentPage + 2)]: at
    most five, none when that range is empty.  The loop that lists them
    ends by its own test: allowing it more iterations changes nothing. *)
Theorem page_buttons_listed (st : State) (more : nat) :
  let start := Z.max 1 (currentPage st - 2) in
  let last := Z.min (totalPages st) (currentPage st + 2) in
  getPageNumbers st = seqZ start (last - start + 1)
  ∧ push_pages (Z.to_nat (last - start + 1) + more) start last = getPageNumbers st
  ∧ (List.length (getPageNumbers st) ≤ 5)%nat
  ∧ (bool_decide (currentPage st ∈ getPageNumbers st)
     = (1 <=? currentPage st) && (currentPage st <=? totalPages st)).
Proof.
  cbn zeta. unfold getPageNumbers.
  rewrite !push_pages_seqZ by lia.
  split; [done|]. split; [done|]. split.
  - rewrite length_seqZ. lia.
  - destruct (Z.leb_spec 1 (currentPage st)), (Z.leb_spec (currentPage st) (totalPages st));
      cbn; [apply bool_decide_eq_true | apply bool_decide_eq_false ..];
      rewrite elem_of_seqZ; lia.
Qed.

(** X8. Every page button names a page of the result, at most two pages
    away from the current one; pressing it makes a call for that page,
    with the page size and filters of the state, unless it is the button
    of the current page, which does nothing. *)
Theorem page_button_fetches (st : State) (p : Z) :
  p ∈ getPageNumbers st →
  (1 ≤ p ≤ totalPages st)
  ∧ (currentPage st - 2 ≤ p ≤ currentPage st + 2)
  ∧ handlePageChange st p
    = if p =? currentPage st then (st, None)
      else (setLoading true st,
            Some {| page := p; size := pageSize st; currentFilters := filters st |}).
Proof.
  unfold getPageNumbers. rewrite push_pages_seqZ by lia.
  rewrite elem_of_seqZ. intros Hp.
  split; [lia|]. split; [lia|].
  unfold handlePageChange.
  destruct (Z.leb_spec 1 p), (Z.leb_spec p (totalPages st)); try lia.
  by destruct (p =? currentPage st).
Qed.

Lemma page_button_fetches_witness :
  let st := {| data := Sample.rows; currentPage := 2; pageSize := 100;
               loading := false; filters := ∅; filteredRows := 950 |} in
  getPageNumbers st = [1; 2; 3; 4]
  ∧ 4 ∈ getPageNumbers st
  ∧ (1 ≤ 4 ≤ totalPages st)
  ∧ (currentPage st - 2 ≤ 4 ≤ currentPage st + 2)
  ∧ handlePageChange st 4
    = (setLoading true st,
       Some {| page := 4; size := 100; currentFilters := ∅ |}).
Proof.
  split; [reflexivity|].
  assert (4 ∈ getPageNumbers
                {| data := Sample.rows; currentPage := 2; pageSize := 100;
                   loading := false; filters := ∅; filteredRows := 950 |}) as Hin.
  { by apply (bool_decide_unpack _). }
  split; [exact Hin|].
  exact (page_button_fetches
           {| data := Sample.rows; currentPage := 2; pageSize := 100;
              loading := false; filters := ∅; filteredRows := 950 |} 4 Hin).
Defined.

(** X9. With a positive page size and a current page among the pages of
    the result, the summary [Showing: a - b] names a non-empty range of
    rows of the result, of at most one page size; it is a full page on
    every page but the last. *)
Theorem showing_in_bounds (st : State) :
  0 < pageSize st →
  1 ≤ currentPage st ≤ totalPages st →
  (1 ≤ (showing st).1 ≤ (showing st).2 ∧ (showing st).2 ≤ filteredRows st)
  ∧ (showing st).2 - (showing st).1 + 1 ≤ pageSize st
  ∧ ((showing st).2 - (showing st).1 + 1 = pageSize st
     ∨ currentPage st = totalPages st).
Proof.
  intros Hsize Hpage.
  pose proof (totalPages_ceiling st Hsize) as Hceil.
  unfold showing; cbn [fst snd].
  assert (currentPage st < totalPages st ∨ currentPage st = totalPages st)
    as [Hlt | Heq] by lia.
  - rewrite Z.min_l by nia. nia.
  - rewrite Heq in *.
    destruct (Z.min_spec (totalPages st * pageSize st) (filteredRows st))
      as [[? ->] | [? ->]]; nia.
Qed.

Lemma showing_in_bounds_witness :
  let st := {| data := Sample.rows; currentPage := 3; pageSize := 100;
               loading := false; filters := ∅; filteredRows := 250 |} in
  0 < pageSize st
  ∧ (1 ≤ currentPage st ≤ totalPages st)
  ∧ showing st = (201, 250)
  ∧ (1 ≤ (showing st).1 ≤ (showing st).2 ∧ (showing st).2 ≤ filteredRows st)
  ∧ (showing st).2 - (showing st).1 + 1 ≤ pageSize st
  ∧ ((showing st).2 - (showing st).1 + 1 = pageSize st
     ∨ currentPage st = totalPages st).
Proof.
  split; [reflexivity|]. split; [by vm_compute|]. split; [reflexivity|].
  apply (showing_in_bounds
           {| data := Sample.rows; currentPage := 3; pageSize := 100;
              loading := false; filters := ∅; filteredRows := 250 |}).
  - reflexivity.
  - by vm_compute.
Defined.

(** X10. A result without rows has no page: on page 1 of an empty result
    there is no page button and the summary reads [1 - 0]; the Next and
    Last buttons are not disabled, yet no page change, whatever its
    target, makes a call or changes the state. *)
Theorem empty_result_has_no_page (st : State) (p : Z) :
  0 < pageSize st →
  filteredRows st = 0 →
  currentPage st = 1 →
  totalPages st = 0
  ∧ getPageNumbers st = []
  ∧ showing st = (1, 0)
  ∧ next_disabled st = false
  ∧ handlePageChange st p = (st, None).
Proof.
  intros Hsize Hrows Hpage.
  assert (totalPages st = 0) as Htotal.
  { unfold totalPages. rewrite Hrows. cbn. by rewrite Z.div_0_l by lia. }
  split; [done|]. split; [|split; [|split]].
  - unfold getPageNumbers. rewrite push_pages_seqZ by lia.
    apply seqZ_nil. lia.
  - unfold showing. rewrite Hrows, Hpage. f_equal. lia.
  - unfold next_disabled. rewrite Htotal, Hpage. done.
  - unfold handlePageChange. rewrite Htotal.
    destruct (Z.leb_spec 1 p), (Z.leb_spec p 0); try done; lia.
Qed.

Lemma empty_result_has_no_page_witness :
  let st := {| data := []; currentPage := 1; pageSize := 100;
               loading := false; filters := {[ "region" := ["south"] ]};
               filteredRows := 0 |} in
  0 < pageSize st
  ∧ filteredRows st = 0
  ∧ currentPage st = 1
  ∧ totalPages st = 0
  ∧ getPageNumbers st = []
  ∧ showing st = (1, 0)
  ∧ next_disabled st = false
  ∧ handlePageChange st 2 = (st, None).
Proof.
  split; [reflexivity|]. split; [reflexivity|]. split; [reflexivity|].
  apply (empty_result_has_no_page
           {| data := []; currentPage := 1; pageSize := 100;
              loading := false; filters := {[ "region" := ["south"] ]};
              filteredRows := 0 |} 2); reflexivity.
Defined.

End PaginationBar.

(** ** Errors, exports and loads in the running application *)

Section Application.
Import JS Api System.

Lemma app_render (s : State) : app (render s) = app s.
Proof.
  unfold render.
  by destruct (App.shows_table (app s)), (table s), (App.data (app s)).
Qed.

Lemma exclusive_callback (s : State) c : Spec.exclusive s → Spec.exclusive (callback s c).
Proof.
  unfold Spec.exclusive. intros Hs. destruct c as [d | message | v]; cbn [callback].
  - right.
    destruct (table s), (table (render (set_app (App.handleDataLoaded d (app s)) s)));
      cbn; by rewrite app_render.
  - left. unfold handleError. by rewrite app_render.
  - by rewrite app_render.
Qed.

Lemma exclusive_callbacks cs (s : State) :
  Spec.exclusive s → Spec.exclusive (callbacks s cs).
Proof.
  unfold callbacks. revert s.
  induction cs as [|c cs IH]; intros s Hs; cbn; [done|].
  by apply IH, exclusive_callback.
Qed.

Lemma exclusive_handleError message (s : State) : Spec.exclusive (handleError message s).
Proof. left. unfold handleError. by rewrite app_render. Qed.

Lemma exclusive_table_handler (s : State) h :
  Spec.exclusive s → Spec.exclusive (table_handler s h).
Proof.
  unfold table_handler. destruct (table s) as [t|]; [|done].
  by destruct (h t) as [t' [c|]].
Qed.

Lemma exclusive_load (s : State) path : Spec.exclusive s → Spec.exclusive (load s path).
Proof.
  intros Hs. unfold load.
  destruct (FileUpload.handleLoadFile _ _) as [cs [target|]];
    by apply (exclusive_callbacks cs) in Hs.
Qed.

Lemma exclusive_step (s : State) (e : Event) :
  Spec.exclusive s → Spec.exclusive (step s e).
Proof.
  intros Hs. destruct e; cbn [step].
  - by apply exclusive_table_handler.
  - by apply exclusive_table_handler.
  - destruct (table s), (App.data (app s)); try done.
    destruct (SlicerPanel.rendered _ _ _); [by apply exclusive_table_handler | done].
  - by destruct (table s).
  - done.
  - by apply (exclusive_load (set_filePath path s)).
  - by apply exclusive_load.
  - destruct (App.shows_error _); [|done].
    left. by rewrite app_render.
  - destruct (pending s !! k) as [[inst c| | |]|]; try done.
    destruct (DataTable.loadPage_resume _ _) as [update [message|]];
      [apply exclusive_handleError|].
    cbn. destruct (table s); [destruct (_ =? _)%nat|]; done.
  - destruct (pending s !! k) as [[|format limit filters| |]|]; try done.
    destruct (DataTable.handleExport_resume _); [apply exclusive_handleError | done].
  - destruct (pending s !! k) as [[| |target|]|]; try done.
    destruct (FileUpload.after_loadParquet _) as [cs []];
      by apply exclusive_callbacks.
  - destruct (pending s !! k) as [[| | |]|]; try done.
    by apply exclusive_callbacks.
Qed.

(** X11. Whatever the user does and whatever the replies are, [App]
    never holds data and an error together: the table and the error box
    are never rendered at the same time. *)
Theorem table_and_error_never_together (events : list Event) :
  Spec.exclusive (run initial events)
  ∧ App.shows_table (app (run initial events))
    && App.shows_error (app (run initial events)) = false.
Proof.
  assert (Spec.exclusive (run initial events)) as Hex.
  { unfold run.
    assert (Spec.exclusive initial) as Hinit by by left.
    revert Hinit. generalize initial.
    induction events as [|e events IH]; intros s Hs; cbn; [done|].
    by apply IH, exclusive_step. }
  split; [done|].
  unfold App.shows_table, App.shows_error.
  destruct Hex as [-> | ->]; [done|].
  cbn. apply andb_false_r.
Qed.

(** The message of a failed export begins with [Export failed: ]. *)
Lemma export_failure_message result message :
  DataTable.handleExport_resume result = Some message →
  ∃ detail, message = "Export failed: " +:+ detail.
Proof.
  unfold DataTable.handleExport_resume.
  destruct result as [r | e]; [destruct (negb _ && _)|]; intros [= <-]; by eexists.
Qed.

(** X12. An export that fails also takes the table away: the failure
    goes to [App.handleError], which drops the loaded data, so that
    after the reply no table is mounted and only the error, which begins
    with [Export failed: ], is rendered. *)
Theorem failed_export_clears_view (s : State) (k : nat)
  (format : ExportButton.Format) (limit : option Num) (filters : ColumnFilters)
  (reply : Completion ExportReply) (browser : Browser) (message : string) :
  pending s !! k = Some (PendingExport format limit filters) →
  DataTable.handleExport_resume (Spec.export_result format browser reply limit filters)
  = Some message →
  let s' := step s (ExportDone k reply browser) in
  table s' = None
  ∧ App.data (app s') = None
  ∧ App.error (app s') = Some message
  ∧ App.shows_error (app s') = true
  ∧ ∃ detail, message = "Export failed: " +:+ detail.
Proof.
  intros Hk Hfailed. cbn zeta. cbn [step]. rewrite Hk.
  change (match format with
          | ExportButton.csv =>
              exportCSV browser (fun _ => reply) limit (Some (Int 0)) (Some filters)
          | ExportButton.excel =>
              exportExcel browser (fun _ => reply) limit (Some (Int 0)) (Some filters)
          end)
    with (Spec.export_result format browser reply limit filters).
  rewrite Hfailed.
  destruct (export_failure_message _ _ Hfailed) as [detail ->].
  unfold handleError, render, App.shows_error. cbn.
  repeat split. by eexists.
Qed.

Lemma failed_export_clears_view_witness :
  let s := step Sample.loaded (ExportClick ExportButton.excel None) in
  let reply : Completion ExportReply :=
    Normal (ExportNotOk 500 "Internal Server Error"
              (Normal (JObj [("detail", JStr "disk full")]))) in
  let browser := {| match_filename := fun _ => None;
                    trigger_download := fun _ _ => Normal () |} in
  (DataTable.data <$> table s) = Some Sample.rows
  ∧ pending s !! 0%nat = Some (PendingExport ExportButton.excel None ∅)
  ∧ DataTable.handleExport_resume
      (Spec.export_result ExportButton.excel browser reply None ∅)
    = Some "Export failed: disk full"
  ∧ table (step s (ExportDone 0 reply browser)) = None
  ∧ App.data (app (step s (ExportDone 0 reply browser))) = None
  ∧ App.error (app (step s (ExportDone 0 reply browser)))
    = Some "Export failed: disk full"
  ∧ App.shows_error (app (step s (ExportDone 0 reply browser))) = true
  ∧ ∃ detail, "Export failed: disk full" = "Export failed: " +:+ detail.
Proof.
  intros s reply browser.
  split; [by vm_compute|]. split; [by vm_compute|]. split; [by vm_compute|].
  apply (failed_export_clears_view s 0 ExportButton.excel None ∅ reply browser
           "Export failed: disk full").
  - by vm_compute.
  - by vm_compute.
Defined.

Lemma skip_all_white_space (path : string) :
  Spec.all_white_space path = true → skip_white_space path = "".
Proof.
  induction path as [|a rest IH]; cbn; [done|].
  intros [Ha Hrest]%andb_true_iff. rewrite Ha. by apply IH.
Qed.

(** X13. Submitting a typed path that is empty or made of white space
    sends no request; the message asking for a path goes to
    [App.handleError], which also drops the data loaded before, so that
    the table disappears. *)
Theorem blank_path_rejected (s : State) :
  Spec.all_white_space (filePath s) = true →
  let s' := step s LoadClick in
  network s' = network s
  ∧ pending s' = pending s
  ∧ App.error (app s') = Some "Please select or enter a file path"
  ∧ App.data (app s') = None
  ∧ table s' = None.
Proof.
  intros Hblank. cbn zeta. cbn [step]. unfold load, FileUpload.handleLoadFile.
  cbn [default truthy_string]. unfold FileUpload.trim.
  rewrite (skip_all_white_space _ Hblank). cbn.
  unfold handleError, render. cbn. done.
Qed.

Lemma blank_path_rejected_witness :
  let s := step Sample.loaded (TypePath "   ") in
  Spec.all_white_space (filePath s) = true
  ∧ (DataTable.data <$> table s) = Some Sample.rows
  ∧ network (step s LoadClick) = network s
  ∧ pending (step s LoadClick) = pending s
  ∧ App.error (app (step s LoadClick)) = Some "Please select or enter a file path"
  ∧ App.data (app (step s LoadClick)) = None
  ∧ table (step s LoadClick) = None.
Proof.
  intros s. split; [reflexivity|]. split; [by vm_compute|].
  apply (blank_path_rejected s). reflexivity.
Defined.

(** X14. When [loadParquet] reports an error, the load stops there:
    [getData] is not requested, the loading flag is lowered, and the
    error is shown in place of whatever data were loaded before. *)
Theorem failed_load_stops (s : State) (k : nat) (targetPath : string)
  (reply : Completion (Reply LoadParquetResponse))
  (payload : option LoadParquetResponse) (message : string) :
  pending s !! k = Some (PendingLoadParquet targetPath) →
  loadParquet (fun _ => reply) targetPath
  = Normal {| data := payload; error := Some message |} →
  message ≠ "" →
  let s' := step s (LoadParquetDone k reply) in
  network s' = network s
  ∧ pending s' = delete k (pending s)
  ∧ App.loading (app s') = false
  ∧ App.error (app s') = Some message
  ∧ App.data (app s') = None
  ∧ table s' = None.
Proof.
  intros Hk Hresult Hmessage. cbn zeta. cbn [step]. rewrite Hk, Hresult.
  unfold FileUpload.after_loadParquet. cbn.
  rewrite (truthy_string_nonempty _ Hmessage). cbn.
  unfold handleError, render. cbn. done.
Qed.

Lemma failed_load_stops_witness :
  let s := step Sample.loaded (FileSelect "data/missing.parquet") in
  let reply : Completion (Reply LoadParquetResponse) :=
    Normal (NotOk 404 "Not Found" (Normal (JObj [("detail", JStr "File not found")]))) in
  pending s !! 0%nat = Some (PendingLoadParquet "data/missing.parquet")
  ∧ loadParquet (fun _ => reply) "data/missing.parquet"
    = Normal {| data := None; error := Some "File not found" |}
  ∧ "File not found" ≠ ""
  ∧ network (step s (LoadParquetDone 0 reply)) = network s
  ∧ pending (step s (LoadParquetDone 0 reply)) = delete 0%nat (pending s)
  ∧ App.loading (app (step s (LoadParquetDone 0 reply))) = false
  ∧ App.error (app (step s (LoadParquetDone 0 reply))) = Some "File not found"
  ∧ App.data (app (step s (LoadParquetDone 0 reply))) = None
  ∧ table (step s (LoadParquetDone 0 reply)) = None.
Proof.
  intros s reply.
  split; [by vm_compute|]. split; [by vm_compute|]. split; [discriminate|].
  apply (failed_load_stops s 0 "data/missing.parquet" reply None "File not found").
  - by vm_compute.
  - by vm_compute.
  - discriminate.
Defined.

End Application.

(** ** Filters, page size and the loading flag *)

Section TableEvents.
Import JS Api System.

(** X15. When an action of the panel leaves no column constrained, the
    table at once takes the rows and the row count [App] holds, on page
    1, and asks for page 1 with no [filters] parameter. *)
Theorem cleared_filters_restore_loaded_data (s : State) (t : DataTable.State)
  (d : DataResponse) (a : SlicerPanel.Action) :
  table s = Some t →
  App.data (app s) = Some d →
  SlicerPanel.rendered (dr_columns d) (DataTable.filters t) a = true →
  SlicerPanel.dispatch (DataTable.filters t) a = ∅ →
  let s' := step s (Slice a) in
  table s'
  = Some {| DataTable.data := dr_data d; DataTable.currentPage := 1;
            DataTable.pageSize := DataTable.pageSize t; DataTable.loading := true;
            DataTable.filters := ∅; DataTable.filteredRows := dr_total_rows d |}
  ∧ network s' = (network s ++ [filtered_request (DataTable.pageSize t) 0 ∅])%list
  ∧ get "filters" (query (filtered_request (DataTable.pageSize t) 0 ∅)) = None.
Proof.
  intros Ht Hd Hrendered Hempty. cbn zeta. cbn [step].
  rewrite Ht, Hd, Hrendered. unfold table_handler. rewrite Ht, Hempty.
  by cbn.
Qed.

Lemma cleared_filters_restore_loaded_data_witness :
  let s := run Sample.loaded
             [Slice (SlicerPanel.ValueToggle "region" "east");
              FetchDone 0 (ok_with Sample.east)] in
  let t := {| DataTable.data := fd_data Sample.east; DataTable.currentPage := 1;
              DataTable.pageSize := 100; DataTable.loading := false;
              DataTable.filters := {[ "region" := ["east"] ]};
              DataTable.filteredRows := 2 |} in
  let a := SlicerPanel.ValueToggle "region" "east" in
  let s' := step s (Slice a) in
  table s = Some t
  ∧ App.data (app s) = Some Sample.dataset
  ∧ SlicerPanel.rendered (dr_columns Sample.dataset) (DataTable.filters t) a = true
  ∧ SlicerPanel.dispatch (DataTable.filters t) a = ∅
  ∧ table s'
    = Some {| DataTable.data := dr_data Sample.dataset; DataTable.currentPage := 1;
              DataTable.pageSize := DataTable.pageSize t; DataTable.loading := true;
              DataTable.filters := ∅;
              DataTable.filteredRows := dr_total_rows Sample.dataset |}
  ∧ network s' = (network s ++ [filtered_request (DataTable.pageSize t) 0 ∅])%list
  ∧ get "filters" (query (filtered_request (DataTable.pageSize t) 0 ∅)) = None.
Proof.
  intros s t a s'.
  split; [by vm_compute|]. split; [by vm_compute|].
  split; [by vm_compute|]. split; [by vm_compute|].
  apply (cleared_filters_restore_loaded_data s t Sample.dataset a); by vm_compute.
Defined.

(** X16. A change of page size asks for page 1 with the new size as
    limit, offset 0 and the filters of the state, also when the size
    chosen is the current one; once the reply is applied the table is
    on page 1 with the new page size. *)
Theorem page_size_change_returns_to_first_page (s : State) (t : DataTable.State)
  (size : Z) (payload : FilteredDataResponse) :
  table s = Some t →
  let s1 := step s (PageSizeChange size) in
  let s2 := step s1 (FetchDone (List.length (pending s)) (ok_with payload)) in
  network s1 = (network s ++ [filtered_request size 0 (DataTable.filters t)])%list
  ∧ table s2
    = Some {| DataTable.data := fd_data payload; DataTable.currentPage := 1;
              DataTable.pageSize := size; DataTable.loading := false;
              DataTable.filters := DataTable.filters t;
              DataTable.filteredRows := fd_filtered_rows payload |}
  ∧ pending s2 = pending s.
Proof.
  intros Ht. cbn zeta.
  assert (step s (PageSizeChange size)
          = send (PendingPage (mounts s)
                    {| DataTable.page := 1; DataTable.size := size;
                       DataTable.currentFilters := DataTable.filters t |})
              (filtered_request size 0 (DataTable.filters t))
              (set_table (Some (DataTable.setLoading true (DataTable.setPageSize size t))) s))
    as ->.
  { cbn [step]. unfold table_handler. by rewrite Ht. }
  split; [done|].
  erewrite fetch_done_applied; [| done | by apply list_lookup_middle].
  cbn. by rewrite delete_middle, app_nil_r.
Qed.

Lemma page_size_change_returns_to_first_page_witness :
  let s := run Sample.loaded
             [Slice (SlicerPanel.ValueToggle "region" "east");
              FetchDone 0 (ok_with Sample.east)] in
  let t := {| DataTable.data := fd_data Sample.east; DataTable.currentPage := 1;
              DataTable.pageSize := 100; DataTable.loading := false;
              DataTable.filters := {[ "region" := ["east"] ]};
              DataTable.filteredRows := 2 |} in
  let s1 := step s (PageSizeChange 50) in
  let s2 := step s1 (FetchDone (List.length (pending s)) (ok_with Sample.east)) in
  table s = Some t
  ∧ network s1 = (network s ++ [filtered_request 50 0 (DataTable.filters t)])%list
  ∧ table s2
    = Some {| DataTable.data := fd_data Sample.east; DataTable.currentPage := 1;
              DataTable.pageSize := 50; DataTable.loading := false;
              DataTable.filters := DataTable.filters t;
              DataTable.filteredRows := fd_filtered_rows Sample.east |}
  ∧ pending s2 = pending s.
Proof.
  intros s t s1 s2. split; [by vm_compute|].
  apply (page_size_change_returns_to_first_page s t 50 Sample.east).
  by vm_compute.
Defined.

(** X17. The loading flag does not count the calls: the reply to one
    call of the table lowers it although another call of the same table
    is still awaiting its reply. *)
Theorem loading_lowered_while_pending (s : State) (t : DataTable.State) (i j : nat)
  (answered awaiting : DataTable.Call) (payload : FilteredDataResponse) :
  table s = Some t →
  i ≠ j →
  pending s !! i = Some (PendingPage (mounts s) answered) →
  pending s !! j = Some (PendingPage (mounts s) awaiting) →
  let s' := step s (FetchDone i (ok_with payload)) in
  (DataTable.loading <$> table s') = Some false
  ∧ PendingPage (mounts s') awaiting ∈ pending s'.
Proof.
  intros Ht Hij Hi Hj. cbn zeta.
  rewrite (fetch_done_applied s i t answered payload Ht Hi). cbn.
  split; [done|].
  apply list_elem_of_lookup.
  destruct (decide (j < i)%nat).
  - exists j. by rewrite list_lookup_delete_lt.
  - exists (Nat.pred j). rewrite list_lookup_delete_ge by lia.
    by replace (S (Nat.pred j)) with j by lia.
Qed.

Lemma loading_lowered_while_pending_witness :
  let s := run Sample.loaded
             [Slice (SlicerPanel.ValueToggle "region" "east");
              Slice (SlicerPanel.ValueToggle "region" "west")] in
  let t := {| DataTable.data := Sample.rows; DataTable.currentPage := 1;
              DataTable.pageSize := 100; DataTable.loading := true;
              DataTable.filters := {[ "region" := ["east"; "west"] ]};
              DataTable.filteredRows := 5 |} in
  let answered := {| DataTable.page := 1; DataTable.size := 100;
                     DataTable.currentFilters := {[ "region" := ["east"] ]} |} in
  let awaiting := {| DataTable.page := 1; DataTable.size := 100;
                     DataTable.currentFilters := {[ "region" := ["east"; "west"] ]} |} in
  let s' := step s (FetchDone 0 (ok_with Sample.east)) in
  table s = Some t
  ∧ 0%nat ≠ 1%nat
  ∧ pending s !! 0%nat = Some (PendingPage (mounts s) answered)
  ∧ pending s !! 1%nat = Some (PendingPage (mounts s) awaiting)
  ∧ (DataTable.loading <$> table s') = Some false
  ∧ PendingPage (mounts s') awaiting ∈ pending s'.
Proof.
  intros s t answered awaiting s'.
  split; [by vm_compute|]. split; [done|].
  split; [by vm_compute|]. split; [by vm_compute|].
  apply (loading_lowered_while_pending s t 0 1 answered awaiting Sample.east);
    by vm_compute.
Defined.

End TableEvents.

(** ** Error messages and the status light *)

Section ErrorReports.
Import JS Api.

(** X18. For a reply whose status is not OK and whose body is a JSON
    object, every method that reads the body reports the [detail] of the
    body when it is truthy, and [HTTP status: statusText] otherwise;
    [checkHealth] does not read the body and always reports the latter.
    The [detail] is taken to be a value that [String] converts without
    throwing and whose numbers are safe integers. *)
Theorem error_detail_reported (status_code : Z) (statusText : string)
  (fields : list (string * Json)) (filePath columnName : string)
  (limit offset : Z) (filters : ColumnFilters)
  (export_limit export_offset : option Num) (export_filters : option ColumnFilters)
  (browser : Browser) :
  (∀ d, assoc "detail" fields = Some d → Spec.printable d = true) →
  let body := Normal (JObj fields) in
  let message :=
    match assoc "detail" fields with
    | Some d => if truthy d then to_String d else http_error status_code statusText
    | None => http_error status_code statusText
    end in
  loadParquet (fun _ => Normal (NotOk status_code statusText body)) filePath
  = Normal {| data := None; error := Some message |}
  ∧ getData (fun _ => Normal (NotOk status_code statusText body)) limit offset
    = Normal {| data := None; error := Some message |}
  ∧ getParquetFiles (fun _ => Normal (NotOk status_code statusText body))
    = Normal {| data := None; error := Some message |}
  ∧ getColumnValues (fun _ => Normal (NotOk status_code statusText body)) columnName
    = Normal {| data := None; error := Some message |}
  ∧ getFilteredData (fun _ => Normal (NotOk status_code statusText body))
      limit offset filters
    = Normal {| data := None; error := Some message |}
  ∧ exportCSV browser (fun _ => Normal (ExportNotOk status_code statusText body))
      export_limit export_offset export_filters
    = Normal {| success := false; export_error := Some message |}
  ∧ exportExcel browser (fun _ => Normal (ExportNotOk status_code statusText body))
      export_limit export_offset export_filters
    = Normal {| success := false; export_error := Some message |}
  ∧ checkHealth (fun _ => Normal (NotOk status_code statusText body))
    = Normal {| data := None; error := Some (http_error status_code statusText) |}.
Proof.
  intros _. cbn zeta.
  unfold loadParquet, getData, getParquetFiles, getColumnValues, getFilteredData,
    exportCSV, exportExcel, export_with, checkHealth.
  cbn. by destruct (assoc "detail" fields) as [d|]; [destruct (truthy d)|].
Qed.

Lemma error_detail_reported_witness :
  let fields := [("detail", JArr [JStr "no such column"; JNull; JNum 42])] in
  let body := Normal (JObj fields) in
  (∀ d, assoc "detail" fields = Some d → Spec.printable d = true)
  ∧ loadParquet (fun _ => Normal (NotOk 422 "Unprocessable Entity" body)) "data/sales.parquet"
    = Normal {| data := None; error := Some "no such column,,42" |}
  ∧ getFilteredData (fun _ => Normal (NotOk 422 "Unprocessable Entity" body)) 100 0 ∅
    = Normal {| data := None; error := Some "no such column,,42" |}.
Proof.
  intros fields body.
  assert (∀ d, assoc "detail" fields = Some d → Spec.printable d = true) as Hdetail.
  { intros d H. cbn in H. simplify_eq. reflexivity. }
  split; [exact Hdetail|].
  destruct (error_detail_reported 422 "Unprocessable Entity" fields
              "data/sales.parquet" "region" 100 0 ∅ None None None
              {| match_filename := fun _ => None;
                 trigger_download := fun _ _ => Normal () |} Hdetail)
    as (Hload & _ & _ & _ & Hpage & _).
  split; [exact Hload | exact Hpage].
Defined.

(** X19. The status light never fails to settle: it is [online] whenever
    [/health] answers with status OK and a body that parses, whatever the
    body says; [offline] whenever the status is not OK; and for a request
    or a body that fails, [offline] unless the failure carries the empty
    message. *)
Theorem status_light_settles (fetch : Request → Completion (Reply HealthResponse)) :
  ApiStatus.checkStatus fetch
  = Normal
      match fetch {| endpoint := Health; query := [] |} with
      | Normal (Ok (Normal _)) => ApiStatus.online
      | Normal (NotOk _ _ _) => ApiStatus.offline
      | Normal (Ok (Throw e)) | Throw e =>
          if truthy_string (message_or "Unknown error" e)
          then ApiStatus.offline else ApiStatus.online
      end.
Proof.
  unfold ApiStatus.checkStatus, checkHealth.
  destruct (fetch _) as [[status_code statusText json | [payload | e]] | e]; by cbn.
Qed.

End ErrorReports.

(** ** The custom limit and the selection, further *)

Section Edges.
Import JS Api.

(** X20. The custom limit is not validated: any integer other than zero
    that the text parses to, a negative one included, is sent as the
    limit of a CSV export as it is, and the dialog announces the least
    of it and the filtered row count. *)
Theorem custom_limit_sent_unchecked (totalRows z : Z) (st : ExportButton.State) :
  ExportButton.exportLimit st = "custom" →
  parseInt (ExportButton.customLimit st) = Int z →
  z ≠ 0 →
  (ExportButton.handleExport totalRows true st ExportButton.csv).2
  = Some (ExportButton.csv, Some (Int z))
  ∧ ExportButton.getEffectiveRows totalRows st = Int (Z.min z totalRows).
Proof.
  intros Hcustom Hparse Hz.
  unfold ExportButton.handleExport, ExportButton.getEffectiveRows,
    ExportButton.chosen_limit.
  rewrite Hcustom, Hparse. cbn.
  by destruct (Z.eqb_spec z 0).
Qed.

Lemma custom_limit_sent_unchecked_witness :
  let st := {| ExportButton.showOptions := true; ExportButton.exportLimit := "custom";
               ExportButton.customLimit := "-5"; ExportButton.showWarning := false |} in
  ExportButton.exportLimit st = "custom"
  ∧ parseInt (ExportButton.customLimit st) = Int (-5)
  ∧ -5 ≠ 0
  ∧ (ExportButton.handleExport 500 true st ExportButton.csv).2
    = Some (ExportButton.csv, Some (Int (-5)))
  ∧ ExportButton.getEffectiveRows 500 st = Int (Z.min (-5) 500).
Proof.
  intros st. split; [reflexivity|]. split; [reflexivity|]. split; [done|].
  apply (custom_limit_sent_unchecked 500 (-5) st); [reflexivity | reflexivity | done].
Defined.

Lemma decimal_digit_plain (a : ascii) :
  Spec.is_decimal a = true →
  is_white_space a = false
  ∧ (∀ rest, strip_sign (String a rest) = (false, String a rest))
  ∧ (∃ d, digit_value a = Some d ∧ 0 ≤ d < 10)
  ∧ a ≠ "x"%char ∧ a ≠ "X"%char.
Proof.
  destruct a as [[] [] [] [] [] [] [] []]; intros H; vm_compute in H;
    try discriminate H; clear H;
    (split; [reflexivity|]); (split; [reflexivity|]);
    (split; [eexists; split; [vm_compute; reflexivity | lia] | split; discriminate]).
Qed.

Lemma append_empty (s : string) : "" +:+ s = s.
Proof. reflexivity. Qed.

Lemma append_String (a : ascii) (s t : string) : String a s +:+ t = String a (s +:+ t).
Proof. reflexivity. Qed.

Lemma parse_digits_stops (digits rest : string) (c : ascii) (acc : option Z) :
  Spec.all_decimal digits = true →
  (∀ d, digit_value c = Some d → 10 ≤ d) →
  parse_digits 10 (digits +:+ String c rest) acc = parse_digits 10 digits acc.
Proof.
  intros Hdigits Hc. revert acc.
  induction digits as [|a digits IH]; intros acc;
    rewrite ?append_empty, ?append_String; cbn [parse_digits].
  - destruct (digit_value c) as [d|] eqn:Hd; [|done].
    specialize (Hc d eq_refl). by destruct (Z.ltb_spec d 10); [lia|].
  - cbn in Hdigits. apply andb_true_iff in Hdigits as [Ha Hdigits].
    destruct (decimal_digit_plain a Ha) as (_ & _ & (d & -> & Hd) & _).
    destruct (Z.ltb_spec d 10); [by apply IH | lia].
Qed.

Lemma radix_of_decimal (a : ascii) (digits rest : string) (c : ascii) :
  Spec.is_decimal a = true →
  Spec.all_decimal digits = true →
  c ≠ "x"%char → c ≠ "X"%char →
  strip_hex_prefix (String a (digits +:+ String c rest))
  = (10, String a (digits +:+ String c rest))
  ∧ strip_hex_prefix (String a digits) = (10, String a digits).
Proof.
  intros Ha Hdigits Hx HX.
  destruct digits as [|b digits];
    rewrite ?append_empty, ?append_String; cbn [Spec.all_decimal] in *.
  - destruct a as [[] [] [] [] [] [] [] []]; vm_compute in Ha; try discriminate Ha;
      try done.
    destruct c as [[] [] [] [] [] [] [] []]; done.
  - apply andb_true_iff in Hdigits as [Hb _].
    destruct a as [[] [] [] [] [] [] [] []]; vm_compute in Ha; try discriminate Ha;
      try done.
    destruct b as [[] [] [] [] [] [] [] []]; vm_compute in Hb; try discriminate Hb;
      done.
Qed.

(** X21. [parseInt] reads the digits at the front and ignores the rest:
    a custom limit typed with a fraction or an exponent is cut at the
    point or at the [e], so that [1e5] and [1.9] are both taken as 1. *)
Theorem custom_limit_cut_at_point_or_exponent (digits rest : string) (c : ascii) :
  digits ≠ "" →
  Spec.all_decimal digits = true →
  c = "."%char ∨ c = "e"%char ∨ c = "E"%char →
  parseInt (digits +:+ String c rest) = parseInt digits.
Proof.
  intros Hne Hdigits Hc.
  destruct digits as [|a digits]; [done|]. clear Hne.
  cbn in Hdigits. apply andb_true_iff in Hdigits as [Ha Hdigits].
  destruct (decimal_digit_plain a Ha) as (Hws & Hsign & _ & _).
  assert (c ≠ "x"%char ∧ c ≠ "X"%char
          ∧ ∀ d, digit_value c = Some d → 10 ≤ d) as (Hx & HX & Hd).
  { destruct Hc as [-> | [-> | ->]]; repeat split; try discriminate;
      intros d H; vm_compute in H; simplify_eq; lia. }
  destruct (radix_of_decimal a digits rest c Ha Hdigits Hx HX) as [Hlong Hshort].
  unfold parseInt. rewrite append_String.
  cbn [skip_white_space]. rewrite Hws, !Hsign, Hlong, Hshort.
  rewrite <- append_String.
  rewrite parse_digits_stops; [done | | done].
  cbn. by rewrite Ha.
Qed.

Lemma custom_limit_cut_at_point_or_exponent_witness :
  "1" ≠ ""
  ∧ Spec.all_decimal "1" = true
  ∧ ("e"%char = "."%char ∨ "e"%char = "e"%char ∨ "e"%char = "E"%char)
  ∧ parseInt "1e5" = Int 1
  ∧ parseInt ("1" +:+ String "e" "5") = parseInt "1".
Proof.
  split; [discriminate|]. split; [reflexivity|]. split; [by right; left|].
  split; [reflexivity|].
  apply (custom_limit_cut_at_point_or_exponent "1" "5" "e");
    [discriminate | reflexivity | by right; left].
Defined.

Lemma keep_all (values : list string) (value : string) :
  value ∉ values →
  List.filter (fun v => negb (String.eqb v value)) values = values.
Proof.
  induction values as [|w values IH]; cbn; [done|].
  rewrite not_elem_of_cons. intros [Hne Hout].
  destruct (String.eqb_spec w value); [by subst|]. cbn. by rewrite IH.
Qed.

Lemma toggle_own_value (selectedValues : list string) (value : string) :
  ColumnSlicer.includes (ColumnSlicer.handleValueToggle selectedValues value) value
  = negb (ColumnSlicer.includes selectedValues value).
Proof.
  unfold ColumnSlicer.handleValueToggle.
  destruct (ColumnSlicer.includes selectedValues value) eqn:Hsel; cbn.
  - apply includes_not_elem. rewrite elem_of_keep, String.eqb_refl. by intros [_ ?].
  - apply includes_elem, elem_of_app. right. by apply list_elem_of_singleton.
Qed.

Lemma toggle_twice (selectedValues : list string) (value : string) :
  ColumnSlicer.handleValueToggle
    (ColumnSlicer.handleValueToggle selectedValues value) value
  = if ColumnSlicer.includes selectedValues value
    then (List.filter (fun v => negb (String.eqb v value)) selectedValues ++ [value])%list
    else selectedValues.
Proof.
  pose proof (toggle_own_value selectedValues value) as Hflip.
  unfold ColumnSlicer.handleValueToggle at 1. rewrite Hflip.
  unfold ColumnSlicer.handleValueToggle.
  destruct (ColumnSlicer.includes selectedValues value) eqn:Hsel; cbn [negb]; [done|].
  apply includes_not_elem in Hsel.
  rewrite List.filter_app. cbn. rewrite String.eqb_refl. cbn.
  by rewrite keep_all, app_nil_r.
Qed.

(** X22. Ticking a value and unticking it again, or the reverse, gives
    back the same values: the selection itself when the value was not
    selected, and the selection with the value moved to the end when it
    was, which for a selection without repetition is a reordering. *)
Theorem toggle_twice_restores (selectedValues : list string) (value : string) :
  NoDup selectedValues →
  ColumnSlicer.handleValueToggle
    (ColumnSlicer.handleValueToggle selectedValues value) value
  ≡ₚ selectedValues
  ∧ ColumnSlicer.handleValueToggle
      (ColumnSlicer.handleValueToggle selectedValues value) value
    = if ColumnSlicer.includes selectedValues value
      then (List.filter (fun v => negb (String.eqb v value)) selectedValues
            ++ [value])%list
      else selectedValues.
Proof.
  intros Hnd. split; [|apply toggle_twice].
  rewrite toggle_twice.
  destruct (ColumnSlicer.includes selectedValues value) eqn:Hsel; [|done].
  apply includes_elem, list_elem_of_split in Hsel as (l1 & l2 & ->).
  apply NoDup_app in Hnd as (_ & Hl1 & Hl2).
  apply NoDup_cons in Hl2 as [Hl2 _].
  assert (value ∉ l1) as Hout1.
  { intros Hin. apply (Hl1 _ Hin). by left. }
  rewrite List.filter_app. cbn. rewrite String.eqb_refl. cbn.
  rewrite !keep_all by done.
  rewrite <- app_assoc. apply Permutation_app_head.
  symmetry. apply Permutation_cons_append.
Qed.

Lemma toggle_twice_restores_witness :
  NoDup ["east"; "west"]
  ∧ ColumnSlicer.handleValueToggle
      (ColumnSlicer.handleValueToggle ["east"; "west"] "east") "east"
    = ["west"; "east"]
  ∧ ColumnSlicer.handleValueToggle
      (ColumnSlicer.handleValueToggle ["east"; "west"] "east") "east"
    ≡ₚ ["east"; "west"].
Proof.
  assert (NoDup ["east"; "west"]) as Hnd.
  { apply (bool_decide_unpack _). reflexivity. }
  split; [exact Hnd|]. split; [reflexivity|].
  apply (toggle_twice_restores ["east"; "west"] "east" Hnd).
Defined.

(** X23. A reply that brings neither data nor an error with a message is
    dropped without a trace: for a body that parses to a falsy value, and
    for a failure whose message is the empty string, the table only
    lowers its loading flag; rows, page and row count stay, and no error
    is shown. *)
Theorem empty_reply_ignored (s : System.State) (t : DataTable.State) (k : nat)
  (c : DataTable.Call) (reply : Completion (Reply FilteredDataResponse))
  (reported : option string) :
  System.table s = Some t →
  System.pending s !! k = Some (System.PendingPage (System.mounts s) c) →
  getFilteredData (fun _ => reply)
    (DataTable.size c) (DataTable.offset_of c) (DataTable.currentFilters c)
  = Normal {| data := None; error := reported |} →
  truthy_string (default "" reported) = false →
  System.step s (System.FetchDone k reply)
  = System.set_table (Some (DataTable.setLoading false t))
      (System.set_pending (delete k (System.pending s)) s).
Proof.
  intros Ht Hk Hresult Hfalsy. cbn [System.step]. rewrite Hk, Hresult.
  unfold DataTable.loadPage_resume. cbn. rewrite Hfalsy. cbn.
  by rewrite Ht, Nat.eqb_refl.
Qed.

Lemma empty_reply_ignored_witness :
  let s := System.step Sample.loaded (System.PageSizeChange 50) in
  let t := {| DataTable.data := Sample.rows; DataTable.currentPage := 1;
              DataTable.pageSize := 50; DataTable.loading := true;
              DataTable.filters := ∅; DataTable.filteredRows := 5 |} in
  let c := {| DataTable.page := 1; DataTable.size := 50;
              DataTable.currentFilters := ∅ |} in
  let reply : Completion (Reply FilteredDataResponse) :=
    Normal (NotOk 500 "Internal Server Error" (Normal (JObj [("detail", JArr [])]))) in
  System.table s = Some t
  ∧ System.pending s !! 0%nat = Some (System.PendingPage (System.mounts s) c)
  ∧ getFilteredData (fun _ => reply)
      (DataTable.size c) (DataTable.offset_of c) (DataTable.currentFilters c)
    = Normal {| data := None; error := Some "" |}
  ∧ truthy_string (default "" (Some "")) = false
  ∧ System.step s (System.FetchDone 0 reply)
    = System.set_table (Some (DataTable.setLoading false t))
        (System.set_pending (delete 0%nat (System.pending s)) s)
  ∧ App.error (System.app (System.step s (System.FetchDone 0 reply))) = None.
Proof.
  intros s t c reply.
  split; [by vm_compute|]. split; [by vm_compute|].
  split; [by vm_compute|]. split; [reflexivity|].
  split; [|by vm_compute].
  apply (empty_reply_ignored s t 0 c reply (Some "")); by vm_compute.
Defined.

End Edges.

(** ** What the server is sent *)

Section RequestsSent.
Import JS Api System.

Lemma tidy_empty : Spec.tidy ∅.
Proof. intros c values H. by rewrite lookup_empty in H. Qed.

Lemma tidy_change (filters : ColumnFilters) column selected :
  NoDup selected →
  Spec.tidy filters →
  Spec.tidy (SlicerPanel.handleColumnFilterChange filters column selected).
Proof.
  intros Hnd Htidy. unfold SlicerPanel.handleColumnFilterChange.
  destruct selected as [|v rest]; cbn; intros c values H.
  - apply lookup_delete_Some in H as [_ H]. by eapply Htidy.
  - apply lookup_insert_Some in H as [[_ <-] | [_ H]]; [done | by eapply Htidy].
Qed.

Lemma tidy_selectedValues (filters : ColumnFilters) column :
  Spec.tidy filters → NoDup (SlicerPanel.selectedValues filters column).
Proof.
  intros Htidy. unfold SlicerPanel.selectedValues.
  destruct (filters !! column) as [values|] eqn:Hc; cbn; [|constructor].
  by eapply Htidy.
Qed.

Lemma tidy_dispatch (filters : ColumnFilters) (a : SlicerPanel.Action) :
  Spec.tidy filters → Spec.tidy (SlicerPanel.dispatch filters a).
Proof.
  intros Htidy.
  destruct a; cbn [SlicerPanel.dispatch]; try apply tidy_change; try done.
  - by apply toggle_NoDup, tidy_selectedValues.
  - apply unique_spec.
  - by apply keep_NoDup, tidy_selectedValues.
  - constructor.
  - constructor.
Qed.

(** A [filters] parameter is the filter object of the call, and is there
    only when that object has a key. *)
Lemma filters_parameter_of_page (c : DataTable.Call) (filters : ColumnFilters) :
  get "filters" (query (DataTable.request_of c)) = Some (PFilters filters) →
  filters = DataTable.currentFilters c ∧ filters ≠ ∅.
Proof.
  unfold DataTable.request_of, filtered_request; cbn [query].
  rewrite filtered_params_filters.
  destruct (bool_decide _) eqn:He; [done|].
  apply bool_decide_eq_false in He. by intros [= <-].
Qed.

Lemma filters_parameter_of_export (t : DataTable.State) format limit
  (filters : ColumnFilters) :
  get "filters" (query (DataTable.handleExport t format limit)) = Some (PFilters filters) →
  filters = DataTable.filters t ∧ filters ≠ ∅.
Proof.
  unfold DataTable.handleExport, export_request; cbn [query].
  rewrite export_params_filters.
  destruct (bool_decide _) eqn:He; [done|].
  apply bool_decide_eq_false in He. by intros [= <-].
Qed.

(** A step that leaves the requests as they are and gives the table no
    other filter object than the one it had, or the empty one, keeps the
    state tidy. *)
Lemma tidy_state_kept (s s' : State) :
  (∀ t', table s' = Some t' →
         DataTable.filters t' = ∅
         ∨ ∃ t, table s = Some t ∧ DataTable.filters t' = DataTable.filters t) →
  network s' = network s →
  Spec.tidy_state s → Spec.tidy_state s'.
Proof.
  intros Htable Hnetwork [Ht Hr]. split.
  - intros t' Ht'. destruct (Htable t' Ht') as [-> | (t & Hs & ->)];
      [apply tidy_empty | by apply Ht].
  - intros r filters. rewrite Hnetwork. apply Hr.
Qed.

Lemma tidy_state_render (s : State) : Spec.tidy_state s → Spec.tidy_state (render s).
Proof.
  apply tidy_state_kept; [|apply network_render].
  unfold render. intros t'.
  destruct (App.shows_table (app s)); [|done].
  destruct (table s) as [t|] eqn:Ht, (App.data (app s)) as [d|]; cbn;
    rewrite ?Ht; try done; intros [= <-]; eauto.
Qed.

Lemma tidy_state_set_app a (s : State) :
  Spec.tidy_state s → Spec.tidy_state (set_app a s).
Proof. apply tidy_state_kept; [|done]. intros t' Ht'. right. by exists t'. Qed.

Lemma tidy_state_handleError message (s : State) :
  Spec.tidy_state s → Spec.tidy_state (handleError message s).
Proof. intros Hs. by apply tidy_state_render, tidy_state_set_app. Qed.

Lemma useEffect_filters props (t : DataTable.State) :
  DataTable.filters (DataTable.useEffect props t) = DataTable.filters t.
Proof.
  unfold DataTable.useEffect. by destruct (_ =? _)%nat.
Qed.

Lemma tidy_state_callback (s : State) c :
  Spec.tidy_state s → Spec.tidy_state (callback s c).
Proof.
  intros Hs. destruct c as [d | message | v]; cbn [callback].
  - pose proof (tidy_state_render _ (tidy_state_set_app (App.handleDataLoaded d (app s)) s Hs))
      as Hs'.
    destruct (table s); [|done].
    destruct (table (render _)) as [t'|] eqn:Ht'; [|done].
    revert Hs'. apply tidy_state_kept; [|done].
    cbn. intros ? [= <-]. right. exists t'. by rewrite useEffect_filters.
  - by apply tidy_state_handleError.
  - by apply tidy_state_render, tidy_state_set_app.
Qed.

Lemma tidy_state_callbacks cs (s : State) :
  Spec.tidy_state s → Spec.tidy_state (callbacks s cs).
Proof.
  unfold callbacks. revert s.
  induction cs as [|c cs IH]; intros s Hs; cbn; [done|].
  by apply IH, tidy_state_callback.
Qed.

(** Sending a request keeps the state tidy when the request has no
    [filters] parameter, or a tidy one with a key. *)
Lemma tidy_state_send p r (s : State) :
  (∀ filters, get "filters" (query r) = Some (PFilters filters) →
              filters ≠ ∅ ∧ Spec.tidy filters) →
  Spec.tidy_state s → Spec.tidy_state (send p r s).
Proof.
  intros Hr [Ht Hn]. split; [done|].
  intros r' filters. cbn. rewrite elem_of_app, list_elem_of_singleton.
  intros [Hin | ->]; [by apply Hn | apply Hr].
Qed.

Lemma tidy_state_table_handler (s : State) h :
  (∀ t t' call, h t = (t', call) →
     Spec.tidy (DataTable.filters t) →
     Spec.tidy (DataTable.filters t')
     ∧ ∀ c, call = Some c → Spec.tidy (DataTable.currentFilters c)) →
  Spec.tidy_state s → Spec.tidy_state (table_handler s h).
Proof.
  intros Hh Hs. unfold table_handler.
  destruct (table s) as [t|] eqn:Ht; [|done].
  destruct (h t) as [t' call] eqn:Hcall.
  destruct (Hh t t' call Hcall) as [Ht' Hc]; [by apply Hs|].
  assert (Spec.tidy_state (set_table (Some t') s)) as Hs'.
  { destruct Hs as [_ Hn]. split; [|done]. by intros ? [= <-]. }
  destruct call as [c|]; [|done].
  apply tidy_state_send; [|done].
  intros filters [-> Hne]%filters_parameter_of_page. split; [done | by apply Hc].
Qed.

Lemma tidy_state_load (s : State) path :
  Spec.tidy_state s → Spec.tidy_state (load s path).
Proof.
  intros Hs. unfold load.
  destruct (FileUpload.handleLoadFile _ _) as [cs [target|]];
    [|by apply tidy_state_callbacks].
  apply tidy_state_send; [done | by apply tidy_state_callbacks].
Qed.

Lemma loadPage_resume_filters c result (t : DataTable.State) :
  DataTable.filters ((DataTable.loadPage_resume c result).1 t) = DataTable.filters t.
Proof.
  unfold DataTable.loadPage_resume.
  destruct result as [[payload reported] | e]; cbn; [|done].
  destruct (truthy_string _); [done|]. by destruct payload.
Qed.

Lemma tidy_state_step (s : State) (e : Event) :
  Spec.tidy_state s → Spec.tidy_state (step s e).
Proof.
  intros Hs. destruct e; cbn [step].
  - apply tidy_state_table_handler; [|done].
    intros t t' call. unfold DataTable.handlePageChange, DataTable.loadPage.
    destruct (_ && _); intros [= <- <-] Ht; (split; [done|]); [|done].
    by intros c [= <-].
  - apply tidy_state_table_handler; [|done].
    intros t t' call. unfold DataTable.handlePageSizeChange, DataTable.loadPage.
    intros [= <- <-] Ht. split; [done|]. by intros c [= <-].
  - destruct (table s), (App.data (app s)) as [d|]; try done.
    destruct (SlicerPanel.rendered _ _ _); [|done].
    apply tidy_state_table_handler; [|done].
    intros t t' call. unfold DataTable.handleFiltersChange, DataTable.loadPage.
    intros [= <- <-] Ht. rewrite useEffect_filters. cbn.
    split; [by apply tidy_dispatch|]. intros c [= <-]. by apply tidy_dispatch.
  - destruct (table s) as [t|] eqn:Ht; [|done].
    apply tidy_state_send; [|done].
    intros filters [-> Hne]%filters_parameter_of_export. split; [done|].
    by apply Hs.
  - revert Hs. apply tidy_state_kept; [|done]. intros t' Ht'. right. by exists t'.
  - apply tidy_state_load. revert Hs.
    apply tidy_state_kept; [|done]. intros t' Ht'. right. by exists t'.
  - by apply tidy_state_load.
  - destruct (App.shows_error _); [|done].
    by apply tidy_state_render, tidy_state_set_app.
  - destruct (pending s !! k) as [[inst c| | |]|]; try done.
    destruct (DataTable.loadPage_resume c _) as [update failure] eqn:Hresume.
    assert (Spec.tidy_state
              match table (set_pending (delete k (pending s)) s) with
              | Some t =>
                  if (inst =? mounts (set_pending (delete k (pending s)) s))%nat
                  then set_table (Some (update t)) (set_pending (delete k (pending s)) s)
                  else set_pending (delete k (pending s)) s
              | None => set_pending (delete k (pending s)) s
              end) as Hs2.
    { revert Hs. apply tidy_state_kept.
      - cbn. destruct (table s) as [t|] eqn:Ht; [destruct (_ =? _)%nat|]; cbn;
          rewrite ?Ht; try done; intros t' [= <-]; right; exists t; split; try done.
        pose proof (loadPage_resume_filters c
                      (getFilteredData (fun _ => reply) (DataTable.size c)
                         (DataTable.offset_of c) (DataTable.currentFilters c)) t) as Hf.
        by rewrite Hresume in Hf.
      - cbn. by destruct (table s); [destruct (_ =? _)%nat|]. }
    destruct failure; [by apply tidy_state_handleError | done].
  - destruct (pending s !! k) as [[|format limit filters| |]|]; try done.
    assert (Spec.tidy_state (set_pending (delete k (pending s)) s)) as Hs1.
    { revert Hs. apply tidy_state_kept; [|done]. intros t' Ht'. right. by exists t'. }
    destruct (DataTable.handleExport_resume _); [by apply tidy_state_handleError | done].
  - destruct (pending s !! k) as [[| |target|]|]; try done.
    assert (Spec.tidy_state (set_pending (delete k (pending s)) s)) as Hs1.
    { revert Hs. apply tidy_state_kept; [|done]. intros t' Ht'. right. by exists t'. }
    destruct (FileUpload.after_loadParquet _) as [cs []];
      [apply tidy_state_send; [done|] |]; by apply tidy_state_callbacks.
  - destruct (pending s !! k) as [[| | |]|]; try done.
    apply tidy_state_callbacks.
    revert Hs. apply tidy_state_kept; [|done]. intros t' Ht'. right. by exists t'.
Qed.

(** X24. Whatever the user does and whatever the replies are, in any
    order: the filter object of the table never holds an empty array or
    a value twice, and every [filters] parameter that was ever sent, with
    a page request or with an export, is a filter object with at least
    one column, each with at least one value and no value twice. *)
Theorem requests_carry_tidy_filters (events : list Event) :
  Spec.tidy_table (run initial events) ∧ Spec.tidy_requests (run initial events).
Proof.
  change (Spec.tidy_state (run initial events)). unfold run.
  assert (Spec.tidy_state initial) as Hinit.
  { split; [done|]. intros r filters Hin. by apply elem_of_nil in Hin. }
  revert Hinit. generalize initial.
  induction events as [|e events IH]; intros s Hs; cbn; [done|].
  by apply IH, tidy_state_step.
Qed.

End RequestsSent.

(** ** A column slicer and the rest of the page *)

Section SlicerAndPage.
Import JS Api.

(** X25. When the values of one column cannot be loaded, the slicer
    passes a message that names the column to [App.handleError], which
    drops the loaded data: the failure of a single slicer takes the whole
    table away and leaves the error. *)
Theorem failed_values_clear_view (s : System.State) (columnName : string)
  (reply : Completion (Reply ColumnValuesResponse)) (message : string) :
  (ColumnSlicer.loadColumnValues_resume columnName
     (getColumnValues (fun _ => reply) columnName)).2 = Some message →
  let s' := System.handleError message s in
  System.table s' = None
  ∧ App.data (System.app s') = None
  ∧ App.error (System.app s') = Some message
  ∧ App.shows_error (System.app s') = true
  ∧ ∃ detail, message = "Failed to load values for " +:+ columnName +:+ ": " +:+ detail.
Proof.
  intros Hfailed. cbn zeta.
  assert (∃ detail,
            message = "Failed to load values for " +:+ columnName +:+ ": " +:+ detail)
    as [detail ->].
  { unfold ColumnSlicer.loadColumnValues_resume in Hfailed.
    destruct (_ ≫= _) as [update | e]; cbn in Hfailed; [done|].
    injection Hfailed as <-. by eexists. }
  unfold System.handleError, System.render, App.shows_error. cbn.
  repeat split. by eexists.
Qed.

Lemma failed_values_clear_view_witness :
  let reply : Completion (Reply ColumnValuesResponse) :=
    Normal (NotOk 404 "Not Found" (Normal (JObj [("detail", JStr "No such column")]))) in
  let message := "Failed to load values for region: No such column" in
  (DataTable.data <$> System.table Sample.loaded) = Some Sample.rows
  ∧ (ColumnSlicer.loadColumnValues_resume "region"
       (getColumnValues (fun _ => reply) "region")).2 = Some message
  ∧ System.table (System.handleError message Sample.loaded) = None
  ∧ App.data (System.app (System.handleError message Sample.loaded)) = None
  ∧ App.error (System.app (System.handleError message Sample.loaded)) = Some message
  ∧ App.shows_error (System.app (System.handleError message Sample.loaded)) = true
  ∧ ∃ detail, message = "Failed to load values for " +:+ "region" +:+ ": " +:+ detail.
Proof.
  intros reply message.
  split; [by vm_compute|]. split; [by vm_compute|].
  apply (failed_values_clear_view Sample.loaded "region" reply message).
  by vm_compute.
Defined.

Lemma active_filter_nonempty (filters : ColumnFilters) :
  SlicerPanel.hasActiveFilters filters = negb (bool_decide (filters = ∅)).
Proof. apply has_keys. Qed.

(** X26. When every available value of a column is selected, the slicer
    reads [All] and shows no filter indicator, as it does when nothing is
    selected; yet the column is a key of the filter object: the panel
    counts it as an active filter and the page request carries it. *)
Theorem all_selected_reads_all (filters : ColumnFilters) (columnName : string)
  (selected availableValues : list string) (limit offset : Z) :
  filters !! columnName = Some selected →
  List.length selected = List.length availableValues →
  ColumnSlicer.getDisplayText (SlicerPanel.selectedValues filters columnName)
    availableValues = "All"
  ∧ ColumnSlicer.hasActiveFilter (SlicerPanel.selectedValues filters columnName)
      availableValues = false
  ∧ ColumnSlicer.getDisplayText [] availableValues = "All"
  ∧ SlicerPanel.hasActiveFilters filters = true
  ∧ (1 ≤ SlicerPanel.activeFilterCount filters)%nat
  ∧ get "filters" (filtered_params limit offset filters) = Some (PFilters filters).
Proof.
  intros Hc Hall.
  assert (filters ≠ ∅) as Hne.
  { intros ->. by rewrite lookup_empty in Hc. }
  unfold SlicerPanel.selectedValues. rewrite Hc. cbn [default from_option id].
  split; [|split; [|split; [done|split; [|split]]]].
  - unfold ColumnSlicer.getDisplayText. rewrite Hall, Nat.eqb_refl.
    by destruct (_ =? 0)%nat.
  - unfold ColumnSlicer.hasActiveFilter. rewrite Hall, Nat.ltb_irrefl.
    apply andb_false_r.
  - rewrite (active_filter_nonempty filters). by rewrite bool_decide_eq_false_2.
  - rewrite activeFilterCount_size.
    destruct (size filters) eqn:Hsize; [|lia].
    by apply map_size_empty_iff in Hsize.
  - rewrite filtered_params_filters. by rewrite bool_decide_eq_false_2.
Qed.

Lemma all_selected_reads_all_witness :
  let filters : ColumnFilters := {[ "region" := ["east"; "west"; "north"] ]} in
  let availableValues := ["east"; "north"; "west"] in
  filters !! "region" = Some ["east"; "west"; "north"]
  ∧ List.length ["east"; "west"; "north"] = List.length availableValues
  ∧ ColumnSlicer.getDisplayText (SlicerPanel.selectedValues filters "region")
      availableValues = "All"
  ∧ ColumnSlicer.hasActiveFilter (SlicerPanel.selectedValues filters "region")
      availableValues = false
  ∧ ColumnSlicer.getDisplayText [] availableValues = "All"
  ∧ SlicerPanel.hasActiveFilters filters = true
  ∧ (1 ≤ SlicerPanel.activeFilterCount filters)%nat
  ∧ get "filters" (filtered_params 100 0 filters) = Some (PFilters filters).
Proof.
  intros filters availableValues.
  split; [by vm_compute|]. split; [reflexivity|].
  apply (all_selected_reads_all filters "region" ["east"; "west"; "north"]
           availableValues 100 0); [by vm_compute | reflexivity].
Defined.

End SlicerAndPage.

(** ** A filter change among other calls *)

Section FilterChange.
Import JS Api System.

(** What a slicer action does to the application: the table takes the
    new filter object, page 1 and the loading flag, and the call for
    page 1 under the new filters goes out. *)
Lemma slice_step (s : State) (t : DataTable.State) (d : DataResponse)
  (a : SlicerPanel.Action) :
  table s = Some t →
  App.data (app s) = Some d →
  SlicerPanel.rendered (dr_columns d) (DataTable.filters t) a = true →
  let newFilters := SlicerPanel.dispatch (DataTable.filters t) a in
  let c := {| DataTable.page := 1; DataTable.size := DataTable.pageSize t;
              DataTable.currentFilters := newFilters |} in
  step s (Slice a)
  = send (PendingPage (mounts s) c) (DataTable.request_of c)
      (set_table
         (Some (DataTable.useEffect (App.table_props d)
                  (DataTable.setLoading true
                     (DataTable.setCurrentPage 1 (DataTable.setFilters newFilters t)))))
         s).
Proof.
  intros Ht Hd Hr. cbn [step]. rewrite Ht, Hd, Hr.
  unfold table_handler. by rewrite Ht.
Qed.

(** C3, as the code has it. A filter change sets the current page to 1
    and sends the request for the new filters with [offset = 0]; the
    loading flag hides the rows meanwhile, and when the reply of this
    call is applied the table shows page 1 and the rows of the reply
    under the new filters.  A call that was already awaiting its reply,
    a page change for one, is not given up: its reply is applied as well
    when it comes, before or after the reply of the filter change, and
    the table then shows the page number and the rows of that call under
    the new filters.  The page shown is that of the new filters again
    only if the reply of the filter change comes last. *)
Theorem filter_change_resets_window (s : State) (t : DataTable.State)
  (d : DataResponse) (a : SlicerPanel.Action) (payload : FilteredDataResponse) :
  table s = Some t →
  App.data (app s) = Some d →
  SlicerPanel.rendered (dr_columns d) (DataTable.filters t) a = true →
  let newFilters := SlicerPanel.dispatch (DataTable.filters t) a in
  let c := {| DataTable.page := 1; DataTable.size := DataTable.pageSize t;
              DataTable.currentFilters := newFilters |} in
  let k := List.length (pending s) in
  let s1 := step s (Slice a) in
  DataTable.offset_of c = 0
  ∧ network s1
    = (network s ++ [filtered_request (DataTable.pageSize t) 0 newFilters])%list
  ∧ get "offset" (query (filtered_request (DataTable.pageSize t) 0 newFilters))
    = Some (PNumber (Int 0))
  ∧ get "filters" (query (filtered_request (DataTable.pageSize t) 0 newFilters))
    = (if bool_decide (newFilters = ∅) then None else Some (PFilters newFilters))
  ∧ pending s1 = (pending s ++ [PendingPage (mounts s) c])%list
  ∧ (∃ t1, table s1 = Some t1
           ∧ DataTable.currentPage t1 = 1
           ∧ DataTable.filters t1 = newFilters
           ∧ DataTable.loading t1 = true)
  ∧ Spec.view (step s1 (FetchDone k (ok_with payload)))
    = Some (newFilters, true, (fd_data payload, 1, fd_filtered_rows payload))
  ∧ ∀ (i : nat) (earlier : DataTable.Call) (stale : FilteredDataResponse),
      pending s !! i = Some (PendingPage (mounts s) earlier) →
      Spec.view (step s1 (FetchDone i (ok_with stale)))
      = Some (newFilters, true,
              (fd_data stale, DataTable.page earlier, fd_filtered_rows stale))
      ∧ Spec.view (run s1 [FetchDone k (ok_with payload); FetchDone i (ok_with stale)])
        = Some (newFilters, true,
                (fd_data stale, DataTable.page earlier, fd_filtered_rows stale))
      ∧ Spec.view (run s1 [FetchDone i (ok_with stale);
                           FetchDone (k - 1) (ok_with payload)])
        = Some (newFilters, true, (fd_data payload, 1, fd_filtered_rows payload)).
Proof.
  intros Ht Hd Hr newFilters c k s1.
  pose proof (slice_step s t d a Ht Hd Hr) as Hs1.
  fold newFilters c s1 in Hs1.
  set (t1 := DataTable.useEffect (App.table_props d)
               (DataTable.setLoading true
                  (DataTable.setCurrentPage 1 (DataTable.setFilters newFilters t))))
    in Hs1.
  assert (DataTable.currentPage t1 = 1 ∧ DataTable.filters t1 = newFilters
          ∧ DataTable.loading t1 = true) as (Hpage & Hfilters & Hloading).
  { unfold t1, DataTable.useEffect. by destruct (_ =? _)%nat. }
  assert (table s1 = Some t1) as Ht1 by by rewrite Hs1.
  assert (mounts s1 = mounts s) as Hmounts by by rewrite Hs1.
  assert (pending s1 = (pending s ++ [PendingPage (mounts s) c])%list) as Hpending
    by by rewrite Hs1.
  assert (pending s1 !! k = Some (PendingPage (mounts s1) c)) as Hk.
  { rewrite Hpending, Hmounts. by apply list_lookup_middle. }
  split; [done|].
  split; [by rewrite Hs1|].
  split; [apply filtered_request_window|].
  split; [apply filtered_params_filters|].
  split; [done|].
  split; [by exists t1|].
  split.
  { rewrite (fetch_done_applied s1 k t1 c payload Ht1 Hk).
    unfold Spec.view. cbn. by rewrite Hfilters. }
  intros i earlier stale Hi.
  assert (i < k)%nat as Hik by by apply lookup_lt_Some in Hi.
  assert (pending s1 !! i = Some (PendingPage (mounts s1) earlier)) as Hi1.
  { rewrite Hpending, Hmounts. by apply lookup_app_l_Some. }
  split; [|split].
  - rewrite (fetch_done_applied s1 i t1 earlier stale Ht1 Hi1).
    unfold Spec.view. cbn. by rewrite Hfilters.
  - unfold run. cbn [foldl].
    rewrite (fetch_done_applied s1 k t1 c payload Ht1 Hk).
    erewrite (fetch_done_applied _ i _ earlier stale); [| done |].
    + unfold Spec.view. cbn. by rewrite Hfilters.
    + cbn. by rewrite list_lookup_delete_lt.
  - unfold run. cbn [foldl].
    rewrite (fetch_done_applied s1 i t1 earlier stale Ht1 Hi1).
    erewrite (fetch_done_applied _ (k - 1) _ c payload); [| done |].
    + unfold Spec.view. cbn. by rewrite Hfilters.
    + cbn. rewrite list_lookup_delete_ge by lia.
      by replace (S (k - 1)) with k by lia.
Qed.

(** The table shows the file of 250 rows, a hundred to a page, and a call
    for page 3 awaits its reply when the filter is set to east. *)
Lemma filter_change_resets_window_witness :
  let s := step Sample.many_loaded (PageChange 3) in
  let t := {| DataTable.data := Sample.many_rows; DataTable.currentPage := 1;
              DataTable.pageSize := 100; DataTable.loading := true;
              DataTable.filters := ∅; DataTable.filteredRows := 250 |} in
  let a := SlicerPanel.ValueToggle "region" "east" in
  let third := {| DataTable.page := 3; DataTable.size := 100;
                  DataTable.currentFilters := ∅ |} in
  let newFilters := SlicerPanel.dispatch (DataTable.filters t) a in
  let k := List.length (pending s) in
  let s1 := step s (Slice a) in
  table s = Some t
  ∧ App.data (app s) = Some Sample.many
  ∧ SlicerPanel.rendered (dr_columns Sample.many) (DataTable.filters t) a = true
  ∧ pending s !! 0%nat = Some (PendingPage (mounts s) third)
  ∧ newFilters = {[ "region" := ["east"] ]}
  ∧ Spec.view (step s1 (FetchDone k (ok_with Sample.east_page)))
    = Some (newFilters, true,
            (fd_data Sample.east_page, 1, fd_filtered_rows Sample.east_page))
  ∧ Spec.view (run s1 [FetchDone k (ok_with Sample.east_page);
                       FetchDone 0 (ok_with Sample.third_page)])
    = Some (newFilters, true,
            (fd_data Sample.third_page, DataTable.page third,
             fd_filtered_rows Sample.third_page)).
Proof.
  intros s t a third newFilters k s1.
  assert (table s = Some t) as Ht by by vm_compute.
  assert (App.data (app s) = Some Sample.many) as Hd by by vm_compute.
  assert (SlicerPanel.rendered (dr_columns Sample.many) (DataTable.filters t) a = true)
    as Hr by by vm_compute.
  assert (pending s !! 0%nat = Some (PendingPage (mounts s) third)) as Hthird
    by by vm_compute.
  split; [exact Ht|]. split; [exact Hd|]. split; [exact Hr|]. split; [exact Hthird|].
  split; [by vm_compute|].
  destruct (filter_change_resets_window s t Sample.many a Sample.east_page Ht Hd Hr)
    as (_ & _ & _ & _ & _ & _ & Hreply & Hearlier).
  split; [exact Hreply|].
  destruct (Hearlier 0%nat third Sample.third_page Hthird) as (_ & Hlate & _).
  exact Hlate.
Defined.

(** C3, as the specification states it, fails. The table shows the file of 250 rows,
    a hundred to a page; the user asks for page 3 and, before the reply
    has come, ticks east in the slicer of region.  The filter change
    resets the page to 1 and its request has offset 0, and its reply
    shows the first hundred rows of east as page 1.  The reply to the
    request for page 3 of the unfiltered rows then arrives and is
    applied: the table, its filter still east, is on page 3 and shows
    rows 201 to 250, all of region north, which the filter excludes.
    When that reply arrives first the same is shown, until the reply of
    the filter change comes. *)
Lemma late_page_under_new_filter :
  let s := run Sample.many_loaded
             [PageChange 3; Slice (SlicerPanel.ValueToggle "region" "east")] in
  let fresh := step s (FetchDone 1 (ok_with Sample.east_page)) in
  let late := step fresh (FetchDone 0 (ok_with Sample.third_page)) in
  let early := step s (FetchDone 0 (ok_with Sample.third_page)) in
  drop 2 (network s)
  = [filtered_request 100 200 ∅; filtered_request 100 0 {[ "region" := ["east"] ]}]
  ∧ Spec.view s
    = Some ({[ "region" := ["east"] ]}, false, (Sample.many_rows, 1, 250))
  ∧ Spec.view fresh
    = Some ({[ "region" := ["east"] ]}, true, (take 100 Sample.many_rows, 1, 120))
  ∧ Spec.view late
    = Some ({[ "region" := ["east"] ]}, true, (drop 200 Sample.many_rows, 3, 250))
  ∧ (DataTable.showing <$> table late) = Some (201, 250)
  ∧ Spec.view early
    = Some ({[ "region" := ["east"] ]}, true, (drop 200 Sample.many_rows, 3, 250))
  ∧ forallb (Spec.spec_satisfies {[ "region" := ["east"] ]}) (take 100 Sample.many_rows)
    = true
  ∧ existsb (Spec.spec_satisfies {[ "region" := ["east"] ]}) (drop 200 Sample.many_rows)
    = false.
Proof.
  cbn zeta. repeat split; by vm_compute.
Qed.

End FilterChange.

(** ** The keys of the filter object in the running application *)

Section FilterKeys.
Import JS Api System.

Lemma filters_kept_refl (s : State) : Spec.filters_kept s s.
Proof. intros t Ht. right. by exists t. Qed.

Lemma filters_kept_trans (s1 s2 s3 : State) :
  Spec.filters_kept s1 s2 → Spec.filters_kept s2 s3 → Spec.filters_kept s1 s3.
Proof.
  intros H12 H23 t3 Ht3.
  destruct (H23 t3 Ht3) as [Hempty | (t2 & Ht2 & Heq)]; [by left|].
  rewrite Heq. by apply H12.
Qed.

Lemma filters_kept_table (s s' : State) : table s' = table s → Spec.filters_kept s s'.
Proof. intros Heq t' Ht'. right. exists t'. by rewrite <- Heq. Qed.

Lemma filters_kept_render (s : State) : Spec.filters_kept s (render s).
Proof.
  unfold render. intros t'.
  destruct (App.shows_table (app s)); [|done].
  destruct (table s) as [t|] eqn:Ht, (App.data (app s)) as [d|]; cbn;
    rewrite ?Ht; try done; intros [= <-]; eauto.
Qed.

Lemma filters_kept_set_app (v : App.State) (s : State) :
  Spec.filters_kept s (render (set_app v s)).
Proof.
  apply (filters_kept_trans _ (set_app v s)); [by apply filters_kept_table|].
  apply filters_kept_render.
Qed.

Lemma filters_kept_callback (s : State) (c : FileUpload.Callback) :
  Spec.filters_kept s (callback s c).
Proof.
  destruct c as [d | message | v]; cbn [callback]; try apply filters_kept_set_app.
  pose proof (filters_kept_set_app (App.handleDataLoaded d (app s)) s) as Hkept.
  destruct (table s) as [t|] eqn:Ht; [|done].
  destruct (table (render _)) as [t'|] eqn:Ht'; [|done].
  intros t'' [= <-]. rewrite useEffect_filters. by apply Hkept.
Qed.

Lemma filters_kept_callbacks (cs : list FileUpload.Callback) (s : State) :
  Spec.filters_kept s (callbacks s cs).
Proof.
  unfold callbacks. revert s.
  induction cs as [|c cs IH]; intros s; cbn; [apply filters_kept_refl|].
  eapply filters_kept_trans; [apply filters_kept_callback | apply IH].
Qed.

Lemma filters_kept_load (s : State) (path : option string) :
  Spec.filters_kept s (load s path).
Proof.
  unfold load.
  destruct (FileUpload.handleLoadFile _ _) as [cs [target|]];
    [|apply filters_kept_callbacks].
  eapply filters_kept_trans; [apply filters_kept_callbacks | by apply filters_kept_table].
Qed.

Lemma filters_kept_table_handler (s : State)
  (h : DataTable.State → DataTable.State * option DataTable.Call) :
  (∀ t, DataTable.filters (h t).1 = DataTable.filters t) →
  Spec.filters_kept s (table_handler s h).
Proof.
  intros Hh. unfold table_handler.
  destruct (table s) as [t|] eqn:Ht; [|apply filters_kept_refl].
  specialize (Hh t). destruct (h t) as [t' call]. cbn in Hh.
  intros t''. rewrite Ht.
  destruct call as [c|]; cbn; intros [= <-]; right; by exists t.
Qed.

(** The filter object changes by the slicer panel only: every other
    event leaves the table the filter object it had, or mounts a table
    with the empty one. *)
Lemma filters_kept_step (s : State) (e : Event) :
  (∀ a, e ≠ Slice a) → Spec.filters_kept s (step s e).
Proof.
  intros Hslice. destruct e; cbn [step].
  - apply filters_kept_table_handler. intros t.
    unfold DataTable.handlePageChange. by destruct (_ && _).
  - by apply filters_kept_table_handler.
  - by destruct (Hslice a).
  - destruct (table s); [by apply filters_kept_table | apply filters_kept_refl].
  - by apply filters_kept_table.
  - eapply filters_kept_trans; [|apply filters_kept_load]. by apply filters_kept_table.
  - apply filters_kept_load.
  - destruct (App.shows_error _); [apply filters_kept_set_app | apply filters_kept_refl].
  - destruct (pending s !! k) as [[inst c| | |]|]; try apply filters_kept_refl.
    destruct (DataTable.loadPage_resume c _) as [update failure] eqn:Hresume.
    assert (Spec.filters_kept s
              match table (set_pending (delete k (pending s)) s) with
              | Some t =>
                  if (inst =? mounts (set_pending (delete k (pending s)) s))%nat
                  then set_table (Some (update t)) (set_pending (delete k (pending s)) s)
                  else set_pending (delete k (pending s)) s
              | None => set_pending (delete k (pending s)) s
              end) as Hs2.
    { cbn. destruct (table s) as [t|] eqn:Ht; [destruct (_ =? _)%nat|]; cbn;
        try by apply filters_kept_table.
      intros t' [= <-]. right. exists t. split; [done|].
      pose proof (loadPage_resume_filters c
                    (getFilteredData (fun _ => reply) (DataTable.size c)
                       (DataTable.offset_of c) (DataTable.currentFilters c)) t) as Hf.
      by rewrite Hresume in Hf. }
    destruct failure; [|done].
    eapply filters_kept_trans; [exact Hs2 | apply filters_kept_set_app].
  - destruct (pending s !! k) as [[|format limit filters| |]|]; try apply filters_kept_refl.
    destruct (DataTable.handleExport_resume _).
    + eapply filters_kept_trans; [|apply filters_kept_set_app]. by apply filters_kept_table.
    + by apply filters_kept_table.
  - destruct (pending s !! k) as [[| |target|]|]; try apply filters_kept_refl.
    destruct (FileUpload.after_loadParquet _) as [cs continue].
    assert (Spec.filters_kept s (callbacks (set_pending (delete k (pending s)) s) cs))
      as Hcs.
    { eapply filters_kept_trans; [|apply filters_kept_callbacks].
      by apply filters_kept_table. }
    destruct continue; [|done].
    eapply filters_kept_trans; [exact Hcs | by apply filters_kept_table].
  - destruct (pending s !! k) as [[| | |]|]; try apply filters_kept_refl.
    eapply filters_kept_trans; [|apply filters_kept_callbacks].
    by apply filters_kept_table.
Qed.

(** A key of the filter object a column change yields is the column
    changed, with the selection passed, which is not empty, or a key the
    object had. *)
Lemma change_keys (filters : ColumnFilters) (c : string) (selected : list string)
  (column : string) (values : list string) :
  SlicerPanel.handleColumnFilterChange filters c selected !! column = Some values →
  (column = c ∧ values = selected ∧ values ≠ []) ∨ filters !! column = Some values.
Proof.
  unfold SlicerPanel.handleColumnFilterChange.
  destruct selected as [|v rest]; cbn.
  - intros [_ H]%lookup_delete_Some. by right.
  - intros [[<- <-] | [_ H]]%lookup_insert_Some; [by left | by right].
Qed.

Lemma dispatch_keys (columns : list string) (filters : ColumnFilters)
  (a : SlicerPanel.Action) (column : string) (values : list string) :
  SlicerPanel.rendered columns filters a = true →
  SlicerPanel.dispatch filters a !! column = Some values →
  (column ∈ columns ∧ values ≠ []) ∨ filters !! column = Some values.
Proof.
  intros Hr.
  destruct a; cbn in Hr; cbn [SlicerPanel.dispatch];
    try (apply bool_decide_eq_true in Hr;
         intros [(-> & _ & Hne) | Hold]%change_keys; [by left | by right]).
  - intros [(_ & -> & Hne) | Hold]%change_keys; [done | by right].
  - unfold SlicerPanel.handleClearAllFilters. by rewrite lookup_empty.
Qed.

Lemma keys_among_more (lists more : list (list string)) (filters : ColumnFilters) :
  Spec.keys_among lists filters → Spec.keys_among (lists ++ more) filters.
Proof.
  intros Hk column values Hc.
  destruct (Hk column values Hc) as (Hne & columns & Hin & Hcol).
  split; [done|]. exists columns. split; [|done]. apply elem_of_app. by left.
Qed.

Lemma keys_among_empty (lists : list (list string)) : Spec.keys_among lists ∅.
Proof. intros column values H. by rewrite lookup_empty in H. Qed.

(** One event: the keys after it are keys the table had, or columns of
    the list the panel was rendered with. *)
Lemma keys_among_step (lists : list (list string)) (s : State) (e : Event) :
  (∀ t, table s = Some t → Spec.keys_among lists (DataTable.filters t)) →
  ∀ t', table (step s e) = Some t' →
        Spec.keys_among (lists ++ Spec.current_columns s) (DataTable.filters t').
Proof.
  intros Hs t' Ht'.
  assert (Spec.filters_kept s (step s e) →
          Spec.keys_among (lists ++ Spec.current_columns s) (DataTable.filters t'))
    as Hkept.
  { intros Hk. destruct (Hk t' Ht') as [-> | (t & Ht & ->)];
      [apply keys_among_empty | by apply keys_among_more, Hs]. }
  destruct e; try (apply Hkept, filters_kept_step; by intros ?).
  clear Hkept.
  destruct (table s) as [t|] eqn:Ht;
    [|cbn [step] in Ht'; rewrite Ht in Ht'; by rewrite Ht in Ht'].
  destruct (App.data (app s)) as [d|] eqn:Hd;
    [|cbn [step] in Ht'; rewrite Ht, Hd, Ht in Ht'; simplify_eq;
      by apply keys_among_more, Hs].
  destruct (SlicerPanel.rendered (dr_columns d) (DataTable.filters t) a) eqn:Hr;
    [|cbn [step] in Ht'; rewrite Ht, Hd, Hr, Ht in Ht'; simplify_eq;
      by apply keys_among_more, Hs].
  rewrite (slice_step s t d a Ht Hd Hr) in Ht'. cbn in Ht'. simplify_eq.
  rewrite useEffect_filters. cbn.
  intros column values Hc.
  destruct (dispatch_keys _ _ _ _ _ Hr Hc) as [[Hcol Hne] | Hold].
  - split; [done|]. exists (dr_columns d). split; [|done].
    apply elem_of_app. right. unfold Spec.current_columns. rewrite Hd.
    by apply list_elem_of_singleton.
  - by apply (keys_among_more lists _ (DataTable.filters t) (Hs t eq_refl)).
Qed.

Lemma keys_among_run (events : list Event) (lists : list (list string)) (s : State) :
  (∀ t, table s = Some t → Spec.keys_among lists (DataTable.filters t)) →
  ∀ t', table (run s events) = Some t' →
        Spec.keys_among (lists ++ Spec.column_lists s events) (DataTable.filters t').
Proof.
  revert lists s. induction events as [|e events IH]; intros lists s Hs t' Ht'.
  - by apply keys_among_more, Hs.
  - cbn [Spec.column_lists]. rewrite app_assoc.
    apply (IH _ (step s e)); [|done].
    by apply keys_among_step.
Qed.

(** C8, as the code has it. In every state the application reaches, by
    any events in any order, each key of the filter object of the table
    holds a non-empty array and is a column of a column list that [App]
    has passed down in the course of the run: slicers exist only for the
    columns of the list passed down when they are used.  Hence each key
    is a column of [columns] as long as no other columns have been passed
    down, as is each key of a filter object built in a panel that is
    given [columns] throughout.  Unticking the last value of a column
    yields the empty selection, on which the key is deleted; and the
    query string of a page request and of an export request has a
    [filters] parameter exactly when the object has a key.  (A key that
    was set stays when [App] passes down other columns to a table that
    stays mounted.) *)
Theorem slicer_filters_well_formed (events : list Event) (columns : list string)
  (actions : list SlicerPanel.Action) :
  (∀ t, table (run initial events) = Some t →
        Spec.keys_among (Spec.column_lists initial events) (DataTable.filters t)
        ∧ ((∀ passed, passed ∈ Spec.column_lists initial events → passed ⊆ columns) →
           Spec.well_formed columns (DataTable.filters t)))
  ∧ Spec.well_formed columns (Spec.play columns actions)
  ∧ (∀ (filters : ColumnFilters) column value,
       ColumnSlicer.handleValueToggle [value] value = []
       ∧ SlicerPanel.handleColumnFilterChange filters column [] !! column = None)
  ∧ (∀ (filters : ColumnFilters) limit offset,
       get "filters" (filtered_params limit offset filters)
       = if bool_decide (filters = ∅) then None else Some (PFilters filters))
  ∧ (∀ (filters : ColumnFilters) limit offset,
       get "filters" (export_params limit offset (Some filters))
       = if bool_decide (filters = ∅) then None else Some (PFilters filters)).
Proof.
  split; [|split; [|split; [|split]]].
  - intros t Ht.
    assert (Spec.keys_among (Spec.column_lists initial events) (DataTable.filters t))
      as Hkeys.
    { by apply (keys_among_run events [] initial). }
    split; [done|].
    intros Hpassed column values Hc.
    destruct (Hkeys column values Hc) as (Hne & passed & Hin & Hcol).
    split; [|done]. by apply (Hpassed passed).
  - apply well_formed_foldl, well_formed_empty.
  - intros filters column value. split.
    + unfold ColumnSlicer.handleValueToggle, ColumnSlicer.includes.
      cbn [existsb]. rewrite String.eqb_refl. cbn [orb List.filter].
      by rewrite String.eqb_refl.
    + cbn. apply lookup_delete_eq.
  - intros. apply filtered_params_filters.
  - intros. apply export_params_filters.
Qed.

(** Two loads that overlap, as below: the key was set while the columns
    of the first file were passed down. *)
Lemma slicer_filters_well_formed_witness :
  let info := ok_with {| lp_message := "loaded"; lp_rows := 5 |} in
  let events := [FileSelect "data/sales.parquet";
                 FileSelect "data/other.parquet";
                 LoadParquetDone 0 info;
                 GetDataDone 1 (ok_with Sample.dataset);
                 Slice (SlicerPanel.ValueToggle "region" "east");
                 FetchDone 1 (ok_with Sample.east);
                 LoadParquetDone 0 info;
                 GetDataDone 0 (ok_with Sample.other)] in
  let t := {| DataTable.data := fd_data Sample.east; DataTable.currentPage := 1;
              DataTable.pageSize := 100; DataTable.loading := false;
              DataTable.filters := {[ "region" := ["east"] ]};
              DataTable.filteredRows := 2 |} in
  table (run initial events) = Some t
  ∧ Spec.column_lists initial events
    = [["region"; "amount"]; ["region"; "amount"]; ["region"; "amount"];
       ["region"; "amount"]; ["city"; "sales"]]
  ∧ Spec.keys_among (Spec.column_lists initial events) (DataTable.filters t).
Proof.
  intros info events t.
  assert (table (run initial events) = Some t) as Ht by by vm_compute.
  split; [exact Ht|]. split; [by vm_compute|].
  destruct (slicer_filters_well_formed events [] []) as [Hrun _].
  exact (proj1 (Hrun t Ht)).
Defined.

(** C8, as the specification states it, fails when two loads overlap. Two files are
    picked one after the other.  The first load completes and the table
    is mounted with the columns region and amount; the user ticks east
    in the slicer of region.  The [getData] reply of the second load
    then passes the columns city and sales down to the mounted table,
    which keeps its filter object: its key region is not one of the
    columns.  A tick in the slicer of city adds a key to it, and the
    request that goes out carries both. *)
Lemma key_of_replaced_columns :
  let info := ok_with {| lp_message := "loaded"; lp_rows := 5 |} in
  let s := run initial
             [FileSelect "data/sales.parquet";
              FileSelect "data/other.parquet";
              LoadParquetDone 0 info;
              GetDataDone 1 (ok_with Sample.dataset);
              Slice (SlicerPanel.ValueToggle "region" "east");
              FetchDone 1 (ok_with Sample.east);
              LoadParquetDone 0 info;
              GetDataDone 0 (ok_with Sample.other)] in
  let s' := step s (Slice (SlicerPanel.ValueToggle "city" "Oslo")) in
  (dr_columns <$> App.data (app s)) = Some ["city"; "sales"]
  ∧ (DataTable.filters <$> table s) = Some {[ "region" := ["east"] ]}
  ∧ ¬ Spec.well_formed ["city"; "sales"] {[ "region" := ["east"] ]}
  ∧ (DataTable.filters <$> table s')
    = Some {[ "region" := ["east"]; "city" := ["Oslo"] ]}
  ∧ ¬ Spec.well_formed ["city"; "sales"] {[ "region" := ["east"]; "city" := ["Oslo"] ]}
  ∧ last (network s')
    = Some (filtered_request 100 0 {[ "region" := ["east"]; "city" := ["Oslo"] ]})
  ∧ get "filters"
      (query (filtered_request 100 0 {[ "region" := ["east"]; "city" := ["Oslo"] ]}))
    = Some (PFilters {[ "region" := ["east"]; "city" := ["Oslo"] ]}).
Proof.
  assert (∀ filters : ColumnFilters,
            filters !! "region" = Some ["east"] →
            ¬ Spec.well_formed ["city"; "sales"] filters) as Hregion.
  { intros filters Hkey Hwf. destruct (Hwf "region" ["east"] Hkey) as [Hin _].
    apply (bool_decide_pack _) in Hin. by vm_compute in Hin. }
  cbn zeta. repeat split; try by vm_compute.
  - by apply Hregion.
  - by apply Hregion.
Qed.

End FilterKeys.
